(** * slack-mcp: the workspace client, the summarizer and the tool router

    A shallow embedding of [src/slack_client.py], [src/summarizer.py],
    the workspaces of [src/config.py] and the client registry and the
    [slack_unread] route of [src/mcp_server.py], with the properties of the
    specification stated and settled against it.

    Conventions of the embedding.
    - A Python [str] is a list of characters ([list ascii]); literals are
      written [py "..."].  Text is taken to be ASCII: [lower], [isspace] and
      the regular-expression classes [\s] and [\w] are the ASCII restrictions
      of Python's Unicode versions, a non-ASCII byte is neither a letter nor
      whitespace.
    - A Python [int] is [Z]; [time.time()] readings are exact numbers of
      seconds in [Z].
    - Exceptions are values of [exn]; a computation of the client is a
      function from the world (client object, backend, call log) to an
      outcome and a new world.
    - The Slack Web API and the clock are an interface ([Class Env]).
    - The instant of a message is kept as the id ([ts]) that it is computed
      from; the computation itself ([float], [datetime.fromtimestamp]) is
      part of the interface, and fails where the interface says so. *)

From Stdlib Require Import ZArith Ascii String List Bool Lia DecimalString.
From Stdlib Require Import Sorted Permutation.
From stdpp Require Import base tactics option list gmap strings.

Open Scope Z_scope.

Abbreviation str := (list ascii) (only parsing).

(** A string literal as a Python [str]. *)
Definition py (s : string) : str := list_ascii_of_string s.
Arguments py : simpl never.

(* ================================================================== *)
(** * Python's [str] methods *)
(* ================================================================== *)
Module PyStr.

(** [str.isspace] on one ASCII character: TAB..CR, FS..US and the space. *)
Definition isspace (c : ascii) : bool :=
  let n := N_of_ascii c in
  (((9 <=? n) && (n <=? 13)) || ((28 <=? n) && (n <=? 32)))%N.

Definition isupper (c : ascii) : bool :=
  let n := N_of_ascii c in ((65 <=? n) && (n <=? 90))%N.

Definition islower (c : ascii) : bool :=
  let n := N_of_ascii c in ((97 <=? n) && (n <=? 122))%N.

Definition isdigit (c : ascii) : bool :=
  let n := N_of_ascii c in ((48 <=? n) && (n <=? 57))%N.

Definition lower_char (c : ascii) : ascii :=
  if isupper c then ascii_of_N (N_of_ascii c + 32) else c.

(** [s.lower()] *)
Definition lower (s : str) : str := map lower_char s.

(** [s.startswith(p)] *)
Fixpoint startswith (s p : str) : bool :=
  match p, s with
  | [], _ => true
  | a :: p', b :: s' => Ascii.eqb a b && startswith s' p'
  | _ :: _, [] => false
  end.

(** [needle in hay] *)
Fixpoint contains (needle hay : str) : bool :=
  startswith hay needle ||
  match hay with
  | [] => false
  | _ :: t => contains needle t
  end.

(** [s.endswith(p)] *)
Definition endswith (s p : str) : bool := startswith (rev s) (rev p).

(** [s[:k]] for any integer [k]: a negative bound counts from the end. *)
Definition slice_to (s : str) (k : Z) : str :=
  if 0 <=? k then take (Z.to_nat k) s
  else take (Z.to_nat (Z.of_nat (length s) + k)) s.

(** [s[k:]] for a bound [k >= 0]. *)
Definition slice_from (s : str) (k : nat) : str := drop k s.

(** [s.replace(old, new)]: the occurrences of [old], left to right and not
    overlapping.  [skip] counts the characters of an occurrence still to be
    dropped. *)
Fixpoint replace_go (old new : str) (skip : nat) (s : str) : str :=
  match s with
  | [] => match old with [] => new | _ :: _ => [] end
  | c :: t =>
      match skip with
      | S k => replace_go old new k t
      | O =>
          match old with
          | [] => new ++ c :: replace_go old new 0 t
          | _ :: old' =>
              if startswith s old
              then new ++ replace_go old new (length old') t
              else c :: replace_go old new 0 t
          end
      end
  end.

Definition replace (s old new : str) : str := replace_go old new 0 s.

(** [s.lstrip(chars)] and [s.lstrip()] *)
Fixpoint lstrip_by (p : ascii -> bool) (s : str) : str :=
  match s with
  | c :: t => if p c then lstrip_by p t else s
  | [] => []
  end.

Definition rstrip_by (p : ascii -> bool) (s : str) : str :=
  rev (lstrip_by p (rev s)).

Definition strip_by (p : ascii -> bool) (s : str) : str :=
  rstrip_by p (lstrip_by p s).

Definition in_chars (chars : str) (c : ascii) : bool :=
  existsb (Ascii.eqb c) chars.

(** [s.strip()] *)
Definition strip (s : str) : str := strip_by isspace s.
(** [s.lstrip(chars)] *)
Definition lstrip (s chars : str) : str := lstrip_by (in_chars chars) s.
(** [s.strip(chars)] *)
Definition strip_chars (s chars : str) : str := strip_by (in_chars chars) s.

(** [s.rsplit(sep, 1)[0]] for a one-character separator: what precedes the
    last [sep], the whole string when there is none. *)
Fixpoint rsplit1_head (sep : ascii) (s : str) : str :=
  match s with
  | [] => []
  | c :: t =>
      if existsb (Ascii.eqb sep) t then c :: rsplit1_head sep t
      else if Ascii.eqb sep c then [] else s
  end.

(** [s.split()]: the maximal runs of non-whitespace characters. [cur] is the
    run being read. *)
Fixpoint split_go (cur : str) (s : str) : list str :=
  match s with
  | [] => match cur with [] => [] | _ :: _ => [cur] end
  | c :: t =>
      if isspace c
      then match cur with [] => split_go [] t | _ :: _ => cur :: split_go [] t end
      else split_go (cur ++ [c]) t
  end.

Definition split (s : str) : list str := split_go [] s.

(** [sep.join(ws)] *)
Fixpoint join (sep : str) (ws : list str) : str :=
  match ws with
  | [] => []
  | [w] => w
  | w :: rest => w ++ sep ++ join sep rest
  end.

(** [len(s)] *)
Definition len (s : str) : Z := Z.of_nat (length s).

(** Words separated by single spaces: every whitespace character of [s] is
    a space that follows a word and is followed by one. [after_word] says
    that a word character has just been read. *)
Fixpoint single_spaced (after_word : bool) (s : str) : bool :=
  match s with
  | [] => after_word
  | c :: t =>
      if isspace c
      then Ascii.eqb c " " && after_word && single_spaced false t
      else single_spaced true t
  end.

Definition collapsed (s : str) : bool :=
  match s with
  | [] => true
  | _ :: _ => single_spaced false s
  end.

(** No character of [w] is whitespace. *)
Definition spacefree (w : str) : Prop :=
  forallb (fun c => negb (isspace c)) w = true.

(** [a <= b] on [str]: the order of the first character that differs, a
    proper prefix coming first. *)
Fixpoint str_leb (a b : str) : bool :=
  match a, b with
  | [], _ => true
  | _ :: _, [] => false
  | x :: a', y :: b' =>
      if (N_of_ascii x <? N_of_ascii y)%N then true
      else if (N_of_ascii y <? N_of_ascii x)%N then false
      else str_leb a' b'
  end.

End PyStr.

(* ================================================================== *)
(** * Python's stable sort *)
(* ================================================================== *)
Module PySort.

(** [x] goes before the first element that [le] lets it precede. *)
Fixpoint insert_by {A} (le : A -> A -> bool) (x : A) (l : list A) : list A :=
  match l with
  | [] => [x]
  | y :: t => if le x y then x :: l else y :: insert_by le x t
  end.

(** [l.sort(...)] and [sorted(l, ...)] for the order [le]: the sort is
    stable, so its result is the one of inserting each element, last first,
    before the elements it may precede. For [key=k] the order is
    [k x <= k y], for [key=k, reverse=True] it is [k y <= k x]. *)
Definition sort_by {A} (le : A -> A -> bool) (l : list A) : list A :=
  foldr (insert_by le) [] l.

End PySort.

(* ================================================================== *)
(** * The fragment of Python's [re] used by the summarizer *)
(* ================================================================== *)
Module Re.
Import PyStr.

(** Patterns: the constructs that occur in [summarizer.py].  A repetition
    [+] is only ever applied to a character class there. *)
Inductive regex : Type :=
| Eps
| Chr (c : ascii)
| Cls (p : ascii -> bool)
| Plus (p : ascii -> bool)
| Seq (r1 r2 : regex)
| Alt (r1 r2 : regex)
| Opt (r : regex)
| Grp (k : nat) (r : regex)
| Bol
| Eol.

(** The word as a pattern. *)
Fixpoint word (w : str) : regex :=
  match w with
  | [] => Eps
  | c :: w' => Seq (Chr c) (word w')
  end.

Definition lit (s : string) : regex := word (py s).

(** Alternation of a non-empty list of patterns, in order. *)
Fixpoint alts (r : regex) (rs : list regex) : regex :=
  match rs with
  | [] => r
  | r' :: rs' => Alt r (alts r' rs')
  end.

(** [\s] and [\w] *)
Definition cls_s : ascii -> bool := isspace.
Definition cls_w (c : ascii) : bool :=
  isupper c || islower c || isdigit c || Ascii.eqb c "_"%char.
(** [[^...]] *)
Definition cls_not (chars : str) (c : ascii) : bool := negb (in_chars chars c).

(** Length of the longest prefix of [s] whose characters satisfy [p]. *)
Fixpoint run_length (p : ascii -> bool) (s : str) : nat :=
  match s with
  | c :: t => if p c then S (run_length p t) else O
  | [] => O
  end.

(** [n; n-1; ...; 1] *)
Fixpoint countdown (n : nat) : list nat :=
  match n with
  | O => []
  | S m => n :: countdown m
  end.

Abbreviation captures := (list (nat * list ascii)) (only parsing).

(** All the ways [r] matches a prefix of [s], in the order in which a
    backtracking matcher finds them (greedy repetition, left alternative
    first): each is the number of characters consumed and the groups
    captured.  [bol] says that [s] starts at the beginning of the subject. *)
Fixpoint rmatch (r : regex) (bol : bool) (s : str) : list (nat * captures) :=
  match r with
  | Eps => [(O, [])]
  | Chr c =>
      match s with
      | x :: _ => if Ascii.eqb x c then [(1%nat, [])] else []
      | [] => []
      end
  | Cls p =>
      match s with
      | x :: _ => if p x then [(1%nat, [])] else []
      | [] => []
      end
  | Plus p => map (fun n => (n, [])) (countdown (run_length p s))
  | Seq r1 r2 =>
      flat_map (fun m1 =>
        map (fun m2 => ((m1.1 + m2.1)%nat, m1.2 ++ m2.2))
            (rmatch r2 (bol && Nat.eqb m1.1 0) (drop m1.1 s)))
        (rmatch r1 bol s)
  | Alt r1 r2 => rmatch r1 bol s ++ rmatch r2 bol s
  | Opt r1 => rmatch r1 bol s ++ [(O, [])]
  | Grp k r1 => map (fun m => (m.1, (k, take m.1 s) :: m.2)) (rmatch r1 bol s)
  | Bol => if bol then [(O, [])] else []
  | Eol =>
      match s with
      | [] => [(O, [])]
      | [c] => if Ascii.eqb c "010"%char then [(O, [])] else []
      | _ => []
      end
  end.

(** Does [r] match at the start of [s]? *)
Definition accepts (r : regex) (bol : bool) (s : str) : bool :=
  match rmatch r bol s with [] => false | _ :: _ => true end.

(** [re.search(r, s)] as a truth value: a match at some position. *)
Fixpoint search_from (r : regex) (bol : bool) (s : str) : bool :=
  accepts r bol s ||
  match s with
  | [] => false
  | _ :: t => search_from r false t
  end.

Definition search (r : regex) (s : str) : bool := search_from r true s.

(** Replacement templates: text and group references [\k]. *)
Inductive repl_item : Type :=
| RText (s : str)
| RGroup (k : nat).

Definition group (g : captures) (k : nat) : str :=
  match find (fun kv => Nat.eqb kv.1 k) g with
  | Some kv => kv.2
  | None => []
  end.

Definition expand (repl : list repl_item) (g : captures) : str :=
  flat_map (fun it => match it with RText s => s | RGroup k => group g k end) repl.

(** [re.sub(r, repl, s)]: scanning left to right, the first match at the
    leftmost position is replaced and scanning resumes after it.  [skip]
    counts the characters of the current match still to be dropped. *)
Fixpoint sub_go (r : regex) (repl : list repl_item) (bol : bool) (skip : nat)
    (s : str) : str :=
  match s with
  | [] =>
      match skip with
      | O => match rmatch r bol [] with
             | m :: _ => expand repl m.2
             | [] => []
             end
      | S _ => []
      end
  | c :: t =>
      match skip with
      | S k => sub_go r repl false k t
      | O =>
          match rmatch r bol s with
          | (O, g) :: _ => expand repl g ++ c :: sub_go r repl false 0 t
          | (S n, g) :: _ => expand repl g ++ sub_go r repl false n t
          | [] => c :: sub_go r repl false 0 t
          end
      end
  end.

Definition sub (r : regex) (repl : list repl_item) (s : str) : str :=
  sub_go r repl true 0 s.

End Re.

(* ================================================================== *)
(** * Values, exceptions and outcomes *)
(* ================================================================== *)

(** The JSON scalars that reach the code untyped: conversation flags, which
    are only tested for truth, and tool arguments. *)
Inductive pyval : Type :=
| PNone
| PBool (b : bool)
| PInt (z : Z)
| PStr (s : str).

(** Python's truth value. *)
Definition truthy (v : pyval) : bool :=
  match v with
  | PNone => false
  | PBool b => b
  | PInt z => negb (z =? 0)
  | PStr s => match s with [] => false | _ :: _ => true end
  end.

(** Truth value of [d.get(key)]: an absent key reads as [None]. *)
Definition truthy_get (o : option pyval) : bool :=
  match o with Some v => truthy v | None => false end.

(** Truth value of an optional [str]: [None] and the empty string are false. *)
Definition nonempty (o : option str) : bool :=
  match o with Some (_ :: _) => true | _ => false end.

Definition str_eqb (a b : str) : bool := bool_decide (a = b).

Inductive exn : Type :=
| SlackApiError (error : str)
| ValueError (msg : str)
| TypeError (msg : str)
| KeyError (key : str)
| StopIteration
| OtherError (msg : str).

(** [str(e)] *)
Definition exn_str (e : exn) : str :=
  match e with
  | SlackApiError error => error
  | ValueError msg => msg
  | TypeError msg => msg
  | KeyError key => py "'" ++ key ++ py "'"
  | StopIteration => []
  | OtherError msg => msg
  end.

(** What running a piece of code gives: a value, an exception, or no answer
    within the steps allowed to its loops. *)
Inductive outcome (A : Type) : Type :=
| Ok (a : A)
| Raise (e : exn)
| Diverge.
Arguments Ok {A} a.
Arguments Raise {A} e.
Arguments Diverge {A}.

(* ================================================================== *)
(** * [src/config.py]: workspace configuration *)
(* ================================================================== *)
Module config.

Record WorkspaceConfig : Type := {
  key : str;
  name : str;
  token : str;
  priority : Z;
}.

(** [workspaces] keeps the insertion order of the Python dict. *)
Record Config : Type := {
  workspaces : list (str * WorkspaceConfig);
  default_workspace : option str;
}.

Definition lookup_workspace (k : str) (ws : list (str * WorkspaceConfig))
  : option WorkspaceConfig :=
  match find (fun kv => str_eqb kv.1 k) ws with
  | Some kv => Some kv.2
  | None => None
  end.

(** [Config.get_workspace] *)
Definition get_workspace (c : Config) (k : option str) : exn + WorkspaceConfig :=
  let k := match k with None => default_workspace c | Some _ => k end in
  match k with
  | None =>
      match workspaces c with
      | kv :: _ => inr kv.2
      | [] => inl StopIteration
      end
  | Some k =>
      match lookup_workspace k (workspaces c) with
      | None => inl (ValueError (py "Unknown workspace: " ++ k))
      | Some w => inr w
      end
  end.

(** [Config.list_workspaces] *)
Definition list_workspaces (c : Config) : list WorkspaceConfig :=
  PySort.sort_by (fun a b => priority a <=? priority b)
                 (map snd (workspaces c)).

End config.

(* ================================================================== *)
(** * [src/slack_client.py]: data model *)
(* ================================================================== *)
Module User.
Record t : Type := {
  id : str;
  name : str;
  real_name : str;
  is_bot : bool;
}.
End User.

Module Message.
(** [timestamp] is the instant that [ts] denotes; it is kept as the token it
    is computed from. *)
Record t : Type := {
  ts : str;
  text : str;
  user_id : option str;
  user_name : option str;
  channel_id : str;
  channel_name : str;
  thread_ts : option str;
  reply_count : Z;
  is_mention : bool;
  timestamp : option str;
}.
End Message.

Module Conversation.
Record t : Type := {
  id : str;
  name : str;
  type : str;
  is_member : bool;
  is_archived : bool;
  unread_count : Z;
  last_read : option str;
  latest_message : option Message.t;
}.
End Conversation.

(** ** Backend payloads

    The keys the client reads from the backend's dictionaries; [None] is an
    absent key. *)
Module Raw.

Record conv : Type := {
  c_id : option str;
  c_name : option str;
  c_user : option str;
  c_is_im : option pyval;
  c_is_mpim : option pyval;
  c_is_private : option pyval;
  c_is_member : option bool;
  c_is_archived : option bool;
  c_unread_count : option Z;
  c_last_read : option str;
}.

Record msg : Type := {
  m_subtype : option str;
  m_user : option str;
  m_text : option str;
  m_ts : option str;
  m_thread_ts : option str;
  m_reply_count : option Z;
}.

Record user : Type := {
  u_name : option str;
  u_real_name : option str;
  u_is_bot : option bool;
}.

(** [conversations.list]: [response["channels"]] and
    [response["response_metadata"]["next_cursor"]]. *)
Record list_response : Type := {
  channels : list conv;
  next_cursor : option str;
}.

(** A time bound of a history query: a number of seconds or a message id. *)
Inductive bound : Type :=
| Seconds (z : Z)
| Token (s : str).

Record history_args : Type := {
  h_channel : str;
  h_limit : Z;
  h_oldest : option bound;
  h_latest : option bound;
  h_inclusive : bool;
}.

End Raw.

(** The calls a client makes on the world outside, as they are logged. *)
Inductive call : Type :=
| Call_auth_test
| Call_users_info (user : str)
| Call_conversations_list (types : str) (cursor : option str)
| Call_conversations_history (args : Raw.history_args)
| Call_conversations_replies (channel ts : str) (limit : Z)
| Call_chat_postMessage (channel text : str) (thread_ts : option str)
| Call_sleep.

(** The world outside the client: the Slack Web API ([slack_sdk.WebClient])
    and the clock.  Every operation may change the state [B] of that world;
    an API call answers with a payload or raises.  [fromtimestamp ts] is
    [datetime.fromtimestamp(float(ts), tz=timezone.utc)]: the instant, in
    seconds, or the exception that [float] or [fromtimestamp] raises on an
    id that is not a number or is out of range. *)
Class Env (B : Type) : Type := {
  auth_test : B -> (exn + str) * B;
  users_info : str -> B -> (exn + Raw.user) * B;
  conversations_list : str -> option str -> B -> (exn + Raw.list_response) * B;
  conversations_history : Raw.history_args -> B -> (exn + list Raw.msg) * B;
  conversations_replies : str -> str -> Z -> B -> (exn + list Raw.msg) * B;
  chat_postMessage : str -> str -> option str -> B -> (exn + str) * B;
  time_time : B -> Z * B;
  time_sleep : B -> B;
  fromtimestamp : str -> exn + Z;
}.

(* ================================================================== *)
(** * [src/slack_client.py]: the workspace client *)
(** ** The calls of the client that are not logged

    Search results ([match] in [search_messages]) and the two calls of the
    Web API that the log of calls does not record. *)
Module RawSearch.

(** [match["channel"]] *)
Record channel : Type := {
  ch_id : option str;
  ch_name : option str;
}.

Record result : Type := {
  s_user : option str;
  s_username : option str;
  s_channel : option channel;
  s_text : option str;
  s_ts : option str;
}.

End RawSearch.

Class EnvMore (B : Type) : Type := {
  search_messages_api : str -> Z -> str -> B -> (exn + list RawSearch.result) * B;
  reactions_add : str -> str -> str -> B -> (exn + unit) * B;
}.

(* ================================================================== *)
Module SlackClient.
Import PyStr.

(** Rate limiting is a fixed pause between paginated calls
    ([RATE_LIMIT_DELAY]); its length plays no part here. *)

(** The fields of the [SlackClient] object. *)
Record t : Type := {
  workspace : config.WorkspaceConfig;
  _user_cache : gmap str User.t;
  _my_user_id : option str;
  _conversations_cache : option (list Conversation.t);
  _conversations_cache_time : Z;
}.

(** [SlackClient(workspace=ws)] *)
Definition new (ws : config.WorkspaceConfig) : t :=
  {| workspace := ws; _user_cache := ∅; _my_user_id := None;
     _conversations_cache := None; _conversations_cache_time := 0 |}.

Definition set_user_cache (f : gmap str User.t -> gmap str User.t) (c : t) : t :=
  {| workspace := workspace c; _user_cache := f (_user_cache c);
     _my_user_id := _my_user_id c;
     _conversations_cache := _conversations_cache c;
     _conversations_cache_time := _conversations_cache_time c |}.

Definition set_my_user_id (u : str) (c : t) : t :=
  {| workspace := workspace c; _user_cache := _user_cache c;
     _my_user_id := Some u;
     _conversations_cache := _conversations_cache c;
     _conversations_cache_time := _conversations_cache_time c |}.

Definition set_conversations_cache (l : list Conversation.t) (c : t) : t :=
  {| workspace := workspace c; _user_cache := _user_cache c;
     _my_user_id := _my_user_id c;
     _conversations_cache := Some l;
     _conversations_cache_time := _conversations_cache_time c |}.

Definition set_conversations_cache_time (now : Z) (c : t) : t :=
  {| workspace := workspace c; _user_cache := _user_cache c;
     _my_user_id := _my_user_id c;
     _conversations_cache := _conversations_cache c;
     _conversations_cache_time := now |}.

Section Client.
Context {B : Type} `{Env B}.

(** The client object, the world outside, and the calls made so far. *)
Record world : Type := World {
  self : t;
  backend : B;
  log : list call;
}.

Definition M (A : Type) : Type := world -> outcome A * world.

Definition ret {A} (a : A) : M A := fun w => (Ok a, w).
Definition raise {A} (e : exn) : M A := fun w => (Raise e, w).
Definition diverge {A} : M A := fun w => (Diverge, w).

Definition bind {A C} (m : M A) (k : A -> M C) : M C :=
  fun w =>
    match m w with
    | (Ok a, w') => k a w'
    | (Raise e, w') => (Raise e, w')
    | (Diverge, w') => (Diverge, w')
    end.

(** [try: m except <those e with h e = Some _>: h e] *)
Definition try_except {A} (m : M A) (h : exn -> option (M A)) : M A :=
  fun w =>
    match m w with
    | (Raise e, w') =>
        match h e with
        | Some k => k w'
        | None => (Raise e, w')
        end
    | r => r
    end.

Definition get_self : M t := fun w => (Ok (self w), w).

Definition modify_self (f : t -> t) : M unit :=
  fun w => (Ok tt, {| self := f (self w); backend := backend w; log := log w |}).

(** One call of the Web API, logged. *)
Definition api {R} (c : call) (f : B -> (exn + R) * B) : M R :=
  fun w =>
    let rb := f (backend w) in
    let w' := {| self := self w; backend := rb.2; log := log w ++ [c] |} in
    match rb.1 with
    | inl e => (Raise e, w')
    | inr r => (Ok r, w')
    end.

(** [time.time()] *)
Definition now : M Z :=
  fun w =>
    let zb := time_time (backend w) in
    (Ok zb.1, {| self := self w; backend := zb.2; log := log w |}).

(** [time.sleep(RATE_LIMIT_DELAY)] *)
Definition sleep : M unit :=
  fun w =>
    (Ok tt, {| self := self w; backend := time_sleep (backend w);
               log := log w ++ [Call_sleep] |}).

End Client.
Arguments world B : clear implicits.
Arguments M B A : clear implicits.

Declare Scope client_scope.
Delimit Scope client_scope with client.
Notation "x <- c ;; k" := (bind c (fun x => k))
  (at level 100, c at next level, right associativity) : client_scope.
Notation "c ;;; k" := (bind c (fun _ => k))
  (at level 100, right associativity) : client_scope.
Open Scope client_scope.

Section Operations.
Context {B : Type} `{Env B}.
Local Abbreviation M := (M B).

Definition only_SlackApiError {A} (k : str -> option (M A)) (e : exn)
  : option (M A) :=
  match e with
  | SlackApiError error => k error
  | _ => None
  end.

(** [SlackClient.my_user_id] *)
Definition my_user_id : M str :=
  c <- get_self ;;
  match _my_user_id c with
  | None =>
      user_id <- api Call_auth_test auth_test ;;
      modify_self (set_my_user_id user_id) ;;;
      ret user_id
  | Some u => ret u
  end.

(** [SlackClient.get_user] *)
Definition get_user (user_id : str) : M User.t :=
  c <- get_self ;;
  (match _user_cache c !! user_id with
   | Some _ => ret tt
   | None =>
       try_except
         (user_data <- api (Call_users_info user_id) (users_info user_id) ;;
          let name := default (py "unknown") (Raw.u_name user_data) in
          modify_self (set_user_cache (insert user_id
            {| User.id := user_id;
               User.name := name;
               User.real_name :=
                 default (default (py "Unknown") (Raw.u_name user_data))
                         (Raw.u_real_name user_data);
               User.is_bot := default false (Raw.u_is_bot user_data) |})))
         (only_SlackApiError (fun _ => Some
           (modify_self (set_user_cache (insert user_id
              {| User.id := user_id;
                 User.name := py "unknown";
                 User.real_name := py "Unknown User";
                 User.is_bot := false |})))))
   end) ;;;
  c' <- get_self ;;
  match _user_cache c' !! user_id with
  | Some u => ret u
  | None => raise (KeyError user_id)
  end.

(** [SlackClient._get_conversation_type] *)
Definition _get_conversation_type (conv : Raw.conv) : str :=
  if truthy_get (Raw.c_is_im conv) then py "dm"
  else if truthy_get (Raw.c_is_mpim conv) then py "mpim"
  else if truthy_get (Raw.c_is_private conv) then py "group"
  else py "channel".

(** [SlackClient._get_conversation_name] *)
Definition _get_conversation_name (conv : Raw.conv) (conv_type : str)
    (resolve_users : bool) : M str :=
  if str_eqb conv_type (py "dm") then
    match Raw.c_user conv with
    | Some (c0 :: u) =>
        let user_id := c0 :: u in
        if resolve_users then
          user <- get_user user_id ;;
          ret (py "@" ++ User.real_name user)
        else ret (py "@user:" ++ user_id)
    | _ => ret (py "@Unknown")
    end
  else if str_eqb conv_type (py "mpim") then
    ret (replace (replace (default (py "Group DM") (Raw.c_name conv))
                          (py "mpdm-") [])
                 (py "--") (py ", "))
  else ret (py "#" ++ default (py "unknown") (Raw.c_name conv)).

(** [SlackClient.resolve_dm_name] *)
Definition resolve_dm_name (conv : Conversation.t) : M str :=
  if startswith (Conversation.name conv) (py "@user:") then
    let user_id := slice_from (Conversation.name conv) 6 in
    user <- get_user user_id ;;
    ret (py "@" ++ User.real_name user)
  else ret (Conversation.name conv).


(** ** The conversation directory *)

(** [s.split(",")] *)
Fixpoint split_on_go (sep : ascii) (cur : str) (s : str) : list str :=
  match s with
  | [] => [cur]
  | c :: t =>
      if Ascii.eqb c sep then cur :: split_on_go sep [] t
      else split_on_go sep (cur ++ [c]) t
  end.

Definition split_on (sep : ascii) (s : str) : list str := split_on_go sep [] s.

Definition all_types : str := py "public_channel,private_channel,mpim,im".

Definition type_map : gmap str str :=
  list_to_map
    [ (py "public_channel", py "channel");
      (py "private_channel", py "group");
      (py "mpim", py "mpim");
      (py "im", py "dm") ].

(** [{type_map.get(t, t) for t in set(types.split(","))}] *)
Definition allowed_types (types : str) : gset str :=
  list_to_set (map (fun t0 => default t0 (type_map !! t0)) (split_on "," types)).

Definition filter_cached (types : str) (cache : list Conversation.t)
  : list Conversation.t :=
  List.filter (fun c => bool_decide (Conversation.type c ∈ allowed_types types))
              cache.

Definition cache_ttl : Z := 300.

(** One element of [response["channels"]] as a [Conversation]. *)
Definition conversation_of (conv : Raw.conv) : M Conversation.t :=
  let conv_type := _get_conversation_type conv in
  name <- _get_conversation_name conv conv_type false ;;
  match Raw.c_id conv with
  | None => raise (KeyError (py "id"))
  | Some id =>
      ret {| Conversation.id := id;
             Conversation.name := name;
             Conversation.type := conv_type;
             Conversation.is_member := default true (Raw.c_is_member conv);
             Conversation.is_archived := default false (Raw.c_is_archived conv);
             Conversation.unread_count := default 0 (Raw.c_unread_count conv);
             Conversation.last_read := Raw.c_last_read conv;
             Conversation.latest_message := None |}
  end.

(** [for x in xs: acc.append(f(x))] *)
Fixpoint for_append {X Y} (f : X -> M Y) (xs : list X) (acc : list Y)
  : M (list Y) :=
  match xs with
  | [] => ret acc
  | x :: xs' => y <- f x ;; for_append f xs' (acc ++ [y])
  end.

(** The [while True] loop of [get_conversations]; [fuel] bounds the number
    of pages read. *)
Fixpoint fetch_pages (fuel : nat) (types : str) (cursor : option str)
    (conversations : list Conversation.t) : M (list Conversation.t) :=
  match fuel with
  | O => diverge
  | S fuel' =>
      sleep ;;;
      response <- api (Call_conversations_list types cursor)
                      (conversations_list types cursor) ;;
      conversations' <-
        for_append conversation_of (Raw.channels response) conversations ;;
      let cursor' := Raw.next_cursor response in
      if nonempty cursor' then fetch_pages fuel' types cursor' conversations'
      else ret conversations'
  end.

(** [SlackClient.get_conversations] *)
Definition get_conversations (fuel : nat) (types : str) (use_cache : bool)
  : M (list Conversation.t) :=
  c <- get_self ;;
  fresh <-
    (match use_cache, _conversations_cache c with
     | true, Some (c0 :: cs) =>
         t1 <- now ;;
         ret (t1 - _conversations_cache_time c <? cache_ttl)
     | _, _ => ret false
     end) ;;
  if (fresh : bool) then
    ret (filter_cached types (default [] (_conversations_cache c)))
  else
    conversations <- fetch_pages fuel types None [] ;;
    (if str_eqb types all_types then
       modify_self (set_conversations_cache conversations) ;;;
       t2 <- now ;;
       modify_self (set_conversations_cache_time t2)
     else ret tt) ;;;
    ret conversations.

(** ** History and threads *)

Definition administrative (subtype : option str) : bool :=
  match subtype with
  | Some s => str_eqb s (py "channel_join") || str_eqb s (py "channel_leave")
              || str_eqb s (py "bot_message")
  | None => false
  end.

Definition mention_token (user_id : str) : str := py "<@" ++ user_id ++ py ">".

(** The author of a payload message and the resolved name. *)
Definition author (msg : Raw.msg) : M (option str * option str) :=
  match Raw.m_user msg with
  | Some (c0 :: u) =>
      user <- get_user (c0 :: u) ;;
      ret (Some (c0 :: u), Some (User.real_name user))
  | other => ret (other, None)
  end.

(** [datetime.fromtimestamp(float(ts), tz=timezone.utc) if ts else None] *)
Definition timestamp_of (ts : str) : M (option str) :=
  match ts with
  | [] => ret None
  | _ :: _ =>
      match fromtimestamp ts with
      | inl e => raise e
      | inr _ => ret (Some ts)
      end
  end.

(** The body of the [for msg in ...] loop of [get_messages]; [None] is
    [continue]. *)
Definition history_message (channel_id : str) (msg : Raw.msg)
  : M (option Message.t) :=
  if administrative (Raw.m_subtype msg) then ret None
  else
    a <- author msg ;;
    me <- my_user_id ;;
    let is_mention :=
      contains (mention_token me) (default [] (Raw.m_text msg)) in
    let ts := default [] (Raw.m_ts msg) in
    timestamp <- timestamp_of ts ;;
    ret (Some {| Message.ts := ts;
                 Message.text := default [] (Raw.m_text msg);
                 Message.user_id := a.1;
                 Message.user_name := a.2;
                 Message.channel_id := channel_id;
                 Message.channel_name := [];
                 Message.thread_ts := Raw.m_thread_ts msg;
                 Message.reply_count := default 0 (Raw.m_reply_count msg);
                 Message.is_mention := is_mention;
                 Message.timestamp := timestamp |}).

Fixpoint for_append_some {X Y} (f : X -> M (option Y)) (xs : list X)
    (acc : list Y) : M (list Y) :=
  match xs with
  | [] => ret acc
  | x :: xs' =>
      y <- f x ;;
      for_append_some f xs' (match y with Some v => acc ++ [v] | None => acc end)
  end.

(** A bound is sent only when it is given and not zero. *)
Definition bound_of (o : option Z) : option Raw.bound :=
  match o with
  | Some z => if z =? 0 then None else Some (Raw.Seconds z)
  | None => None
  end.

(** The [kwargs] of [get_messages]. *)
Definition history_kwargs (channel_id : str) (limit : Z)
    (oldest latest : option Z) : Raw.history_args :=
  {| Raw.h_channel := channel_id; Raw.h_limit := limit;
     Raw.h_oldest := bound_of oldest; Raw.h_latest := bound_of latest;
     Raw.h_inclusive := false |}.

(** [SlackClient.get_messages] *)
Definition get_messages (channel_id : str) (limit : Z)
    (oldest latest : option Z) : M (list Message.t) :=
  let kwargs := history_kwargs channel_id limit oldest latest in
  response <-
    try_except
      (r <- api (Call_conversations_history kwargs)
                (conversations_history kwargs) ;;
       ret (Some r))
      (only_SlackApiError (fun error =>
         if str_eqb error (py "channel_not_found") then Some (ret None)
         else None)) ;;
  match response with
  | None => ret []
  | Some messages => for_append_some (history_message channel_id) messages []
  end.

Definition thread_message (channel_id thread_ts : str) (msg : Raw.msg)
  : M Message.t :=
  a <- author msg ;;
  let ts := default [] (Raw.m_ts msg) in
  timestamp <- timestamp_of ts ;;
  ret {| Message.ts := ts;
         Message.text := default [] (Raw.m_text msg);
         Message.user_id := a.1;
         Message.user_name := a.2;
         Message.channel_id := channel_id;
         Message.channel_name := [];
         Message.thread_ts := Some thread_ts;
         Message.reply_count := 0;
         Message.is_mention := false;
         Message.timestamp := timestamp |}.

(** [SlackClient.get_thread] *)
Definition get_thread (channel_id thread_ts : str) (limit : Z)
  : M (list Message.t) :=
  response <-
    try_except
      (r <- api (Call_conversations_replies channel_id thread_ts limit)
                (conversations_replies channel_id thread_ts limit) ;;
       ret (Some r))
      (only_SlackApiError (fun _ => Some (ret None))) ;;
  match response with
  | None => ret []
  | Some messages =>
      for_append (thread_message channel_id thread_ts) messages []
  end.


(** ** Reference resolution *)

(** [for x in xs: if p(x): return g(x)]; [None] when the loop ends. *)
Definition first_match {X Y} (p : X -> bool) (g : X -> Y) (xs : list X)
  : option Y :=
  match find p xs with
  | Some x => Some (g x)
  | None => None
  end.

(** [SlackClient._resolve_channel] *)
Definition _resolve_channel (fuel : nat) (channel : str) : M str :=
  if startswith channel (py "C") || startswith channel (py "D")
     || startswith channel (py "G")
  then ret channel
  else
    let channel :=
      if startswith channel (py "#") then slice_from channel 1 else channel in
    if startswith channel (py "@") then
      let username := slice_from channel 1 in
      convs <- get_conversations fuel (py "im") true ;;
      match first_match
              (fun conv => contains (lower username)
                                    (lower (Conversation.name conv)))
              Conversation.id convs with
      | Some id => ret id
      | None =>
          raise (ValueError (py "Could not find DM with user: " ++ username))
      end
    else
      convs <- get_conversations fuel (py "public_channel,private_channel")
                                 true ;;
      match first_match
              (fun conv => str_eqb (lstrip (Conversation.name conv) (py "#"))
                                   channel)
              Conversation.id convs with
      | Some id => ret id
      | None => raise (ValueError (py "Could not find channel: " ++ channel))
      end.

(** [for conv in convs: resolved = resolve_dm_name(conv); if p(resolved):
    return conv.id, resolved] *)
Fixpoint first_resolved (p : str -> bool) (convs : list Conversation.t)
  : M (option (str * str)) :=
  match convs with
  | [] => ret None
  | conv :: rest =>
      resolved <- resolve_dm_name conv ;;
      if p (lstrip (lower resolved) (py "@"))
      then ret (Some (Conversation.id conv, resolved))
      else first_resolved p rest
  end.

(** [SlackClient.find_dm_by_person] *)
Definition find_dm_by_person (fuel : nat) (person : str) : M (str * str) :=
  let person_lower := lstrip (strip (lower person)) (py "@") in
  dm_convs <- get_conversations fuel (py "im") true ;;
  exact <- first_resolved (fun name_lower => str_eqb person_lower name_lower)
                          dm_convs ;;
  match exact with
  | Some r => ret r
  | None =>
      partial <- first_resolved (fun name_lower =>
                                   contains person_lower name_lower) dm_convs ;;
      match partial with
      | Some r => ret r
      | None => raise (ValueError (py "Could not find DM with: " ++ person))
      end
  end.

(** ** Sending *)

Definition newline : ascii := "010"%char.
Definition dquote : ascii := "034"%char.

(** The characters between the quoted excerpt and the text, as the source
    file has them (UTF-8). *)
Definition reply_dash : str :=
  ["195"; "162"; "226"; "130"; "172"; "226"; "128"; "157"]%char.

(** The quoted excerpt of [_maybe_add_reply_context]. *)
Definition reply_excerpt (original_text : str) : str :=
  let context := slice_to original_text 50 in
  let context :=
    if 50 <? len original_text
    then rsplit1_head " " context ++ py "..."
    else context in
  strip (replace context [newline] (py " ")).

Definition with_reply_context (original_text text : str) : str :=
  py "Re: " ++ [dquote] ++ reply_excerpt original_text ++ [dquote]
  ++ py " " ++ reply_dash ++ py " " ++ text.

(** The arguments of the fetch of the quoted message. *)
Definition original_kwargs (channel_id reply_to_ts : str) : Raw.history_args :=
  {| Raw.h_channel := channel_id; Raw.h_limit := 1;
     Raw.h_oldest := None; Raw.h_latest := Some (Raw.Token reply_to_ts);
     Raw.h_inclusive := true |}.

(** The fetch of the quoted message when it is not among the recent ones;
    whatever goes wrong leaves it unknown. *)
Definition fetch_original (channel_id reply_to_ts : str)
  : M (option Message.t) :=
  let args := original_kwargs channel_id reply_to_ts in
  try_except
    (response <- api (Call_conversations_history args)
                     (conversations_history args) ;;
     match response with
     | msg_data :: _ =>
         match Raw.m_ts msg_data with
         | None => raise (KeyError (py "ts"))
         | Some ts =>
             ret (Some {| Message.ts := ts;
                          Message.text := default [] (Raw.m_text msg_data);
                          Message.user_id := Raw.m_user msg_data;
                          Message.user_name := None;
                          Message.channel_id := channel_id;
                          Message.channel_name := [];
                          Message.thread_ts := None;
                          Message.reply_count := 0;
                          Message.is_mention := false;
                          Message.timestamp := None |})
         end
     | [] => ret None
     end)
    (fun _ => Some (ret None)).

(** [SlackClient._maybe_add_reply_context] *)
Definition _maybe_add_reply_context (channel_id reply_to_ts text : str)
  : M str :=
  recent <- get_messages channel_id 3 None None ;;
  match recent with
  | [] => ret text
  | latest :: _ =>
      if str_eqb (Message.ts latest) reply_to_ts then ret text
      else
        original <-
          match find (fun msg => str_eqb (Message.ts msg) reply_to_ts) recent with
          | Some msg => ret (Some msg)
          | None => fetch_original channel_id reply_to_ts
          end ;;
        match original with
        | Some msg =>
            match Message.text msg with
            | _ :: _ => ret (with_reply_context (Message.text msg) text)
            | [] => ret text
            end
        | None => ret text
        end
  end.

(** [SlackClient.send_message] *)
Definition send_message (fuel : nat) (channel text : str)
    (thread_ts context_for_ts : option str) : M Message.t :=
  channel_id <- _resolve_channel fuel channel ;;
  text <-
    match context_for_ts with
    | Some (c0 :: r) => _maybe_add_reply_context channel_id (c0 :: r) text
    | _ => ret text
    end ;;
  let sent_thread := if nonempty thread_ts then thread_ts else None in
  ts <- api (Call_chat_postMessage channel_id text sent_thread)
            (chat_postMessage channel_id text sent_thread) ;;
  me <- my_user_id ;;
  ret {| Message.ts := ts;
         Message.text := text;
         Message.user_id := Some me;
         Message.user_name := None;
         Message.channel_id := channel_id;
         Message.channel_name := [];
         Message.thread_ts := thread_ts;
         Message.reply_count := 0;
         Message.is_mention := false;
         Message.timestamp := None |}.

End Operations.

(** ** Unread messages *)
Section Unread.
Context {B : Type} `{Env B}.
Local Abbreviation M := (M B).

(** Python's [float] on a last-read marker, in seconds; it raises on a
    marker that is not a number. *)
Variable float_of : str -> exn + Z.

(** [d[k] = v] on a dict in insertion order. *)
Definition dict_set {V} (k : str) (v : V) (d : list (str * V))
  : list (str * V) :=
  if existsb (fun kv => str_eqb kv.1 k) d
  then map (fun kv => if str_eqb kv.1 k then (k, v) else kv) d
  else d ++ [(k, v)].

Definition set_channel_name (name : str) (m : Message.t) : Message.t :=
  {| Message.ts := Message.ts m; Message.text := Message.text m;
     Message.user_id := Message.user_id m;
     Message.user_name := Message.user_name m;
     Message.channel_id := Message.channel_id m;
     Message.channel_name := name;
     Message.thread_ts := Message.thread_ts m;
     Message.reply_count := Message.reply_count m;
     Message.is_mention := Message.is_mention m;
     Message.timestamp := Message.timestamp m |}.

Fixpoint unread_loop (cutoff : Z) (convs : list Conversation.t)
    (unread : list (str * list Message.t)) : M (list (str * list Message.t)) :=
  match convs with
  | [] => ret unread
  | conv :: rest =>
      if Conversation.is_archived conv then unread_loop cutoff rest unread
      else
        oldest <-
          match Conversation.last_read conv with
          | Some (c0 :: r) =>
              match float_of (c0 :: r) with
              | inl e => raise e
              | inr z => ret z
              end
          | _ => ret cutoff
          end ;;
        messages <- get_messages (Conversation.id conv) 50 (Some oldest) None ;;
        match messages with
        | [] => unread_loop cutoff rest unread
        | _ :: _ =>
            unread_loop cutoff rest
              (dict_set (Conversation.name conv)
                 (map (set_channel_name (Conversation.name conv)) messages)
                 unread)
        end
  end.

(** [SlackClient.get_unread_messages(self, hours=24)] *)
Definition get_unread_messages (fuel : nat) (hours : Z)
  : M (list (str * list Message.t)) :=
  t0 <- now ;;
  let cutoff := t0 - hours * 3600 in
  conversations <- get_conversations fuel all_types true ;;
  unread_loop cutoff conversations [].

End Unread.

(** ** Mentions, search, replies and reactions *)
Section More.
Context {B : Type} `{Env B} `{EnvMore B}.
Local Abbreviation M := (M B).

(** The [for conv in conversations] loop of [get_mentions]. The messages
    appended are the ones renamed: the loop renames the very objects it
    appends. *)
Fixpoint mentions_loop (cutoff : Z) (convs : list Conversation.t)
    (mentions : list Message.t) : M (list Message.t) :=
  match convs with
  | [] => ret mentions
  | conv :: rest =>
      if Conversation.is_archived conv then mentions_loop cutoff rest mentions
      else
        messages <- get_messages (Conversation.id conv) 100 (Some cutoff) None ;;
        mentions_loop cutoff rest
          (mentions ++ map (set_channel_name (Conversation.name conv))
                           (List.filter Message.is_mention messages))
  end.

(** [mentions.sort(key=lambda m: m.ts, reverse=True)] *)
Definition newest_first (a b : Message.t) : bool :=
  str_leb (Message.ts b) (Message.ts a).

(** [SlackClient.get_mentions] *)
Definition get_mentions (fuel : nat) (hours : Z) : M (list Message.t) :=
  t0 <- now ;;
  let cutoff := t0 - hours * 3600 in
  conversations <- get_conversations fuel all_types true ;;
  mentions <- mentions_loop cutoff conversations [] ;;
  ret (PySort.sort_by newest_first mentions).

(** A call of the Web API that the log does not record. *)
Definition api_unlogged {R} (f : B -> (exn + R) * B) : M R :=
  fun w =>
    let rb := f (backend w) in
    let w' := {| self := self w; backend := rb.2; log := log w |} in
    match rb.1 with
    | inl e => (Raise e, w')
    | inr r => (Ok r, w')
    end.

(** One element of [response["messages"]["matches"]] as a [Message]. *)
Definition message_of_match (m : RawSearch.result) : M Message.t :=
  let channel :=
    default {| RawSearch.ch_id := None; RawSearch.ch_name := None |}
            (RawSearch.s_channel m) in
  let ts := default [] (RawSearch.s_ts m) in
  timestamp <- timestamp_of ts ;;
  ret {| Message.ts := ts;
         Message.text := default [] (RawSearch.s_text m);
         Message.user_id := RawSearch.s_user m;
         Message.user_name := RawSearch.s_username m;
         Message.channel_id := default [] (RawSearch.ch_id channel);
         Message.channel_name :=
           py "#" ++ default (py "unknown") (RawSearch.ch_name channel);
         Message.thread_ts := None;
         Message.reply_count := 0;
         Message.is_mention := false;
         Message.timestamp := timestamp |}.

(** [SlackClient.search_messages] *)
Definition search_messages (query : str) (count : Z) (sort : str)
  : M (list Message.t) :=
  response <-
    try_except
      (r <- api_unlogged (search_messages_api query count sort) ;;
       ret (Some r))
      (only_SlackApiError (fun _ => Some (ret None))) ;;
  match response with
  | None => ret []
  | Some matches => for_append message_of_match matches []
  end.

(** [SlackClient.reply_to_thread] *)
Definition reply_to_thread (fuel : nat) (channel thread_ts text : str)
  : M Message.t :=
  send_message fuel channel text (Some thread_ts) None.

(** [SlackClient.add_reaction] *)
Definition add_reaction (fuel : nat) (channel timestamp emoji : str) : M bool :=
  channel_id <- _resolve_channel fuel channel ;;
  let emoji := strip_chars emoji (py ":") in
  try_except
    (api_unlogged (reactions_add channel_id timestamp emoji) ;;;
     ret true)
    (only_SlackApiError (fun _ => Some (ret false))).

End More.
End SlackClient.

(* ================================================================== *)
(** * [src/summarizer.py]: classification and text utilities *)
(* ================================================================== *)
Module summarizer.
Import PyStr Re.

(** [(w1|w2|...)] as group [k] *)
Definition words_group (k : nat) (w : string) (ws : list string) : regex :=
  Grp k (alts (lit w) (map lit ws)).

(** [question_patterns], in the order of the source. *)
Definition pat_ends_question : regex := Seq (Chr "?") Eol.
Definition pat_modal : regex :=
  Seq Bol
    (Seq (words_group 1 "can" ["could"; "would"; "will"; "do"; "does"; "did";
                               "is"; "are"; "have"; "has"; "should"])
         (Cls cls_s)).
Definition pat_please : regex :=
  Seq (words_group 1 "please" ["pls"]) (Cls cls_s).
Definition pat_need : regex :=
  Seq (words_group 1 "need" ["needs"])
      (Seq (Plus cls_s) (words_group 2 "you" ["your"])).
Definition pat_review : regex :=
  words_group 1 "review" ["check"; "look at"; "take a look"].
Definition pat_thoughts : regex :=
  Seq (words_group 1 "thoughts" ["opinion"; "input"; "feedback"]) (Chr "?").
Definition pat_when : regex :=
  Seq (lit "when ") (words_group 1 "can" ["will"; "could"]).
Definition pat_eta : regex := Seq (lit "eta") (Opt (Chr "?")).

Definition question_patterns : list regex :=
  [ pat_ends_question; pat_modal; pat_please; pat_need; pat_review;
    pat_thoughts; pat_when; pat_eta ].

(** [is_action_item] *)
Definition is_action_item (message : Message.t) (my_user_id : str) : bool :=
  let text := lower (Message.text message) in
  if negb (contains (SlackClient.mention_token my_user_id) (Message.text message))
  then false
  else existsb (fun pattern => search pattern text) question_patterns.

(** The four rewrites of [truncate_text]. *)
Definition pat_user_mention : regex :=
  Seq (lit "<@") (Seq (Plus cls_w) (Chr ">")).
Definition pat_channel_mention : regex :=
  Seq (lit "<#")
      (Seq (Plus cls_w)
           (Seq (Chr "|") (Seq (Grp 1 (Plus (cls_not (py ">")))) (Chr ">")))).
Definition pat_link_text : regex :=
  Seq (Chr "<")
      (Seq (Grp 1 (Plus (cls_not (py "|>"))))
           (Seq (Chr "|") (Seq (Grp 2 (Plus (cls_not (py ">")))) (Chr ">")))).
Definition pat_link : regex :=
  Seq (Chr "<") (Seq (Grp 1 (Plus (cls_not (py ">")))) (Chr ">")).

(** The markup rewrite followed by the whitespace collapse. *)
Definition rewrite_markup (text : str) : str :=
  let text := sub pat_user_mention [RText (py "@user")] text in
  let text := sub pat_channel_mention [RText (py "#"); RGroup 1] text in
  let text := sub pat_link_text [RGroup 2] text in
  let text := sub pat_link [RGroup 1] text in
  join (py " ") (split text).

(** [truncate_text] *)
Definition truncate_text (text : str) (max_len : Z) : str :=
  let text := rewrite_markup text in
  if len text <=? max_len then text
  else slice_to text (max_len - 3) ++ py "...".

(** ** The classification as the specification words it

    Each heuristic is written with plain string operations, to be compared
    with the patterns above. *)

(** Some suffix of [s] satisfies [p]. *)
Fixpoint somewhere (p : str -> bool) (s : str) : bool :=
  p s || match s with [] => false | _ :: t => somewhere p t end.

(** [s] starts with [w] and the next character is whitespace. *)
Definition word_then_space (w s : str) : bool :=
  startswith s w &&
  match drop (length w) s with c :: _ => isspace c | [] => false end.

(** [s] starts with [w], then some whitespace, then [next]. *)
Definition word_spaces_word (w next s : str) : bool :=
  startswith s w &&
  match drop (length w) s with
  | c :: r => isspace c && startswith (lstrip_by isspace r) next
  | [] => false
  end.

Definition any_of (ws : list string) (p : str -> bool) : bool :=
  existsb (fun w => p (py w)) ws.

Definition spec_ends_question (s : str) : bool := endswith s (py "?").
Definition spec_modal (s : str) : bool :=
  any_of ["can"; "could"; "would"; "will"; "do"; "does"; "did"; "is"; "are";
          "have"; "has"; "should"] (fun w => word_then_space w s).
Definition spec_please (s : str) : bool :=
  any_of ["please"; "pls"] (fun w => somewhere (word_then_space w) s).
Definition spec_need (s : str) : bool :=
  any_of ["need"; "needs"] (fun w =>
    any_of ["you"; "your"] (fun y => somewhere (word_spaces_word w y) s)).
Definition spec_review (s : str) : bool :=
  any_of ["review"; "check"; "look at"; "take a look"] (fun w => contains w s).
Definition spec_thoughts (s : str) : bool :=
  any_of ["thoughts?"; "opinion?"; "input?"; "feedback?"] (fun w => contains w s).
Definition spec_when (s : str) : bool :=
  any_of ["when can"; "when will"; "when could"] (fun w => contains w s).
Definition spec_eta (s : str) : bool := contains (py "eta") s.

(** The heuristics other than the first. *)
Definition spec_other_patterns (s : str) : bool :=
  spec_modal s || spec_please s || spec_need s || spec_review s
  || spec_thoughts s || spec_when s || spec_eta s.

(** The classification in the words of the specification. *)
Definition is_action_item_spec (text my_user_id : str) : bool :=
  contains (SlackClient.mention_token my_user_id) text &&
  (spec_ends_question (lower text) || spec_other_patterns (lower text)).

(** The first heuristic as the pattern has it: the question mark ends the
    text, or is followed by one final newline. *)
Definition spec_ends_question_line (s : str) : bool :=
  endswith s (py "?") || endswith s (py "?" ++ [SlackClient.newline]).

Definition is_action_item_amended (text my_user_id : str) : bool :=
  contains (SlackClient.mention_token my_user_id) text &&
  (spec_ends_question_line (lower text) || spec_other_patterns (lower text)).

(** ** The full summary *)

Module ChannelSummary.
Record t : Type := {
  name : str;
  message_count : Z;
  unread_count : Z;
  has_mentions : bool;
  has_action_items : bool;
  preview : str;
  top_messages : list Message.t;
}.
End ChannelSummary.

Module WorkspaceSummary.
Record t : Type := {
  name : str;
  dm_count : Z;
  mention_count : Z;
  channel_message_count : Z;
  action_items : list Message.t;
  dms : list Message.t;
  mentions : list Message.t;
  channels : list ChannelSummary.t;
}.
End WorkspaceSummary.

(** [l[:k]] on a list, for any integer [k]. *)
Definition list_slice_to {A} (l : list A) (k : Z) : list A :=
  if 0 <=? k then take (Z.to_nat k) l
  else take (Z.to_nat (Z.of_nat (length l) + k)) l.

Definition is_dm (c : Conversation.t) : bool :=
  str_eqb (Conversation.type c) (py "dm").

Definition is_channel_or_group (c : Conversation.t) : bool :=
  str_eqb (Conversation.type c) (py "channel")
  || str_eqb (Conversation.type c) (py "group").

(** [summary.channels.sort(key=lambda c: c.message_count, reverse=True)] *)
Definition busiest_first (a b : ChannelSummary.t) : bool :=
  ChannelSummary.message_count b <=? ChannelSummary.message_count a.

(** What the scan of the channels accumulates in the summary. *)
Record scan : Type := {
  sc_mentions : list Message.t;
  sc_action_items : list Message.t;
  sc_channels : list ChannelSummary.t;
  sc_message_count : Z;
}.

Section Summaries.
Context {B : Type} `{Env B}.
Local Abbreviation M := (SlackClient.M B).
Local Open Scope client_scope.

(** The loop over the direct messages of [summarize_workspace]. The
    messages are renamed before they are kept: the loop renames the very
    objects that it adds to [summary.dms]. *)
Fixpoint dm_loop (cutoff : Z) (convs : list Conversation.t) (dm_count : Z)
    (dms : list Message.t) : M (Z * list Message.t) :=
  match convs with
  | [] => SlackClient.ret (dm_count, dms)
  | conv :: rest =>
      SlackClient.bind
        (SlackClient.get_messages (Conversation.id conv) 5 (Some cutoff) None)
        (fun fetched =>
           let messages :=
             map (SlackClient.set_channel_name (Conversation.name conv))
                 fetched in
           match messages with
           | [] => dm_loop cutoff rest dm_count dms
           | _ :: _ =>
               dm_loop cutoff rest (dm_count + Z.of_nat (length messages))
                       (dms ++ messages)
           end)
  end.

(** [is_action_item(m, client.my_user_id)] for each message in turn. *)
Fixpoint action_flags (messages : list Message.t) : M (list bool) :=
  match messages with
  | [] => SlackClient.ret []
  | m :: ms =>
      SlackClient.bind SlackClient.my_user_id (fun me =>
      SlackClient.bind (action_flags ms) (fun flags =>
      SlackClient.ret (is_action_item m me :: flags)))
  end.

(** The elements of [l] whose flag is set. *)
Fixpoint flagged {A} (l : list A) (flags : list bool) : list A :=
  match l, flags with
  | x :: l', true :: flags' => x :: flagged l' flags'
  | _ :: l', false :: flags' => flagged l' flags'
  | _, _ => []
  end.

(** The loop over the channels of [summarize_workspace]. The action items
    are chosen before the messages are renamed and are the renamed messages
    all the same, the list holding the objects that the loop renames. *)
Fixpoint channel_loop (convs : list Conversation.t) (s : scan) : M scan :=
  match convs with
  | [] => SlackClient.ret s
  | conv :: rest =>
      SlackClient.bind
        (SlackClient.get_messages (Conversation.id conv) 50 None None)
        (fun messages =>
           match messages with
           | [] => channel_loop rest s
           | first :: _ =>
               let has_mentions := existsb Message.is_mention messages in
               SlackClient.bind (action_flags messages) (fun flags =>
               let renamed :=
                 map (SlackClient.set_channel_name (Conversation.name conv))
                     messages in
               let action_items := flagged renamed flags in
               channel_loop rest
                 {| sc_mentions :=
                      sc_mentions s ++ List.filter Message.is_mention renamed;
                    sc_action_items := sc_action_items s ++ action_items;
                    sc_channels :=
                      sc_channels s ++
                      [ {| ChannelSummary.name := Conversation.name conv;
                           ChannelSummary.message_count :=
                             Z.of_nat (length messages);
                           ChannelSummary.unread_count := 0;
                           ChannelSummary.has_mentions := has_mentions;
                           ChannelSummary.has_action_items :=
                             0 <? Z.of_nat (length action_items);
                           ChannelSummary.preview :=
                             truncate_text (Message.text first) 100;
                           ChannelSummary.top_messages := take 3 renamed |} ];
                    sc_message_count :=
                      sc_message_count s + Z.of_nat (length messages) |})
           end)
  end.

(** [summarize_workspace] *)
Definition summarize_workspace (fuel : nat) (hours max_channels : Z)
  : M WorkspaceSummary.t :=
  SlackClient.bind SlackClient.now (fun t0 =>
  let cutoff := t0 - hours * 3600 in
  SlackClient.bind SlackClient.get_self (fun client =>
  SlackClient.bind
    (SlackClient.get_conversations fuel SlackClient.all_types true)
    (fun conversations =>
  let dm_convs := List.filter is_dm conversations in
  let channel_convs := List.filter is_channel_or_group conversations in
  SlackClient.bind (dm_loop cutoff (take 10 dm_convs) 0 []) (fun counted =>
  let dms := take 20 (PySort.sort_by SlackClient.newest_first counted.2) in
  SlackClient.bind
    (channel_loop (list_slice_to channel_convs max_channels)
       {| sc_mentions := []; sc_action_items := []; sc_channels := [];
          sc_message_count := 0 |})
    (fun s =>
  let mentions := PySort.sort_by SlackClient.newest_first (sc_mentions s) in
  SlackClient.ret
    {| WorkspaceSummary.name :=
         config.name (SlackClient.workspace client);
       WorkspaceSummary.dm_count := counted.1;
       WorkspaceSummary.mention_count := Z.of_nat (length mentions);
       WorkspaceSummary.channel_message_count := sc_message_count s;
       WorkspaceSummary.action_items :=
         PySort.sort_by SlackClient.newest_first (sc_action_items s);
       WorkspaceSummary.dms := dms;
       WorkspaceSummary.mentions := mentions;
       WorkspaceSummary.channels :=
         PySort.sort_by busiest_first (sc_channels s) |}))))).

End Summaries.

End summarizer.

(* ================================================================== *)
(** * [src/mcp_server.py]: the tool router *)
(* ================================================================== *)
Module mcp_server.

Record TextContent : Type := {
  type : str;
  text : str;
}.

(** ** Calls with keyword arguments *)

(** A method's name as error messages give it, and its parameters after
    [self] with their defaults. *)
Record signature : Type := {
  qualname : str;
  params : list (str * option pyval);
}.

Definition has_param (sig : signature) (k : str) : bool :=
  existsb (fun p => str_eqb p.1 k) (params sig).

(** The value of each parameter: the keyword given, else the default. *)
Fixpoint fill (qn : str) (ps : list (str * option pyval))
    (kwargs : list (str * pyval)) : exn + gmap str pyval :=
  match ps with
  | [] => inr ∅
  | (p, d) :: ps' =>
      let given :=
        match find (fun kv => str_eqb kv.1 p) kwargs with
        | Some kv => Some kv.2
        | None => d
        end in
      match given with
      | None =>
          inl (TypeError (qn ++ py "() missing 1 required positional argument: '"
                             ++ p ++ py "'"))
      | Some v =>
          match fill qn ps' kwargs with
          | inl e => inl e
          | inr m => inr (<[p := v]> m)
          end
      end
  end.

(** Binding the keywords of a call [f(k1=v1, ...)] to the parameters of [f]:
    the first keyword that is no parameter is a [TypeError]. *)
Definition bind_keywords (sig : signature) (kwargs : list (str * pyval))
  : exn + gmap str pyval :=
  match find (fun kv => negb (has_param sig kv.1)) kwargs with
  | Some kv =>
      inl (TypeError (qualname sig
                        ++ py "() got an unexpected keyword argument '"
                        ++ kv.1 ++ py "'"))
  | None => fill (qualname sig) (params sig) kwargs
  end.

(** [def get_unread_messages(self, hours: int = 24)] *)
Definition sig_get_unread_messages : signature :=
  {| qualname := py "SlackClient.get_unread_messages";
     params := [ (py "hours", Some (PInt 24)) ] |}.

(** [str(v)] *)
Definition py_str (v : pyval) : str :=
  match v with
  | PNone => py "None"
  | PBool true => py "True"
  | PBool false => py "False"
  | PInt z => py (DecimalString.NilEmpty.string_of_int (Z.to_int z))
  | PStr s => s
  end.

(** A number used in arithmetic. *)
Definition as_number (v : pyval) : exn + Z :=
  match v with
  | PInt z => inr z
  | PBool b => inr (Z.b2z b)
  | _ => inl (TypeError (py "unsupported operand type(s)"))
  end.

Section Server.
Context {B : Type} `{Env B}.

(** What [load_config()] gives in the environment of the process. *)
Variable load_config : exn + config.Config.
Variable float_of : str -> exn + Z.

(** The module's globals, the world outside and the calls made so far. *)
Record state : Type := {
  _config : option config.Config;
  _clients : gmap str SlackClient.t;
  backend : B;
  log : list call;
}.

Definition SM (A : Type) : Type := state -> outcome A * state.

Definition sret {A} (a : A) : SM A := fun s => (Ok a, s).
Definition sraise {A} (e : exn) : SM A := fun s => (Raise e, s).
Definition sbind {A C} (m : SM A) (k : A -> SM C) : SM C :=
  fun s =>
    match m s with
    | (Ok a, s') => k a s'
    | (Raise e, s') => (Raise e, s')
    | (Diverge, s') => (Diverge, s')
    end.

Definition lift {A} (r : exn + A) : SM A :=
  match r with inl e => sraise e | inr a => sret a end.

(** [config.get_config] *)
Definition get_config : SM config.Config :=
  fun s =>
    match _config s with
    | Some c => (Ok c, s)
    | None =>
        match load_config with
        | inl e => (Raise e, s)
        | inr c =>
            (Ok c, {| _config := Some c; _clients := _clients s;
                      backend := backend s; log := log s |})
        end
    end.

(** [get_client]; the client object is named by its key in [_clients]. *)
Definition get_client (workspace : option pyval) : SM str :=
  sbind get_config (fun config =>
  sbind (lift
    (match workspace with
     | None | Some PNone => config.get_workspace config None
     | Some (PStr k) => config.get_workspace config (Some k)
     | Some v => inl (ValueError (py "Unknown workspace: " ++ py_str v))
     end)) (fun ws =>
  fun s =>
    match _clients s !! config.key ws with
    | Some _ => (Ok (config.key ws), s)
    | None =>
        (Ok (config.key ws),
         {| _config := _config s;
            _clients := <[config.key ws := SlackClient.new ws]> (_clients s);
            backend := backend s; log := log s |})
    end)).

(** Running a method of the client named [k]. *)
Definition on_client {A} (k : str) (m : SlackClient.M B A) : SM A :=
  fun s =>
    match _clients s !! k with
    | None => (Raise (KeyError k), s)
    | Some c =>
        let r := m {| SlackClient.self := c; SlackClient.backend := backend s;
                      SlackClient.log := log s |} in
        (r.1, {| _config := _config s;
                 _clients := <[k := SlackClient.self r.2]> (_clients s);
                 backend := SlackClient.backend r.2;
                 log := SlackClient.log r.2 |})
    end.

(** A call [client.f(k1=v1, ...)] of a method [f] of signature [sig]. *)
Definition call_method {A} (k : str) (sig : signature)
    (body : gmap str pyval -> SlackClient.M B A) (kwargs : list (str * pyval))
  : SM A :=
  match bind_keywords sig kwargs with
  | inl e => sraise e
  | inr args => on_client k (body args)
  end.

Definition get_unread_messages_method (fuel : nat) (args : gmap str pyval)
  : SlackClient.M B (list (str * list Message.t)) :=
  match as_number (default PNone (args !! py "hours")) with
  | inl e => SlackClient.raise e
  | inr hours => SlackClient.get_unread_messages float_of fuel hours
  end.

(** The routes other than [slack_unread], and the rendering of a non-empty
    unread map (lines 366-378). *)
Variable other_tools : str -> gmap str pyval -> SM str.
Variable render_unread : list (str * list Message.t) -> str.

(** [_handle_tool] *)
Definition _handle_tool (fuel : nat) (name : str) (args : gmap str pyval)
  : SM str :=
  let workspace := args !! py "workspace" in
  if str_eqb name (py "slack_workspaces") then other_tools name args
  else if str_eqb name (py "slack_summary") then other_tools name args
  else if str_eqb name (py "slack_unread") then
    sbind (get_client workspace) (fun client =>
    let hours := default (PInt 24) (args !! py "hours") in
    let max_dms := default (PInt 15) (args !! py "max_dms") in
    let max_channels := default (PInt 15) (args !! py "max_channels") in
    sbind (call_method client sig_get_unread_messages
             (get_unread_messages_method fuel)
             [ (py "hours", hours); (py "max_dms", max_dms);
               (py "max_channels", max_channels) ]) (fun unread =>
    match unread with
    | [] => sret (py "No unread messages.")
    | _ :: _ => sret (render_unread unread)
    end))
  else other_tools name args.

Definition text_content (s : str) : TextContent :=
  {| type := py "text"; text := s |}.

(** [call_tool] *)
Definition call_tool (fuel : nat) (name : str) (args : gmap str pyval)
  : SM (list TextContent) :=
  fun s =>
    match _handle_tool fuel name args s with
    | (Ok result, s') => (Ok [text_content result], s')
    | (Raise e, s') => (Ok [text_content (py "Error: " ++ exn_str e)], s')
    | (Diverge, s') => (Diverge, s')
    end.

(** [config.get_workspace(workspace)] for the [workspace] of a request. *)
Definition requested_workspace (c : config.Config) (workspace : option pyval)
  : exn + config.WorkspaceConfig :=
  match workspace with
  | None | Some PNone => config.get_workspace c None
  | Some (PStr k) => config.get_workspace c (Some k)
  | Some v => inl (ValueError (py "Unknown workspace: " ++ py_str v))
  end.

(** [if ws.key not in _clients: _clients[ws.key] = SlackClient(workspace=ws)] *)
Definition ensure_client (ws : config.WorkspaceConfig) : SM str :=
  fun s =>
    match _clients s !! config.key ws with
    | Some _ => (Ok (config.key ws), s)
    | None =>
        (Ok (config.key ws),
         {| _config := _config s;
            _clients := <[config.key ws := SlackClient.new ws]> (_clients s);
            backend := backend s; log := log s |})
    end.

Fixpoint for_workspaces (wss : list config.WorkspaceConfig)
    (clients : list str) : SM (list str) :=
  match wss with
  | [] => sret clients
  | ws :: rest =>
      sbind (ensure_client ws) (fun k => for_workspaces rest (clients ++ [k]))
  end.

(** [get_all_clients]; the clients are named by their keys. *)
Definition get_all_clients : SM (list str) :=
  sbind get_config (fun config =>
    for_workspaces (config.list_workspaces config) []).

End Server.
End mcp_server.

(* ================================================================== *)
(** * Reading the log of calls *)
(* ================================================================== *)
Module Observe.

(** The first page of a directory listing: one per fetch, since every
    later page of the same fetch is asked for with a cursor. *)
Definition is_fetch (c : call) : bool :=
  match c with
  | Call_conversations_list _ None => true
  | _ => false
  end.

(** The number of directory fetches in a log. *)
Definition fetches (l : list call) : nat := length (List.filter is_fetch l).

Definition is_users_info (c : call) : bool :=
  match c with
  | Call_users_info _ => true
  | _ => false
  end.

(** A stretch of log with no request for a user's profile. *)
Definition only_listing (l : list call) : Prop :=
  Forall (fun c => is_users_info c = false) l.

(** [l1] continues [l0] without such a request. *)
Definition extends_quietly (l0 l1 : list call) : Prop :=
  exists l, l1 = l0 ++ l /\ only_listing l.



(** A newline read as a space. *)
Definition nl_to_space (c : ascii) : ascii :=
  if Ascii.eqb SlackClient.newline c then " "%char else c.


(** The texts posted, oldest first. *)
Definition posted (l : list call) : list str :=
  flat_map (fun c => match c with
                     | Call_chat_postMessage _ text _ => [text]
                     | _ => []
                     end) l.

(** Every call that takes the log [l0] to [l1] satisfies [P]. *)
Definition extends_with (P : call -> bool) (l0 l1 : list call) : Prop :=
  exists l, l1 = l0 ++ l /\ forallb P l = true.

Definition is_post (c : call) : bool :=
  match c with
  | Call_chat_postMessage _ _ _ => true
  | _ => false
  end.

Definition is_auth_test (c : call) : bool :=
  match c with
  | Call_auth_test => true
  | _ => false
  end.

Definition is_history (c : call) : bool :=
  match c with
  | Call_conversations_history _ => true
  | _ => false
  end.

(** An unread map as [get_unread_messages] builds it. *)
Definition well_formed_unread (unread : list (str * list Message.t)) : Prop :=
  NoDup (map fst unread)
  /\ Forall (fun kv => kv.2 <> []
                       /\ Forall (fun m => Message.channel_name m = kv.1) kv.2)
            unread.

(** The calls that only read. *)
Definition reads (c : call) : bool := negb (is_post c).

(** The last steps of [send_message]: the post, then the message returned
    in the caller's name. *)
Definition post_and_sign {B : Type} `{Env B} (channel_id text : str)
    (thread_ts : option str) : SlackClient.M B Message.t :=
  let sent_thread := if nonempty thread_ts then thread_ts else None in
  SlackClient.bind
    (SlackClient.api (Call_chat_postMessage channel_id text sent_thread)
                     (chat_postMessage channel_id text sent_thread))
    (fun ts => SlackClient.bind SlackClient.my_user_id (fun me =>
       SlackClient.ret
         {| Message.ts := ts; Message.text := text;
            Message.user_id := Some me; Message.user_name := None;
            Message.channel_id := channel_id; Message.channel_name := [];
            Message.thread_ts := thread_ts; Message.reply_count := 0;
            Message.is_mention := false; Message.timestamp := None |})).

(** The calls of a directory listing: the pause and the page request. *)
Definition is_listing (c : call) : bool :=
  match c with
  | Call_sleep | Call_conversations_list _ _ => true
  | _ => false
  end.

(** The user stored for an id whose profile the backend refused. *)
Definition placeholder_user (user_id : str) : User.t :=
  {| User.id := user_id; User.name := py "unknown";
     User.real_name := py "Unknown User"; User.is_bot := false |}.

(** One of the four kinds of conversation. *)
Definition known_kind (kind : str) : Prop :=
  kind = py "dm" \/ kind = py "mpim" \/ kind = py "group"
  \/ kind = py "channel".

(** A message of the history that [get_messages] keeps. *)
Definition kept (m : Raw.msg) : bool :=
  negb (SlackClient.administrative (Raw.m_subtype m)).

(** A call of a directory listing for the kinds [types]: the pause, or the
    request of a page of those kinds. *)
Definition asks_for (types : str) (c : call) : bool :=
  match c with
  | Call_sleep => true
  | Call_conversations_list asked _ => str_eqb asked types
  | _ => false
  end.


(** [all] is what [get_messages] returns for the conversations [convs] in
    turn, each asked for at most [limit] messages since [oldest], every
    message under the name of its conversation; [w'] is the world after the
    last of these calls. *)
Fixpoint fetched_each {B : Type} `{Env B} (limit oldest : Z)
    (convs : list Conversation.t) (w : SlackClient.world B)
    (all : list Message.t) (w' : SlackClient.world B) : Prop :=
  match convs with
  | [] => all = [] /\ w' = w
  | conv :: rest =>
      exists msgs w1 all',
        SlackClient.get_messages (Conversation.id conv) limit (Some oldest)
          None w = (Ok msgs, w1)
        /\ all = map (SlackClient.set_channel_name (Conversation.name conv))
                     msgs ++ all'
        /\ fetched_each limit oldest rest w1 all' w'
  end.

(** An id that is empty, or whose instant can be computed. *)
Definition dated {B : Type} `{Env B} (ts : str) : Prop :=
  ts = [] \/ exists seconds, fromtimestamp ts = inr seconds.

(** [m] is flagged as a mention exactly when its text holds the mention
    token of [me]. *)
Definition flagged_for (me : str) (m : Message.t) : Prop :=
  Message.is_mention m
  = PyStr.contains (SlackClient.mention_token me) (Message.text m).

(** The sum of a list of counts. *)
Definition total (l : list Z) : Z := foldr Z.add 0 l.

(** What holds of every channel of a summary. *)
Definition tidy_channel (c : summarizer.ChannelSummary.t) : Prop :=
  1 <= summarizer.ChannelSummary.message_count c
  /\ summarizer.ChannelSummary.unread_count c = 0
  /\ PyStr.len (summarizer.ChannelSummary.preview c) <= 100
  /\ Z.of_nat (length (summarizer.ChannelSummary.top_messages c))
     = Z.min 3 (summarizer.ChannelSummary.message_count c)
  /\ Forall (fun m => Message.channel_name m
                      = summarizer.ChannelSummary.name c)
            (summarizer.ChannelSummary.top_messages c)
  /\ (summarizer.ChannelSummary.has_action_items c = true ->
      summarizer.ChannelSummary.has_mentions c = true).

(** What a message retains of the payload it was built from. *)
Definition content (m : Message.t) : str * str * option str * Z :=
  (Message.ts m, Message.text m, Message.thread_ts m, Message.reply_count m).

Definition raw_content (m : Raw.msg) : str * str * option str * Z :=
  (default [] (Raw.m_ts m), default [] (Raw.m_text m), Raw.m_thread_ts m,
   default 0 (Raw.m_reply_count m)).

End Observe.

(* ================================================================== *)
(** * A scripted workspace, for running the client *)
(* ================================================================== *)
Module Fixture.

(** The backend of the examples: a clock that advances by one second at
    each reading, a directory served page by page, one history shared by
    all conversations (newest first), and errors to raise on demand. *)
Record script : Type := {
  clock : Z;
  me : str;
  pages : list (list Raw.conv);
  users : list (str * Raw.user);
  history : list Raw.msg;
  history_error : option exn;
  replies_error : option exn;
}.

Definition tick (b : script) : script :=
  {| clock := clock b + 1; me := me b; pages := pages b; users := users b;
     history := history b; history_error := history_error b;
     replies_error := replies_error b |}.

(** The kind name under which the backend lists a conversation. *)
Definition listed_as (c : Raw.conv) : str :=
  if truthy_get (Raw.c_is_im c) then py "im"
  else if truthy_get (Raw.c_is_mpim c) then py "mpim"
  else if truthy_get (Raw.c_is_private c) then py "private_channel"
  else py "public_channel".

Definition requested (types : str) (c : Raw.conv) : bool :=
  existsb (str_eqb (listed_as c)) (SlackClient.split_on "," types).

(** Page [i] is asked for with a cursor of [i] characters. *)
Definition list_page (types : str) (cursor : option str) (b : script)
  : Raw.list_response :=
  let i := length (default [] cursor) in
  {| Raw.channels := List.filter (requested types) (nth i (pages b) []);
     Raw.next_cursor :=
       if (S i <? length (pages b))%nat then Some (repeat "x"%char (S i))
       else Some [] |}.

Definition history_page (args : Raw.history_args) (b : script)
  : exn + list Raw.msg :=
  match history_error b with
  | Some e => inl e
  | None =>
      match Raw.h_latest args with
      | Some (Raw.Token ts) =>
          inr (take (Z.to_nat (Raw.h_limit args))
                 (List.filter (fun m => str_eqb (default [] (Raw.m_ts m)) ts)
                              (history b)))
      | _ => inr (take (Z.to_nat (Raw.h_limit args)) (history b))
      end
  end.

(** The value of a decimal digit. *)
Definition digit (c : ascii) : option Z :=
  let n := Z.of_nat (nat_of_ascii c) in
  if (48 <=? n) && (n <=? 57) then Some (n - 48) else None.

(** The number that the digits [s] write after [acc]. *)
Fixpoint digits (acc : Z) (s : str) : option Z :=
  match s with
  | [] => Some acc
  | c :: s' =>
      match digit c with
      | Some d => digits (10 * acc + d) s'
      | None => None
      end
  end.

(** The instant of an id written [seconds.fraction], in whole seconds; any
    other id is not a number. *)
Definition seconds_of (ts : str) : exn + Z :=
  let refused :=
    inl (ValueError (py "could not convert string to float: '" ++ ts
                       ++ py "'")) in
  match SlackClient.split_on "." ts with
  | [c :: whole] | [c :: whole; _ :: _] =>
      match digits 0 (c :: whole),
            digits 0 (drop (S (S (length whole))) ts) with
      | Some seconds, Some _ => inr seconds
      | _, _ => refused
      end
  | _ => refused
  end.

#[global] Instance script_env : Env script := {|
  auth_test b := (inr (me b), b);
  users_info u b :=
    (match find (fun kv => str_eqb kv.1 u) (users b) with
     | Some kv => inr kv.2
     | None => inl (SlackApiError (py "user_not_found"))
     end, b);
  conversations_list types cursor b := (inr (list_page types cursor b), b);
  conversations_history args b := (history_page args b, b);
  conversations_replies channel ts limit b :=
    (match replies_error b with
     | Some e => inl e
     | None => inr (take (Z.to_nat limit) (history b))
     end, b);
  chat_postMessage channel text thread_ts b := (inr (py "1700000009.000100"), b);
  time_time b := (clock b, tick b);
  time_sleep b := b;
  fromtimestamp := seconds_of;
|}.

Definition raw_conv (id name : string) (user : option string)
    (is_im is_private : bool) : Raw.conv :=
  {| Raw.c_id := Some (py id); Raw.c_name := Some (py name);
     Raw.c_user := option_map py user;
     Raw.c_is_im := Some (PBool is_im); Raw.c_is_mpim := None;
     Raw.c_is_private := Some (PBool is_private);
     Raw.c_is_member := None; Raw.c_is_archived := None;
     Raw.c_unread_count := None; Raw.c_last_read := None |}.

Definition raw_msg (ts text : string) (subtype : option string) : Raw.msg :=
  {| Raw.m_subtype := option_map py subtype; Raw.m_user := None;
     Raw.m_text := Some (py text); Raw.m_ts := Some (py ts);
     Raw.m_thread_ts := None; Raw.m_reply_count := None |}.

Definition ws : config.WorkspaceConfig :=
  {| config.key := py "work"; config.name := py "Work";
     config.token := py "xoxp-0"; config.priority := 1 |}.

(** A workspace with two channels and one direct message, listed on two
    pages; the person of the direct message is Jen Rexford. *)
Definition office : script :=
  {| clock := 1000; me := py "U0";
     pages := [ [ raw_conv "C1" "general" None false false;
                  raw_conv "D1" "" (Some "U1") true false ];
                [ raw_conv "G1" "design" None false true ] ];
     users := [ (py "U1", {| Raw.u_name := Some (py "jen");
                             Raw.u_real_name := Some (py "Jen Rexford");
                             Raw.u_is_bot := None |}) ];
     history := [ raw_msg "1700000003.000100" "see you there" None;
                  raw_msg "1700000002.000100" "" None;
                  raw_msg "1700000001.000100"
                    "the quick brown fox jumps over the lazy dog and keeps running"
                    None;
                  raw_msg "1700000000.000100" "welcome" None ];
     history_error := None; replies_error := None |}.

Definition with_history_error (e : exn) (b : script) : script :=
  {| clock := clock b; me := me b; pages := pages b; users := users b;
     history := history b; history_error := Some e;
     replies_error := replies_error b |}.

Definition with_replies_error (e : exn) (b : script) : script :=
  {| clock := clock b; me := me b; pages := pages b; users := users b;
     history := history b; history_error := history_error b;
     replies_error := Some e |}.

(** A fresh client in front of backend [b]. *)
Definition fresh (b : script) : SlackClient.world script :=
  {| SlackClient.self := SlackClient.new ws; SlackClient.backend := b;
     SlackClient.log := [] |}.

Definition message (text : str) : Message.t :=
  {| Message.ts := py "1700000001.000100"; Message.text := text;
     Message.user_id := Some (py "U7"); Message.user_name := None;
     Message.channel_id := py "C1"; Message.channel_name := [];
     Message.thread_ts := None; Message.reply_count := 0;
     Message.is_mention := true; Message.timestamp := None |}.

(** The configuration of the examples: the one workspace, as default. *)
Definition configuration : config.Config :=
  {| config.workspaces := [ (py "work", ws) ];
     config.default_workspace := Some (py "work") |}.

(** What a search finds of a message of the history. *)
Definition found (m : Raw.msg) : RawSearch.result :=
  {| RawSearch.s_user := Raw.m_user m; RawSearch.s_username := Some (py "jen");
     RawSearch.s_channel :=
       Some {| RawSearch.ch_id := Some (py "C1");
               RawSearch.ch_name := Some (py "general") |};
     RawSearch.s_text := Raw.m_text m; RawSearch.s_ts := Raw.m_ts m |}.

(** The search finds the messages of the history, and fails as the history
    does; a reaction is taken on a message of the history only. *)
#[global] Instance script_more : EnvMore script := {|
  search_messages_api query count sort b :=
    (match history_error b with
     | Some e => inl e
     | None => inr (take (Z.to_nat count) (map found (history b)))
     end, b);
  reactions_add channel ts name b :=
    (if existsb (fun m => str_eqb (default [] (Raw.m_ts m)) ts) (history b)
     then inr tt
     else inl (SlackApiError (py "message_not_found")), b);
|}.

(** The office on a busy day: the caller is mentioned twice, once with a
    request, and somebody has joined. *)
Definition busy : script :=
  {| clock := clock office; me := me office; pages := pages office;
     users := users office;
     history := [ raw_msg "1700000005.000100" "<@U0> can you review this?" None;
                  raw_msg "1700000004.000100" "" (Some "channel_join");
                  raw_msg "1700000003.000100" "lunch at noon" None;
                  raw_msg "1700000002.000100" "fyi <@U0>" None ];
     history_error := None; replies_error := None |}.

(** A day on which one message carries an id that is not a number. *)
Definition garbled : script :=
  {| clock := clock office; me := me office; pages := pages office;
     users := users office;
     history := [ raw_msg "1700000003.000100" "see you there" None;
                  raw_msg "abc" "welcome" None ];
     history_error := None; replies_error := None |}.

(** A workspace with six direct messages and no channel, and five messages
    to read in each. *)
Definition crowded : script :=
  {| clock := clock office; me := me office;
     pages := [ [ raw_conv "D1" "" (Some "U1") true false;
                  raw_conv "D2" "" (Some "U2") true false;
                  raw_conv "D3" "" (Some "U3") true false ];
                [ raw_conv "D4" "" (Some "U4") true false;
                  raw_conv "D5" "" (Some "U5") true false;
                  raw_conv "D6" "" (Some "U6") true false ] ];
     users := users office;
     history := [ raw_msg "1700000005.000100" "five" None;
                  raw_msg "1700000004.000100" "four" None;
                  raw_msg "1700000003.000100" "three" None;
                  raw_msg "1700000002.000100" "two" None;
                  raw_msg "1700000001.000100" "one" None ];
     history_error := None; replies_error := None |}.

(** A backend that answers as [behind] does, except that it refuses
    [auth.test]. *)
Record signed_out : Type := { behind : script }.

Definition answer {R} (rb : R * script) : R * signed_out :=
  (rb.1, {| behind := rb.2 |}).

#[global] Instance signed_out_env : Env signed_out := {|
  auth_test b := (inl (SlackApiError (py "not_authed")), b);
  users_info u b := answer (users_info u (behind b));
  conversations_list types cursor b :=
    answer (conversations_list types cursor (behind b));
  conversations_history args b := answer (conversations_history args (behind b));
  conversations_replies channel ts limit b :=
    answer (conversations_replies channel ts limit (behind b));
  chat_postMessage channel text thread_ts b :=
    answer (chat_postMessage channel text thread_ts (behind b));
  time_time b := answer (time_time (behind b));
  time_sleep b := {| behind := time_sleep (behind b) |};
  fromtimestamp := seconds_of;
|}.

(** A fresh client in front of the backend that refuses [auth.test]. *)
Definition fresh_signed_out (b : script) : SlackClient.world signed_out :=
  {| SlackClient.self := SlackClient.new ws;
     SlackClient.backend := {| behind := b |}; SlackClient.log := [] |}.

(** The server before its first request. *)
Definition started (b : script) : mcp_server.state :=
  {| mcp_server._config := None; mcp_server._clients := ∅;
     mcp_server.backend := b; mcp_server.log := [] |}.

End Fixture.

(* ================================================================== *)
(** * Facts about the string operations *)
(* ================================================================== *)
Module PyStrFacts.
Import PyStr.

Lemma str_eqb_eq (a b : str) : str_eqb a b = true <-> a = b.
Proof. unfold str_eqb. apply bool_decide_eq_true. Qed.

Lemma str_eqb_neq (a b : str) : str_eqb a b = false <-> a <> b.
Proof. unfold str_eqb. apply bool_decide_eq_false. Qed.

Lemma str_eqb_refl (a : str) : str_eqb a a = true.
Proof. by apply str_eqb_eq. Qed.

Lemma existsb_pointwise {X} (f g : X -> bool) :
  (forall x, f x = g x) -> forall l, existsb f l = existsb g l.
Proof.
  intros Hfg l. induction l as [|x l IH]; [done|]. cbn. by rewrite Hfg, IH.
Qed.

Lemma startswith_nil (s : str) : startswith s [] = true.
Proof. by destruct s. Qed.

Lemma startswith_app (s p q : str) :
  startswith s (p ++ q) = startswith s p && startswith (drop (length p) s) q.
Proof.
  revert s. induction p as [|a p IH]; intros s; simpl.
  - by rewrite startswith_nil.
  - destruct s as [|b s]; simpl; [done|].
    rewrite IH. by destruct (Ascii.eqb a b).
Qed.

Lemma startswith_spec (s p : str) :
  startswith s p = true <-> exists t, s = p ++ t.
Proof.
  revert s. induction p as [|a p IH]; intros s; simpl.
  - rewrite startswith_nil. split; [by exists s | done].
  - destruct s as [|b s]; simpl.
    + split; [done | by intros [t Ht]].
    + rewrite andb_true_iff, IH, Ascii.eqb_eq. split.
      * intros [-> [t ->]]. by exists t.
      * intros [t [= -> ->]]. split; [done | by exists t].
Qed.

Lemma endswith_spec (s p : str) :
  endswith s p = true <-> exists pre, s = pre ++ p.
Proof.
  unfold endswith. rewrite startswith_spec. split.
  - intros [t Ht]. exists (rev t).
    apply (f_equal (@rev ascii)) in Ht.
    by rewrite rev_involutive, rev_app_distr, rev_involutive in Ht.
  - intros [pre ->]. exists (rev pre). by rewrite rev_app_distr.
Qed.

(** Replacing one character by another is a map. *)
Lemma replace_char (s : str) (a b : ascii) :
  replace s [a] [b] = map (fun c => if Ascii.eqb a c then b else c) s.
Proof.
  unfold replace. induction s as [|c s IH]; [done|].
  cbn. rewrite startswith_nil, andb_true_r.
  destruct (Ascii.eqb a c); by rewrite IH.
Qed.






(** Stripping stops at a last character that is kept. *)
Lemma rstrip_by_snoc (p : ascii -> bool) (s : str) (c : ascii) :
  p c = false -> rstrip_by p (s ++ [c]) = s ++ [c].
Proof.
  intros Hc. unfold rstrip_by. rewrite rev_app_distr. simpl. rewrite Hc.
  simpl. by rewrite rev_involutive.
Qed.

Lemma lstrip_by_app_kept (p : ascii -> bool) (s t : str) (c : ascii) :
  p c = false -> lstrip_by p (s ++ c :: t) = lstrip_by p s ++ c :: t.
Proof.
  intros Hc. induction s as [|x s IH]; simpl; [by rewrite Hc|].
  by destruct (p x).
Qed.

Lemma strip_by_app_kept (p : ascii -> bool) (s t : str) (c d : ascii) :
  p c = false -> p d = false ->
  strip_by p (s ++ c :: t ++ [d]) = lstrip_by p s ++ c :: t ++ [d].
Proof.
  intros Hc Hd. unfold strip_by. rewrite lstrip_by_app_kept by done.
  replace (lstrip_by p s ++ c :: t ++ [d])
    with ((lstrip_by p s ++ c :: t) ++ [d]) by by rewrite <- app_assoc.
  by apply rstrip_by_snoc.
Qed.

(** What [rsplit] keeps is a prefix, and what it drops starts at the last
    separator. *)
Lemma rsplit1_head_prefix (sep : ascii) (s : str) :
  exists rest, s = rsplit1_head sep s ++ rest
    /\ (rest = [] \/ exists r, rest = sep :: r /\ ~ In sep r).
Proof.
  induction s as [|c s (rest & IH & Hrest)]; simpl.
  - exists []. split; [done | by left].
  - destruct (existsb (Ascii.eqb sep) s) eqn:Ex.
    + exists rest. split; [simpl; by f_equal | done].
    + destruct (Ascii.eqb sep c) eqn:Ec.
      * apply Ascii.eqb_eq in Ec as <-. exists (sep :: s). split; [done|].
        right. exists s. split; [done|]. intros Hin.
        assert (existsb (Ascii.eqb sep) s = true); [|congruence].
        apply existsb_exists. exists sep. split; [done | apply Ascii.eqb_refl].
      * exists []. split; [by rewrite app_nil_r | by left].
Qed.



(** ** Whitespace collapse *)

Lemma single_spaced_word (w s : str) (b : bool) :
  spacefree w ->
  single_spaced b (w ++ s) =
  match w with [] => single_spaced b s | _ :: _ => single_spaced true s end.
Proof.
  unfold spacefree. revert b. induction w as [|c w IH]; intros b Hw; [done|].
  cbn in *. apply andb_true_iff in Hw as [Hc Hw].
  destruct (isspace c); [done|]. rewrite IH by done. by destruct w.
Qed.

(** The words of [split] hold no whitespace and are not empty. *)
Lemma split_go_words (cur s : str) :
  spacefree cur ->
  Forall (fun w => w <> [] /\ spacefree w) (split_go cur s).
Proof.
  revert cur. induction s as [|c s IH]; intros cur Hcur; cbn.
  - destruct cur; by repeat constructor.
  - destruct (isspace c) eqn:Ec.
    + destruct cur as [|x cur]; [by apply IH|].
      constructor; [done | by apply IH].
    + apply IH. unfold spacefree in *. rewrite forallb_app, Hcur. cbn.
      by rewrite Ec.
Qed.

Lemma join_words_single_spaced (ws : list str) :
  Forall (fun w => w <> [] /\ spacefree w) ws -> ws <> [] ->
  single_spaced false (join (py " ") ws) = true.
Proof.
  induction ws as [|w ws IH]; intros Hws Hne; [done|].
  apply Forall_cons in Hws as [[Hw Hsf] Hws].
  destruct ws as [|w2 ws].
  - cbn. rewrite <- (app_nil_r w), single_spaced_word by done.
    by destruct w.
  - cbn [join]. rewrite single_spaced_word by done.
    destruct w; [done|]. change (py " ") with [" "%char]. cbn.
    by apply IH.
Qed.

(** What [" ".join(s.split())] gives is single-spaced. *)
Lemma join_split_collapsed (s : str) : collapsed (join (py " ") (split s)) = true.
Proof.
  unfold split.
  pose proof (split_go_words [] s eq_refl) as Hws.
  destruct (split_go [] s) as [|w ws] eqn:E; [done|].
  pose proof (join_words_single_spaced (w :: ws) Hws) as Hj.
  unfold collapsed. destruct (join (py " ") (w :: ws)); [done|].
  by apply Hj.
Qed.

(** A single-spaced text is left as it is. *)
Lemma join_split_go_fixed (s cur : str) :
  single_spaced (match cur with [] => false | _ :: _ => true end) s = true ->
  join (py " ") (split_go cur s) = cur ++ s.
Proof.
  revert cur. induction s as [|c s IH]; intros cur Hs; cbn in *.
  - destruct cur; [done|]. by rewrite app_nil_r.
  - destruct (isspace c) eqn:Ec.
    + apply andb_true_iff in Hs as [Hs Hrest].
      apply andb_true_iff in Hs as [Hc Hcur].
      apply Ascii.eqb_eq in Hc as ->.
      destruct cur as [|x cur]; [done|].
      pose proof (IH [] Hrest) as Hj. cbn in Hj.
      cbn [join]. destruct (split_go [] s) as [|w ws] eqn:E.
      * cbn in Hj. subst s. done.
      * by rewrite Hj.
    + rewrite IH; [by rewrite <- app_assoc|]. by destruct cur.
Qed.

Lemma join_split_fixed (s : str) :
  collapsed s = true -> join (py " ") (split s) = s.
Proof.
  unfold collapsed, split. destruct s as [|c s]; [done|].
  intros Hs. by rewrite join_split_go_fixed.
Qed.

(** A prefix of a single-spaced text followed by an ellipsis is single-spaced. *)
Lemma single_spaced_take_ellipsis (s : str) (b : bool) (k : nat) :
  (s = [] \/ single_spaced b s = true) ->
  single_spaced b (take k s ++ py "...") = true.
Proof.
  revert b k. induction s as [|c s IH]; intros b k Hs.
  - by destruct k.
  - destruct Hs as [|Hs]; [done|]. destruct k as [|k]; [done|].
    cbn in *. destruct (isspace c).
    + apply andb_true_iff in Hs as [Hs Hrest]. rewrite Hs. cbn.
      apply IH. by right.
    + apply IH. by right.
Qed.

Lemma collapsed_take_ellipsis (s : str) (k : nat) :
  collapsed s = true -> collapsed (take k s ++ py "...") = true.
Proof.
  intros Hs. unfold collapsed.
  destruct (take k s ++ py "...") eqn:E; [done|]. rewrite <- E.
  apply single_spaced_take_ellipsis. destruct s; [by left | by right].
Qed.

End PyStrFacts.

(* ================================================================== *)
(** * Facts about the matcher *)
(* ================================================================== *)
Module ReFacts.
Import PyStr Re summarizer PyStrFacts.

Lemma accepts_cons (r : regex) (b : bool) (s : str) (m : nat * captures)
    (l : list (nat * captures)) :
  rmatch r b s = m :: l -> accepts r b s = true.
Proof. unfold accepts. by intros ->. Qed.

(** A word matches where the subject starts with it, in one way. *)
Lemma rmatch_word (w : str) (b : bool) (s : str) :
  rmatch (word w) b s = if startswith s w then [(length w, [])] else [].
Proof.
  revert b s. induction w as [|c w IH]; intros b s.
  - by rewrite startswith_nil.
  - destruct s as [|x s]; [done|]. cbn [word rmatch startswith].
    rewrite Ascii.eqb_sym. destruct (Ascii.eqb c x); [|done].
    cbn. rewrite IH, app_nil_r, drop_0. by destruct (startswith s w).
Qed.

Lemma accepts_word (w : str) (b : bool) (s : str) :
  accepts (word w) b s = startswith s w.
Proof. unfold accepts. rewrite rmatch_word. by destruct (startswith s w). Qed.

Lemma accepts_chr (c : ascii) (b : bool) (s : str) :
  accepts (Chr c) b s = startswith s [c].
Proof.
  unfold accepts. destruct s as [|x s]; [done|]. cbn.
  rewrite Ascii.eqb_sym, startswith_nil, andb_true_r.
  by destruct (Ascii.eqb c x).
Qed.

Lemma accepts_cls (p : ascii -> bool) (b : bool) (s : str) :
  accepts (Cls p) b s = match s with c :: _ => p c | [] => false end.
Proof. unfold accepts. destruct s as [|x s]; [done|]. cbn. by destruct (p x). Qed.

Lemma accepts_alt (r1 r2 : regex) (b : bool) (s : str) :
  accepts (Alt r1 r2) b s = accepts r1 b s || accepts r2 b s.
Proof. unfold accepts. cbn. by destruct (rmatch r1 b s). Qed.

Lemma accepts_grp (k : nat) (r : regex) (b : bool) (s : str) :
  accepts (Grp k r) b s = accepts r b s.
Proof. unfold accepts. cbn. by destruct (rmatch r b s). Qed.

Lemma accepts_opt (r : regex) (b : bool) (s : str) : accepts (Opt r) b s = true.
Proof. unfold accepts. cbn. by destruct (rmatch r b s). Qed.

(** A sequence matches when some match of its head leaves a subject that
    its tail matches. *)
Lemma accepts_seq (r1 r2 : regex) (b : bool) (s : str) :
  accepts (Seq r1 r2) b s =
  existsb (fun m => accepts r2 (b && Nat.eqb m.1 0) (drop m.1 s)) (rmatch r1 b s).
Proof.
  unfold accepts. cbn [rmatch].
  induction (rmatch r1 b s) as [|m l IH]; [done|].
  cbn [flat_map existsb]. rewrite <- IH.
  by destruct (rmatch r2 (b && Nat.eqb m.1 0) (drop m.1 s)).
Qed.

Lemma accepts_seq_word (w : str) (r : regex) (b : bool) (s : str) :
  accepts (Seq (word w) r) b s =
  startswith s w && accepts r (b && Nat.eqb (length w) 0) (drop (length w) s).
Proof.
  rewrite accepts_seq, rmatch_word.
  destruct (startswith s w); [|done]. cbn. by rewrite orb_false_r.
Qed.

(** The ways an alternation of words matches: one for each of the words the
    subject starts with, in their order. *)
Lemma rmatch_alts_words (w : str) (ws : list str) (b : bool) (s : str) :
  rmatch (alts (word w) (map word ws)) b s =
  flat_map (fun w' => if startswith s w' then [(length w', [])] else [])
           (w :: ws).
Proof.
  revert w. induction ws as [|w' ws IH]; intros w.
  - cbn. by rewrite rmatch_word, app_nil_r.
  - cbn [map alts rmatch]. rewrite IH, rmatch_word. done.
Qed.

Lemma lit_words (w : string) (ws : list string) :
  alts (lit w) (map lit ws) = alts (word (py w)) (map word (map py ws)).
Proof. unfold lit. by rewrite map_map. Qed.

Lemma accepts_words_group (k : nat) (w : string) (ws : list string)
    (b : bool) (s : str) :
  accepts (words_group k w ws) b s =
  existsb (fun w' => startswith s (py w')) (w :: ws).
Proof.
  unfold words_group. rewrite accepts_grp, lit_words.
  unfold accepts. rewrite rmatch_alts_words.
  change (py w :: map py ws) with (map py (w :: ws)).
  induction (w :: ws) as [|x l IH]; [done|].
  cbn [map flat_map existsb]. destruct (startswith s (py x)); [done|].
  by rewrite <- IH.
Qed.

Lemma accepts_seq_words_group (k : nat) (w : string) (ws : list string)
    (r : regex) (b : bool) (s : str) :
  accepts (Seq (words_group k w ws) r) b s =
  existsb (fun w' => startswith s (py w')
             && accepts r (b && Nat.eqb (length (py w')) 0)
                        (drop (length (py w')) s)) (w :: ws).
Proof.
  rewrite accepts_seq. unfold words_group. cbn [rmatch].
  rewrite lit_words, rmatch_alts_words.
  change (py w :: map py ws) with (map py (w :: ws)).
  induction (w :: ws) as [|x l IH]; [done|].
  cbn [map flat_map existsb]. rewrite map_app, existsb_app, IH.
  f_equal. destruct (startswith s (py x)); [|done].
  cbn. by rewrite orb_false_r.
Qed.

(** A repetition of a class followed by [r]: the run of the class may be
    cut anywhere after its first character. *)
Lemma accepts_plus_seq (p : ascii -> bool) (r : regex) (b : bool) (s : str) :
  accepts (Seq (Plus p) r) b s =
  existsb (fun n => accepts r (b && Nat.eqb n 0) (drop n s))
          (countdown (run_length p s)).
Proof.
  rewrite accepts_seq. cbn [rmatch].
  induction (countdown (run_length p s)) as [|n l IH]; [done|].
  cbn. by rewrite IH.
Qed.

(** ** Searching *)

Lemma search_from_somewhere (r : regex) (p : str -> bool) (b : bool) (s : str) :
  (forall b' t, accepts r b' t = p t) ->
  search_from r b s = somewhere p s.
Proof.
  intros Hp. revert b. induction s as [|c s IH]; intros b; cbn.
  - by rewrite Hp.
  - by rewrite Hp, IH.
Qed.

Lemma search_somewhere (r : regex) (p : str -> bool) (s : str) :
  (forall b' t, accepts r b' t = p t) -> search r s = somewhere p s.
Proof. apply search_from_somewhere. Qed.

(** A pattern anchored at the start is only tried there. *)
Lemma search_bol (r : regex) (s : str) :
  search (Seq Bol r) s = accepts r true s.
Proof.
  assert (Hno : forall t, search_from (Seq Bol r) false t = false).
  { induction t as [|c t IH]; cbn; [done|]. by rewrite IH. }
  unfold search. destruct s as [|c s]; cbn [search_from].
  - rewrite accepts_seq. cbn. by rewrite !orb_false_r.
  - rewrite Hno, accepts_seq. cbn. by rewrite !orb_false_r.
Qed.

Lemma somewhere_ext (p q : str -> bool) (s : str) :
  (forall t, p t = q t) -> somewhere p s = somewhere q s.
Proof.
  intros Hpq. induction s as [|c s IH]; cbn; [by rewrite Hpq|].
  by rewrite Hpq, IH.
Qed.

Lemma somewhere_false (s : str) : somewhere (fun _ => false) s = false.
Proof. induction s as [|c s IH]; [done|]. cbn. exact IH. Qed.

Lemma somewhere_orb (p q : str -> bool) (s : str) :
  somewhere (fun t => p t || q t) s = somewhere p s || somewhere q s.
Proof.
  induction s as [|c s IH]; cbn; [by rewrite !orb_false_r|].
  rewrite IH. destruct (p (c :: s)), (q (c :: s)), (somewhere p s); done.
Qed.

Lemma somewhere_existsb {X} (f : X -> str -> bool) (xs : list X) (s : str) :
  somewhere (fun t => existsb (fun x => f x t) xs) s =
  existsb (fun x => somewhere (f x) s) xs.
Proof.
  induction xs as [|x xs IH]; cbn [existsb].
  - apply somewhere_false.
  - by rewrite somewhere_orb, IH.
Qed.

Lemma contains_somewhere (w s : str) :
  contains w s = somewhere (fun t => startswith t w) s.
Proof. induction s as [|c s IH]; cbn; [done|]. by rewrite IH. Qed.

Lemma somewhere_spec (p : str -> bool) (s : str) :
  somewhere p s = true <-> exists pre t, s = pre ++ t /\ p t = true.
Proof.
  induction s as [|c s IH]; cbn.
  - rewrite orb_false_r. split.
    + intros Hp. by exists [], [].
    + intros (pre & t & Hs & Hp). symmetry in Hs.
      apply app_eq_nil in Hs as [_ ->]. done.
  - rewrite orb_true_iff, IH. split.
    + intros [Hp | (pre & t & -> & Hp)].
      * by exists [], (c :: s).
      * by exists (c :: pre), t.
    + intros (pre & t & Hs & Hp). destruct pre as [|x pre].
      * left. simpl in Hs. by subst.
      * right. injection Hs as -> ->. by exists pre, t.
Qed.

(** Ending with [w] is having [w] as a suffix somewhere. *)
Lemma somewhere_is_endswith (w s : str) :
  somewhere (fun t => str_eqb t w) s = endswith s w.
Proof.
  apply eq_true_iff_eq. rewrite somewhere_spec, endswith_spec. split.
  - intros (pre & t & -> & Ht). apply bool_decide_eq_true in Ht as ->.
    by exists pre.
  - intros (pre & ->). exists pre, w. split; [done|].
    by apply bool_decide_eq_true.
Qed.

End ReFacts.

(* ================================================================== *)
(** * Properties of the summarizer *)
(* ================================================================== *)
Module SummarizerProps.
Import PyStr Re summarizer PyStrFacts ReFacts.

(** ** The patterns of [is_action_item], one by one *)

Lemma accepts_eol (b : bool) (t : str) :
  accepts Eol b t = str_eqb t [] || str_eqb t [SlackClient.newline].
Proof.
  unfold accepts. destruct t as [|c [|d t]]; cbn; [done| |].
  - destruct (Ascii.eqb c "010") eqn:E.
    + apply Ascii.eqb_eq in E as ->. done.
    + symmetry. apply str_eqb_neq. intros [= ->]. by rewrite Ascii.eqb_refl in E.
  - symmetry. by apply str_eqb_neq.
Qed.

Lemma search_ends_question (s : str) :
  search pat_ends_question s = spec_ends_question_line s.
Proof.
  unfold pat_ends_question, spec_ends_question_line.
  rewrite (search_somewhere _ (fun t =>
    str_eqb t (py "?") || str_eqb t (py "?" ++ [SlackClient.newline]))).
  - by rewrite somewhere_orb, !somewhere_is_endswith.
  - intros b t. rewrite accepts_seq. destruct t as [|c t]; [done|].
    cbn [rmatch]. destruct (Ascii.eqb c "?") eqn:E.
    + apply Ascii.eqb_eq in E as ->. cbn [existsb fst]. rewrite orb_false_r.
      rewrite accepts_eol. cbn [drop]. rewrite drop_0.
      f_equal; apply eq_true_iff_eq; rewrite !str_eqb_eq;
        (split; [by intros -> | by intros [= ->]]).
    + cbn. symmetry. apply orb_false_intro; apply str_eqb_neq;
        intros [= -> _]; by rewrite Ascii.eqb_refl in E.
Qed.

Lemma search_modal (s : str) : search pat_modal s = spec_modal s.
Proof.
  unfold pat_modal. rewrite search_bol, accepts_seq_words_group.
  unfold spec_modal, any_of. apply existsb_pointwise. intros w.
  unfold word_then_space. by rewrite accepts_cls.
Qed.

Lemma search_please (s : str) : search pat_please s = spec_please s.
Proof.
  unfold pat_please, spec_please, any_of.
  rewrite <- (somewhere_existsb (fun w => word_then_space (py w))).
  apply search_somewhere. intros b t.
  rewrite accepts_seq_words_group. apply existsb_pointwise. intros w.
  unfold word_then_space. by rewrite accepts_cls.
Qed.

(** Inside a run of whitespace no word starts. *)
Lemma no_word_inside_spaces (y : str) (c0 : ascii) (y' : str) (r : str) (n : nat) :
  y = c0 :: y' -> isspace c0 = false ->
  (n < run_length isspace r)%nat -> startswith (drop n r) y = false.
Proof.
  intros -> Hc0. revert n. induction r as [|x r IH]; intros n Hn; cbn in Hn.
  - lia.
  - destruct (isspace x) eqn:Ex; [|lia].
    destruct n as [|n]; cbn.
    + destruct (Ascii.eqb c0 x) eqn:E; [|done].
      apply Ascii.eqb_eq in E. congruence.
    + apply IH. lia.
Qed.

Lemma lstrip_by_run_length (p : ascii -> bool) (r : str) :
  lstrip_by p r = drop (run_length p r) r.
Proof. induction r as [|x r IH]; cbn; [done|]. by destruct (p x). Qed.

Lemma existsb_countdown_false (f : nat -> bool) (k : nat) :
  (forall n, (1 <= n <= k)%nat -> f n = false) ->
  existsb f (countdown k) = false.
Proof.
  induction k as [|k IH]; intros Hf; [done|].
  cbn. rewrite Hf by lia. apply IH. intros n Hn. apply Hf. lia.
Qed.

(** [\s+] followed by a word: the word comes right after the whole run. *)
Lemma spaces_then_word (y : str) (c0 : ascii) (y' : str) (u : str) :
  y = c0 :: y' -> isspace c0 = false ->
  existsb (fun n => startswith (drop n u) y) (countdown (run_length isspace u))
  = match u with
    | c :: r => isspace c && startswith (lstrip_by isspace r) y
    | [] => false
    end.
Proof.
  intros Hy Hc0. destruct u as [|c r]; [done|]. cbn [run_length].
  destruct (isspace c); [|done]. cbn [countdown existsb andb drop].
  rewrite lstrip_by_run_length, existsb_countdown_false; [by rewrite orb_false_r|].
  intros n Hn. destruct n as [|n]; [lia|]. cbn [drop].
  apply (no_word_inside_spaces y c0 y'); [done | done | lia].
Qed.

Lemma existsb_orb_pointwise {X} (f g : X -> bool) (l : list X) :
  existsb (fun x => f x || g x) l = existsb f l || existsb g l.
Proof.
  induction l as [|x l IH]; [done|]. cbn. rewrite IH.
  destruct (f x), (g x), (existsb f l); done.
Qed.

Lemma search_need (s : str) : search pat_need s = spec_need s.
Proof.
  unfold pat_need, spec_need, any_of.
  rewrite (search_somewhere _ (fun t =>
    existsb (fun w => existsb (fun y => word_spaces_word (py w) (py y) t)
                              ["you"; "your"]%string)
            ["need"; "needs"]%string)).
  - rewrite somewhere_existsb. apply existsb_pointwise. intros w.
    by rewrite somewhere_existsb.
  - intros b t. rewrite accepts_seq_words_group. apply existsb_pointwise. intros w.
    rewrite accepts_plus_seq.
    rewrite (existsb_pointwise _
      (fun n => startswith (drop n (drop (length (py w)) t)) (py "you")
                || startswith (drop n (drop (length (py w)) t)) (py "your"))).
    2:{ intros n. rewrite accepts_words_group. cbn [existsb].
        by rewrite orb_false_r. }
    rewrite existsb_orb_pointwise.
    rewrite (spaces_then_word (py "you") "y" (py "ou")) by done.
    rewrite (spaces_then_word (py "your") "y" (py "our")) by done.
    cbn [existsb]. unfold word_spaces_word. rewrite orb_false_r.
    destruct (startswith t (py w)); [|done]. cbn [andb].
    by destruct (drop (length (py w)) t) as [|c r]; [|destruct (isspace c)].
Qed.

Lemma search_review (s : str) : search pat_review s = spec_review s.
Proof.
  unfold pat_review, spec_review, any_of.
  rewrite (existsb_pointwise _ (fun w => somewhere (fun t => startswith t (py w)) s))
    by (intros w; apply contains_somewhere).
  rewrite <- (somewhere_existsb (fun w t => startswith t (py w))).
  apply search_somewhere. intros b t. apply accepts_words_group.
Qed.

Lemma search_thoughts (s : str) : search pat_thoughts s = spec_thoughts s.
Proof.
  unfold pat_thoughts, spec_thoughts, any_of.
  rewrite (search_somewhere _ (fun t =>
    existsb (fun w => startswith t (py w ++ py "?"))
            ["thoughts"; "opinion"; "input"; "feedback"]%string)).
  - rewrite somewhere_existsb. cbn [existsb].
    by rewrite !contains_somewhere.
  - intros b t. rewrite accepts_seq_words_group. apply existsb_pointwise. intros w.
    by rewrite accepts_chr, startswith_app.
Qed.

Lemma search_when (s : str) : search pat_when s = spec_when s.
Proof.
  unfold pat_when, spec_when, any_of, lit.
  rewrite (search_somewhere _ (fun t =>
    existsb (fun w => startswith t (py "when " ++ py w))
            ["can"; "will"; "could"]%string)).
  - rewrite somewhere_existsb. cbn [existsb].
    by rewrite !contains_somewhere.
  - intros b t. rewrite accepts_seq_word, accepts_words_group.
    cbn [existsb]. rewrite !startswith_app.
    by destruct (startswith t (py "when ")).
Qed.

Lemma search_eta (s : str) : search pat_eta s = spec_eta s.
Proof.
  unfold pat_eta, spec_eta, lit. rewrite contains_somewhere.
  apply search_somewhere. intros b t.
  by rewrite accepts_seq_word, accepts_opt, andb_true_r.
Qed.


(** ** [is_action_item] *)

(** The classification, heuristic by heuristic. A message is an action item
    exactly when its text holds the mention of the caller and its lowercased
    text ends with a question mark, possibly followed by one final newline,
    or satisfies one of the seven other heuristics; the answer depends on
    the text and the caller's id only, and a text without the mention is
    never one. *)
Theorem is_action_item_refines_heuristics (message : Message.t)
    (my_user_id : str) :
  is_action_item message my_user_id
    = is_action_item_amended (Message.text message) my_user_id
  /\ (contains (SlackClient.mention_token my_user_id) (Message.text message)
        = false ->
      is_action_item message my_user_id = false).
Proof.
  unfold is_action_item, is_action_item_amended.
  split.
  - destruct (contains _ (Message.text message)); [|done].
    cbn [negb andb question_patterns existsb].
    rewrite search_ends_question, search_modal, search_please, search_need,
      search_review, search_thoughts, search_when, search_eta.
    unfold spec_other_patterns. by rewrite orb_false_r, !orb_assoc.
  - by intros ->.
Qed.

(** C6. The first pattern, which its comment reads as "ends with question
    mark", does not say so: a text that mentions the caller and whose
    question mark is followed by a final newline is classified as an action
    item, although it does not end with a question mark and satisfies none
    of the seven other heuristics. *)
Lemma question_before_final_newline_is_action_item :
  let text := py "<@U1> ok?" ++ [SlackClient.newline] in
  is_action_item (Fixture.message text) (py "U1") = true
  /\ is_action_item_spec text (py "U1") = false
  /\ spec_ends_question (lower text) = false
  /\ spec_other_patterns (lower text) = false.
Proof. cbv zeta. repeat split; by vm_compute. Qed.

(** ** [truncate_text] *)

(** With room for the ellipsis the result fits. *)
Lemma truncate_text_fits (text : str) (max_len : Z) :
  3 <= max_len -> len (truncate_text text max_len) <= max_len.
Proof.
  intros Hn. unfold truncate_text.
  destruct (len (rewrite_markup text) <=? max_len) eqn:E.
  - by apply Z.leb_le.
  - unfold slice_to, len. rewrite (proj2 (Z.leb_le 0 (max_len - 3))) by lia.
    rewrite length_app, length_take.
    change (length (py "...")) with 3%nat. lia.
Qed.

(** Either the rewritten text whole, or a prefix of it and an ellipsis. *)
Lemma truncate_text_shape (text : str) (max_len : Z) :
  (len (rewrite_markup text) <= max_len
   /\ truncate_text text max_len = rewrite_markup text)
  \/ (max_len < len (rewrite_markup text)
      /\ exists k, truncate_text text max_len
                   = take k (rewrite_markup text) ++ py "...").
Proof.
  unfold truncate_text.
  destruct (len (rewrite_markup text) <=? max_len) eqn:E.
  - left. split; [by apply Z.leb_le | done].
  - right. split; [by apply Z.leb_gt|]. unfold slice_to.
    destruct (0 <=? max_len - 3); eauto.
Qed.

(** C7. Below three the bound is not kept: the slice [text[:max_len - 3]]
    then counts from the end of the text. *)
Theorem truncate_text_overlong_below_three :
  truncate_text (py "hello") 2 = py "hell..."
  /\ len (truncate_text (py "hello") 2) = 7
  /\ truncate_text (py "hello") 0 = py "he...".
Proof. repeat split; by vm_compute. Qed.

(** ** Idempotence *)

Lemma rmatch_seq_nil (r1 r2 : regex) (b : bool) (t : str) :
  rmatch r1 b t = [] -> rmatch (Seq r1 r2) b t = [].
Proof. intros Hr. cbn [rmatch]. by rewrite Hr. Qed.

Lemma rmatch_chr_other (c : ascii) (b : bool) (t : str) :
  hd_error t <> Some c -> rmatch (Chr c) b t = [].
Proof.
  intros Hhd. destruct t as [|x t]; [done|]. cbn.
  destruct (Ascii.eqb x c) eqn:E; [|done].
  apply Ascii.eqb_eq in E as ->. by destruct Hhd.
Qed.

(** Each of the four rewrites looks for a ["<"]. *)
Lemma markup_patterns_need_lt (r : regex) (b : bool) (t : str) :
  In r [pat_user_mention; pat_channel_mention; pat_link_text; pat_link] ->
  hd_error t <> Some "<"%char -> rmatch r b t = [].
Proof.
  intros Hr Hhd.
  destruct Hr as [<- | [<- | [<- | [<- | []]]]];
    repeat (apply rmatch_seq_nil); by apply rmatch_chr_other.
Qed.

Lemma sub_go_no_match (r : regex) (repl : list repl_item) (s : str) (b : bool) :
  (forall b' t, hd_error t <> Some "<"%char -> rmatch r b' t = []) ->
  ~ In "<"%char s -> sub_go r repl b 0 s = s.
Proof.
  intros Hr. revert b. induction s as [|c s IH]; intros b Hs; cbn.
  - by rewrite Hr.
  - rewrite Hr; [|intros [= ->]; apply Hs; by left].
    f_equal. apply IH. intros Hin. apply Hs. by right.
Qed.

(** A single-spaced text without ["<"] is left as it is by the rewrite. *)
Lemma rewrite_markup_fixed (s : str) :
  ~ In "<"%char s -> collapsed s = true -> rewrite_markup s = s.
Proof.
  intros Hs Hc. unfold rewrite_markup, sub.
  rewrite (sub_go_no_match pat_user_mention _ s),
    (sub_go_no_match pat_channel_mention _ s),
    (sub_go_no_match pat_link_text _ s),
    (sub_go_no_match pat_link _ s);
    try done; try (intros b' t; apply markup_patterns_need_lt; cbn; tauto).
  by apply join_split_fixed.
Qed.

Lemma rewrite_markup_collapsed (text : str) :
  collapsed (rewrite_markup text) = true.
Proof. unfold rewrite_markup. apply join_split_collapsed. Qed.

(** C8, as the code has it. With room for the ellipsis, truncating a
    result that holds no ["<"] changes nothing. *)
Theorem truncate_text_idempotent_without_markup (text : str) (max_len : Z) :
  3 <= max_len ->
  ~ In "<"%char (truncate_text text max_len) ->
  truncate_text (truncate_text text max_len) max_len
  = truncate_text text max_len.
Proof.
  intros Hn Hlt.
  assert (Hfixed : rewrite_markup (truncate_text text max_len)
                   = truncate_text text max_len).
  { apply rewrite_markup_fixed; [done|].
    destruct (truncate_text_shape text max_len) as [[_ ->] | [_ [k Hk]]].
    - apply rewrite_markup_collapsed.
    - revert Hk. unfold truncate_text, slice_to.
      destruct (_ <=? max_len); [intros _; apply rewrite_markup_collapsed|].
      intros _. rewrite (proj2 (Z.leb_le 0 (max_len - 3))) by lia.
      apply collapsed_take_ellipsis, rewrite_markup_collapsed. }
  unfold truncate_text at 1. rewrite Hfixed.
  by rewrite (proj2 (Z.leb_le _ _) (truncate_text_fits text max_len Hn)).
Qed.

Lemma truncate_text_idempotent_without_markup_witness :
  truncate_text
    (truncate_text (py "ping <@U1>:   the  build is red again") 20) 20
  = py "ping @user: the b...".
Proof.
  rewrite (truncate_text_idempotent_without_markup
             (py "ping <@U1>:   the  build is red again") 20).
  - reflexivity.
  - lia.
  - vm_compute. intuition discriminate.
Defined.

(** C8, as the specification states it, fails: one pass takes one layer of
    brackets off, a second pass takes the next. *)
Lemma truncate_text_twice_on_nested_markup :
  truncate_text (py "<<a>>") 100 = py "<a>"
  /\ truncate_text (truncate_text (py "<<a>>") 100) 100 = py "a".
Proof. split; by vm_compute. Qed.

End SummarizerProps.

(* ================================================================== *)
(** * Properties of the workspace client *)
(* ================================================================== *)
Module ClientProps.
Import PyStr SlackClient PyStrFacts.

(** Unfolds the plumbing of the client monad. *)
Ltac run :=
  unfold bind, ret, raise, diverge, api, try_except, get_self, modify_self,
    now, sleep, only_SlackApiError in *; simpl in *.

Section Facts.
Context {B : Type} `{Env B}.
Implicit Types (w : world B) (conv : Raw.conv).

(** Computing the instant of a message changes nothing; it answers or
    raises. *)
Lemma timestamp_of_pure (ts : str) w :
  (timestamp_of ts w).2 = w /\ (timestamp_of ts w).1 <> Diverge.
Proof.
  unfold timestamp_of. destruct ts as [|c ts]; [done|].
  by destruct (fromtimestamp (c :: ts)).
Qed.

(** C9. The kind of a conversation is one of the four kinds, whatever the
    attributes, and the flags are read in the order direct message, group
    direct message, private channel: the first flag that holds decides, and
    a conversation with none of them is a channel. *)
Theorem conversation_type_total_with_precedence conv :
  let kind := _get_conversation_type conv in
  (kind = py "dm" \/ kind = py "mpim" \/ kind = py "group"
   \/ kind = py "channel")
  /\ NoDup [py "dm"; py "mpim"; py "group"; py "channel"]
  /\ (truthy_get (Raw.c_is_im conv) = true -> kind = py "dm")
  /\ (truthy_get (Raw.c_is_im conv) = false ->
      truthy_get (Raw.c_is_mpim conv) = true -> kind = py "mpim")
  /\ (truthy_get (Raw.c_is_im conv) = false ->
      truthy_get (Raw.c_is_mpim conv) = false ->
      truthy_get (Raw.c_is_private conv) = true -> kind = py "group")
  /\ (truthy_get (Raw.c_is_im conv) = false ->
      truthy_get (Raw.c_is_mpim conv) = false ->
      truthy_get (Raw.c_is_private conv) = false -> kind = py "channel").
Proof.
  unfold _get_conversation_type; cbv zeta.
  split; [| split; [| repeat split]].
  - destruct (truthy_get (Raw.c_is_im conv)); [by left|].
    destruct (truthy_get (Raw.c_is_mpim conv)); [by right; left|].
    destruct (truthy_get (Raw.c_is_private conv)); [by right; right; left|].
    by right; right; right.
  - apply (bool_decide_unpack _). by vm_compute.
  - by intros ->.
  - by intros -> ->.
  - by intros -> -> ->.
  - by intros -> -> ->.
Qed.

(** C10. A reference that begins with [C], [D] or [G] is returned as it is:
    the client, the backend and the log of calls are left untouched,
    whatever the reference goes on to say. *)
Theorem resolve_channel_keeps_id_like_reference (fuel : nat) (channel : str) w :
  startswith channel (py "C") || startswith channel (py "D")
    || startswith channel (py "G") = true ->
  _resolve_channel fuel channel w = (Ok channel, w).
Proof.
  intros Hid. unfold _resolve_channel. by rewrite Hid.
Qed.

(** C5. A history fetch answers a [channel_not_found] error of the backend
    with no messages and lets any other error through; a thread fetch
    answers every error of the Web API with no messages. *)
Theorem history_and_thread_errors (channel_id thread_ts : str) (limit : Z)
    (oldest latest : option Z) w :
  let kwargs := history_kwargs channel_id limit oldest latest in
  let h := conversations_history kwargs (backend w) in
  let r := conversations_replies channel_id thread_ts limit (backend w) in
  (h.1 = inl (SlackApiError (py "channel_not_found")) ->
   get_messages channel_id limit oldest latest w =
   (Ok [], {| self := self w; backend := h.2;
              log := log w ++ [Call_conversations_history kwargs] |}))
  /\ (forall e, h.1 = inl e -> e <> SlackApiError (py "channel_not_found") ->
      get_messages channel_id limit oldest latest w =
      (Raise e, {| self := self w; backend := h.2;
                   log := log w ++ [Call_conversations_history kwargs] |}))
  /\ (forall error, r.1 = inl (SlackApiError error) ->
      get_thread channel_id thread_ts limit w =
      (Ok [], {| self := self w; backend := r.2;
                 log := log w ++
                   [Call_conversations_replies channel_id thread_ts limit] |})).
Proof.
  cbv zeta. repeat split.
  - intros Hh. unfold get_messages. run. by rewrite Hh.
  - intros e Hh Hne. unfold get_messages. run. rewrite Hh.
    destruct e as [error| | | | |]; try done.
    destruct (str_eqb error _) eqn:E; [|done].
    apply str_eqb_eq in E. by subst.
  - intros error Hr. unfold get_thread. run. by rewrite Hr.
Qed.

End Facts.

(** A group name that begins with a capital [D] is taken for an id. *)
Lemma resolve_channel_keeps_id_like_reference_witness :
  _resolve_channel 0 (py "Design") (Fixture.fresh Fixture.office)
  = (Ok (py "Design"), Fixture.fresh Fixture.office).
Proof.
  apply (resolve_channel_keeps_id_like_reference 0 (py "Design")).
  reflexivity.
Defined.

Lemma conversation_type_total_with_precedence_witness :
  _get_conversation_type
    {| Raw.c_id := None; Raw.c_name := None; Raw.c_user := None;
       Raw.c_is_im := Some (PInt 1); Raw.c_is_mpim := Some (PBool true);
       Raw.c_is_private := Some (PStr (py "yes"));
       Raw.c_is_member := None; Raw.c_is_archived := None;
       Raw.c_unread_count := None; Raw.c_last_read := None |} = py "dm".
Proof.
  apply (proj1 (proj2 (proj2 (conversation_type_total_with_precedence _)))).
  reflexivity.
Defined.

Lemma history_and_thread_errors_witness :
  (get_messages (py "C9") 100 None None
     (Fixture.fresh (Fixture.with_history_error
        (SlackApiError (py "channel_not_found")) Fixture.office))).1 = Ok []
  /\ (get_messages (py "C9") 100 None None
        (Fixture.fresh (Fixture.with_history_error
           (SlackApiError (py "ratelimited")) Fixture.office))).1
     = Raise (SlackApiError (py "ratelimited"))
  /\ (get_thread (py "C9") (py "1700000001.000100") 100
        (Fixture.fresh (Fixture.with_replies_error
           (SlackApiError (py "thread_not_found")) Fixture.office))).1 = Ok [].
Proof.
  split; [|split].
  - rewrite (proj1 (history_and_thread_errors (py "C9") [] 100 None None
      (Fixture.fresh (Fixture.with_history_error
         (SlackApiError (py "channel_not_found")) Fixture.office))));
      reflexivity.
  - rewrite (proj1 (proj2 (history_and_thread_errors (py "C9") [] 100 None None
      (Fixture.fresh (Fixture.with_history_error
         (SlackApiError (py "ratelimited")) Fixture.office))))
      (SlackApiError (py "ratelimited")));
      [reflexivity | reflexivity | discriminate].
  - rewrite (proj2 (proj2 (history_and_thread_errors (py "C9")
      (py "1700000001.000100") 100 None None
      (Fixture.fresh (Fixture.with_replies_error
         (SlackApiError (py "thread_not_found")) Fixture.office))))
      (py "thread_not_found"));
      reflexivity.
Defined.


(** ** The conversation directory *)
Section Directory.
Context {B : Type} `{Env B}.
Implicit Types (w : world B) (conv : Raw.conv).
Import Observe.

Lemma fetches_snoc (l : list call) (c : call) :
  fetches (l ++ [c]) = (fetches l + (if is_fetch c then 1 else 0))%nat.
Proof.
  unfold fetches. rewrite List.filter_app, length_app. simpl.
  by destruct (is_fetch c).
Qed.

(** Building a [Conversation] from a payload touches nothing. *)
Lemma conversation_of_pure conv w : (conversation_of conv w).2 = w.
Proof.
  unfold conversation_of, _get_conversation_name. run.
  destruct (str_eqb _ (py "dm")).
  - destruct (Raw.c_user conv) as [[|c0 u]|]; simpl;
      by destruct (Raw.c_id conv).
  - destruct (str_eqb _ (py "mpim")); simpl; by destruct (Raw.c_id conv).
Qed.

Lemma for_append_conversation_of_pure (convs : list Raw.conv)
    (acc : list Conversation.t) w :
  (for_append conversation_of convs acc w).2 = w.
Proof.
  revert acc w. induction convs as [|conv convs IH]; intros acc w; [done|].
  simpl. unfold bind.
  pose proof (conversation_of_pure conv w) as Hp.
  destruct (conversation_of conv w) as [[c| |] w']; simpl in Hp; subst;
    [apply IH | done | done].
Qed.

(** A fetch that ends has changed no field of the client and has asked for
    the first page at most once: exactly once when it started without a
    cursor. *)
Lemma fetch_pages_fetches (fuel : nat) (types : str) (cursor : option str)
    (acc convs : list Conversation.t) w w1 :
  fetch_pages fuel types cursor acc w = (Ok convs, w1) ->
  self w1 = self w /\
  fetches (log w1) =
    (fetches (log w) + (if nonempty cursor then 0 else
                          match cursor with None => 1 | Some _ => 0 end))%nat.
Proof.
  revert cursor acc w. induction fuel as [|fuel IH]; intros cursor acc w.
  - by cbn.
  - simpl. run.
    destruct (conversations_list types cursor (time_sleep (backend w)))
      as [[e|response] b'] eqn:El; simpl; [done|].
    match goal with |- context [for_append conversation_of ?l ?a ?w0] =>
      pose proof (for_append_conversation_of_pure l a w0) as Hp;
      destruct (for_append conversation_of l a w0) as [[convs'| |] w'] eqn:Ef
    end; simpl in Hp; subst w'; try done.
    assert (Hcount :
      fetches ((log w ++ [Call_sleep]) ++ [Call_conversations_list types cursor])
      = (fetches (log w) + (if nonempty cursor then 0 else
                          match cursor with None => 1 | Some _ => 0 end))%nat).
    { rewrite !fetches_snoc. simpl. destruct cursor as [[|c0 cur]|]; simpl; lia. }
    destruct (nonempty (Raw.next_cursor response)) eqn:En.
    + intros Hrec. apply IH in Hrec as [Hself Hf]. simpl in *.
      rewrite En in Hf. split; [done|]. rewrite Hf, Hcount. lia.
    + intros [= <- <-]. simpl. by split.
Qed.

(** A call that finds the cache non-empty and younger than [cache_ttl]
    answers from it: the cached list filtered by the kinds asked for, and no
    call on the backend. *)
Lemma get_conversations_from_cache (fuel : nat) (types : str) w
    (cache : list Conversation.t) :
  _conversations_cache (self w) = Some cache ->
  cache <> [] ->
  (time_time (backend w)).1 - _conversations_cache_time (self w) < cache_ttl ->
  get_conversations fuel types true w =
  (Ok (filter_cached types cache),
   {| self := self w; backend := (time_time (backend w)).2; log := log w |}).
Proof.
  intros Hc Hne Hage. unfold get_conversations. run. rewrite Hc.
  destruct cache as [|c0 cs]; [done|]. simpl.
  by rewrite (proj2 (Z.ltb_lt _ _) Hage).
Qed.

(** When a call for all the kinds returns a non-empty directory, a later
    call for any kinds, made while the clock reads less than [cache_ttl]
    seconds past the time stored with the cache, is answered by filtering
    the cached list and calls the backend for nothing; the two calls
    together have fetched the directory at most once. If the first call
    fetched, the cache is the list it returned. *)
Lemma full_listing_serves_later_call (fuel fuel' : nat) (types : str)
    w w1 (convs : list Conversation.t) :
  get_conversations fuel all_types true w = (Ok convs, w1) ->
  convs <> [] ->
  (time_time (backend w1)).1 - _conversations_cache_time (self w1) < cache_ttl ->
  exists cache w2,
    _conversations_cache (self w1) = Some cache
    /\ (log w1 = log w \/ cache = convs)
    /\ get_conversations fuel' types true w1 =
       (Ok (filter_cached types cache), w2)
    /\ log w2 = log w1
    /\ (fetches (log w2) <= fetches (log w) + 1)%nat.
Proof.
  intros Hfirst Hne Hage.
  assert (Hcache : exists cache,
    _conversations_cache (self w1) = Some cache /\ cache <> [] /\
    (log w1 = log w \/ cache = convs) /\
    (fetches (log w1) <= fetches (log w) + 1)%nat).
  { revert Hfirst. unfold get_conversations. run.
    destruct (_conversations_cache (self w)) as [[|c0 cs]|] eqn:Hc; simpl.
    - destruct (fetch_pages fuel all_types None [] w) as [[l| |] w'] eqn:Hf;
        try done.
      apply fetch_pages_fetches in Hf as [Hself Hn]. simpl in Hn.
      intros [= <- <-]. simpl.
      exists l. repeat split; [done | by right | lia].
    - destruct (_ <? cache_ttl) eqn:Efresh; simpl.
      + intros [= <- <-]. simpl. exists (c0 :: cs).
        repeat split; [done | done | by left | lia].
      + destruct (fetch_pages fuel all_types None [] _) as [[l| |] w'] eqn:Hf;
          try done.
        apply fetch_pages_fetches in Hf as [Hself Hn]. simpl in Hn.
        intros [= <- <-]. simpl.
        exists l. repeat split; [done | by right | lia].
    - destruct (fetch_pages fuel all_types None [] w) as [[l| |] w'] eqn:Hf;
        try done.
      apply fetch_pages_fetches in Hf as [Hself Hn]. simpl in Hn.
      intros [= <- <-]. simpl.
      exists l. repeat split; [done | by right | lia]. }
  destruct Hcache as (cache & Hc & Hcne & Hlog & Hn).
  exists cache, {| self := self w1; backend := (time_time (backend w1)).2;
                   log := log w1 |}.
  repeat split; try done.
  by apply get_conversations_from_cache.
Qed.

End Directory.

(** C1, as the specification states it, fails: on a fresh client, a call
    for the direct messages followed by a call for the channels, with the
    clock standing still, fetches the directory twice, each time for the
    kinds asked for only, and neither call fills the cache. *)
Lemma directory_filtered_calls_fetch_twice :
  let first := get_conversations 5 (py "im") true (Fixture.fresh Fixture.office) in
  let second :=
    get_conversations 5 (py "public_channel,private_channel") true first.2 in
  (exists dms, first.1 = Ok dms)
  /\ (exists chans, second.1 = Ok chans)
  /\ Fixture.clock (backend second.2) - Fixture.clock Fixture.office < cache_ttl
  /\ List.filter Observe.is_fetch (log second.2)
     = [ Call_conversations_list (py "im") None;
         Call_conversations_list (py "public_channel,private_channel") None ]
  /\ Observe.fetches (log second.2) = 2%nat
  /\ _conversations_cache (self second.2) = None.
Proof.
  cbv zeta. split; [eexists; by vm_compute|].
  split; [eexists; by vm_compute|].
  split; [by vm_compute|].
  split; [by vm_compute|]. split; by vm_compute.
Qed.

(** ** Reference resolution *)
Section Resolution.
Context {B : Type} `{Env B}.
Implicit Types (w : world B).
Import Observe.

Lemma extends_quietly_refl (l : list call) : extends_quietly l l.
Proof. exists []. split; [by rewrite app_nil_r | constructor]. Qed.

Lemma extends_quietly_trans (l0 l1 l2 : list call) :
  extends_quietly l0 l1 -> extends_quietly l1 l2 -> extends_quietly l0 l2.
Proof.
  intros (a & -> & Ha) (b & -> & Hb). exists (a ++ b).
  split; [by rewrite app_assoc | by apply Forall_app].
Qed.

Lemma extends_quietly_snoc (l : list call) (c : call) :
  is_users_info c = false -> extends_quietly l (l ++ [c]).
Proof. intros Hc. exists [c]. split; [done | by repeat constructor]. Qed.

Lemma fetch_pages_log (fuel : nat) (types : str) (cursor : option str)
    (acc : list Conversation.t) w :
  extends_quietly (log w) (log (fetch_pages fuel types cursor acc w).2).
Proof.
  revert cursor acc w. induction fuel as [|fuel IH]; intros cursor acc w.
  - apply extends_quietly_refl.
  - simpl. run.
    assert (Hstep : extends_quietly (log w)
              ((log w ++ [Call_sleep]) ++ [Call_conversations_list types cursor])).
    { eapply extends_quietly_trans; by apply extends_quietly_snoc. }
    destruct (conversations_list types cursor (time_sleep (backend w)))
      as [[e|response] b'] eqn:El; simpl; [done|].
    match goal with |- context [for_append conversation_of ?l ?a ?w0] =>
      pose proof (for_append_conversation_of_pure l a w0) as Hp;
      destruct (for_append conversation_of l a w0) as [[convs'| |] w'] eqn:Ef
    end; simpl in Hp; subst w'; simpl; try done.
    destruct (nonempty (Raw.next_cursor response)); [|done].
    eapply extends_quietly_trans; [exact Hstep | apply IH].
Qed.

Lemma get_conversations_log (fuel : nat) (types : str) (use_cache : bool) w :
  extends_quietly (log w) (log (get_conversations fuel types use_cache w).2).
Proof.
  assert (Hfetch : forall w', log w' = log w ->
    extends_quietly (log w)
      (log (bind (fetch_pages fuel types None [])
              (fun conversations =>
                 bind (if str_eqb types all_types
                       then bind (modify_self
                                    (set_conversations_cache conversations))
                              (fun _ => bind now (fun t2 =>
                                 modify_self (set_conversations_cache_time t2)))
                       else ret tt)
                   (fun _ => ret conversations)) w').2)).
  { intros w' Hw'. rewrite <- Hw'.
    pose proof (fetch_pages_log fuel types None [] w') as Hl. unfold bind.
    destruct (fetch_pages fuel types None [] w') as [[a| |] w'']; try done.
    destruct (str_eqb types all_types); by run. }
  unfold get_conversations. unfold bind at 1 2. unfold get_self.
  destruct use_cache; [|by apply Hfetch].
  destruct (_conversations_cache (self w)) as [[|c0 cs]|];
    [by apply Hfetch | | by apply Hfetch].
  unfold bind at 1, now, ret at 1.
  destruct (_ <? cache_ttl); [apply extends_quietly_refl | by apply Hfetch].
Qed.

(** Resolving a reference never asks the backend who a user is: the names
    it compares are the ones stored in the directory. *)
Lemma resolve_channel_never_resolves_users (fuel : nat) (channel : str) w :
  extends_quietly (log w) (log (_resolve_channel fuel channel w).2).
Proof.
  unfold _resolve_channel.
  destruct (_ || _); [apply extends_quietly_refl|].
  cbv zeta.
  destruct (startswith _ (py "@")).
  - unfold bind.
    pose proof (get_conversations_log fuel (py "im") true w) as Hl.
    destruct (get_conversations fuel (py "im") true w) as [[convs| |] w'];
      try done.
    by destruct (first_match _ _ _).
  - unfold bind.
    pose proof (get_conversations_log fuel
                  (py "public_channel,private_channel") true w) as Hl.
    destruct (get_conversations fuel (py "public_channel,private_channel")
                true w) as [[convs| |] w']; try done.
    by destruct (first_match _ _ _).
Qed.

End Resolution.

(** C3. On the workspace of the examples the direct message with Jen
    Rexford is listed under the placeholder [@user:U1]. The reference
    [@jen] is not found, although the resolved name of that conversation
    contains it and [find_dm_by_person] finds it; the reference [@user]
    matches the placeholder itself. *)
Theorem resolve_at_reference_sees_placeholder :
  let w := Fixture.fresh Fixture.office in
  (_resolve_channel 5 (py "@jen") w).1
    = Raise (ValueError (py "Could not find DM with user: jen"))
  /\ (get_conversations 5 (py "im") true w).1
     = Ok [ {| Conversation.id := py "D1"; Conversation.name := py "@user:U1";
               Conversation.type := py "dm"; Conversation.is_member := true;
               Conversation.is_archived := false;
               Conversation.unread_count := 0;
               Conversation.last_read := None;
               Conversation.latest_message := None |} ]
  /\ (find_dm_by_person 5 (py "@jen") w).1 = Ok (py "D1", py "@Jen Rexford")
  /\ contains (lower (py "jen")) (lower (py "@Jen Rexford")) = true
  /\ (_resolve_channel 5 (py "@user") w).1 = Ok (py "D1").
Proof.
  cbv zeta. repeat split; by vm_compute.
Qed.


(** ** Quoted replies *)
Section Sending.
Context {B : Type} `{Env B}.
Implicit Types (w : world B).
Import Observe PyStrFacts.

Lemma isspace_dot : isspace "."%char = false.
Proof. reflexivity. Qed.


(** The excerpt of a longer text: its first 50 characters up to their last
    space (all 50 when they hold no space), newlines turned into spaces,
    stripped on the left, and an ellipsis. *)
Lemma reply_excerpt_long (t : str) :
  50 < len t ->
  exists cut rest,
    take 50 t = cut ++ rest
    /\ (rest = [] \/ exists r, rest = " "%char :: r /\ ~ In " "%char r)
    /\ reply_excerpt t = lstrip_by isspace (map nl_to_space cut) ++ py "...".
Proof.
  intros Hlen. unfold reply_excerpt, slice_to, len in *. simpl.
  rewrite (proj2 (Z.ltb_lt _ _) Hlen).
  destruct (rsplit1_head_prefix " " (take 50 t)) as (rest & Hcut & Hrest).
  exists (rsplit1_head " " (take 50 t)), rest.
  split; [done|]. split; [done|]. change (py " ") with [" "%char].
  rewrite (replace_char _ newline " "), map_app.
  change (map _ (py "...")) with ([] ++ "."%char :: ["."%char] ++ ["."%char]).
  unfold strip.
  rewrite (strip_by_app_kept isspace _ ["."%char] "." "."); try done.
Qed.




End Sending.


End ClientProps.

(* ================================================================== *)
(** * Properties of the tool router *)
(* ================================================================== *)
Module ServerProps.
Import mcp_server.

Section Router.
Context {B : Type} `{Env B}.
Variable load_config : exn + config.Config.
Variable float_of : str -> exn + Z.
Variable other_tools : str -> gmap str pyval -> SM (B := B) str.
Variable render_unread : list (str * list Message.t) -> str.

(** The call of [_handle_tool] names two parameters that
    [get_unread_messages] does not have; the first of them is reported. *)
Lemma unread_keywords_rejected (hours max_dms max_channels : pyval) :
  bind_keywords sig_get_unread_messages
    [ (py "hours", hours); (py "max_dms", max_dms);
      (py "max_channels", max_channels) ]
  = inl (TypeError (py "SlackClient.get_unread_messages() got an unexpected keyword argument 'max_dms'")).
Proof. reflexivity. Qed.

(** Finding the client answers or raises, and calls nothing. *)
Lemma get_client_frame (workspace : option pyval) (st : state (B := B)) :
  let r := get_client load_config workspace st in
  r.1 <> Diverge /\ backend r.2 = backend st /\ log r.2 = log st.
Proof.
  cbv zeta. unfold get_client, sbind, get_config, lift, sraise, sret.
  destruct (_config st) as [c|].
  - destruct (match workspace with
              | Some (PStr k) => config.get_workspace c (Some k)
              | Some PNone | None => config.get_workspace c None
              | Some v => inl (ValueError (py "Unknown workspace: " ++ py_str v))
              end) as [e|w]; [done|].
    by destruct (_clients st !! config.key w).
  - destruct load_config as [e|c]; [done|].
    destruct (match workspace with
              | Some (PStr k) => config.get_workspace c (Some k)
              | Some PNone | None => config.get_workspace c None
              | Some v => inl (ValueError (py "Unknown workspace: " ++ py_str v))
              end) as [e|w]; [done|]. simpl.
    by destruct (_clients st !! config.key w).
Qed.

(** C2, as the code has it. Whatever the arguments and the state of the
    server, [slack_unread] answers with one text that starts with
    [Error: ], and no call reaches the backend. When the client of the
    request is found, the text is the [TypeError] of the call of
    [get_unread_messages] with the keyword [max_dms]; when it is not,
    [get_unread_messages] is not called and the text is the error of
    [get_client]. *)
Theorem slack_unread_always_answers_error (fuel : nat) (args : gmap str pyval)
    (st : state (B := B)) :
  let r := call_tool load_config float_of other_tools render_unread fuel
             (py "slack_unread") args st in
  let found := get_client load_config (args !! py "workspace") st in
  (exists msg, r.1 = Ok [ {| type := py "text"; text := py "Error: " ++ msg |} ])
  /\ backend r.2 = backend st
  /\ log r.2 = log st
  /\ (forall client st',
        found = (Ok client, st') ->
        r = (Ok [ {| type := py "text";
                     text := py "Error: SlackClient.get_unread_messages() got an unexpected keyword argument 'max_dms'" |} ],
             st'))
  /\ (forall e st',
        found = (Raise e, st') ->
        r = (Ok [ {| type := py "text"; text := py "Error: " ++ exn_str e |} ],
             st'))
  /\ found.1 <> Diverge.
Proof.
  unfold call_tool, _handle_tool. cbv zeta.
  change (str_eqb (py "slack_unread") (py "slack_workspaces")) with false.
  change (str_eqb (py "slack_unread") (py "slack_summary")) with false.
  change (str_eqb (py "slack_unread") (py "slack_unread")) with true.
  cbv iota. unfold sbind, call_method, sraise.
  pose proof (get_client_frame (args !! py "workspace") st) as (Hnd & Hb & Hl).
  destruct (get_client load_config (args !! py "workspace") st)
    as [[client|e|] st1] eqn:Eg; simpl in Hnd, Hb, Hl.
  - rewrite unread_keywords_rejected. simpl.
    repeat split; [by eexists | done | done | | done | done].
    by intros client' st' [= <- <-].
  - simpl. repeat split; [by eexists | done | done | done | | done].
    by intros e' st' [= <- <-].
  - done.
Qed.

End Router.

(** On the server of the examples, before its first request. *)
Lemma slack_unread_always_answers_error_witness :
  (call_tool (inr Fixture.configuration) (fun _ => inr 0)
     (fun _ _ => sret []) (fun _ => []) 5 (py "slack_unread")
     (<[py "hours" := PInt 48]> ∅) (Fixture.started Fixture.office)).1
  = Ok [ {| type := py "text";
            text := py "Error: SlackClient.get_unread_messages() got an unexpected keyword argument 'max_dms'" |} ].
Proof.
  destruct (get_client (inr Fixture.configuration)
              ((<[py "hours" := PInt 48]> ∅ : gmap str pyval) !! py "workspace")
              (Fixture.started Fixture.office)) as [r st'] eqn:Eg.
  assert (Hr : r = Ok (py "work")).
  { pose proof Eg as Eg'. vm_compute in Eg'. by injection Eg' as <- _. }
  subst r.
  by rewrite (proj1 (proj2 (proj2 (proj2 (slack_unread_always_answers_error
       (inr Fixture.configuration) (fun _ => inr 0) (fun _ _ => sret [])
       (fun _ => []) 5 (<[py "hours" := PInt 48]> ∅)
       (Fixture.started Fixture.office))))) _ _ Eg).
Defined.

(** C2, as the specification states it, fails: a request for a workspace
    that is not configured is answered with the error of [get_client]; the
    call of [get_unread_messages] is not reached and no [TypeError] is
    raised. *)
Lemma slack_unread_of_unknown_workspace_is_no_type_error :
  let args : gmap str pyval := <[py "workspace" := PStr (py "nope")]> ∅ in
  let r := call_tool (inr Fixture.configuration) (fun _ => inr 0)
             (fun _ _ => sret []) (fun _ => []) 5 (py "slack_unread") args
             (Fixture.started Fixture.office) in
  (get_client (inr Fixture.configuration) (args !! py "workspace")
     (Fixture.started Fixture.office)).1
  = Raise (ValueError (py "Unknown workspace: nope"))
  /\ r.1 = Ok [ {| type := py "text";
                   text := py "Error: Unknown workspace: nope" |} ]
  /\ log r.2 = [].
Proof.
  cbv zeta. repeat split; by vm_compute.
Qed.

End ServerProps.

(* ================================================================== *)
(** * Further properties of the workspace client *)
(* ================================================================== *)
Module ClientExtras.
Import PyStr SlackClient PyStrFacts Observe.

Section Identity.
Context {B : Type} `{Env B}.
Implicit Types (w : world B).

(** What [get_user] does, by the state of the cache and the answer of the
    backend. *)
Lemma get_user_cached (user_id : str) (u : User.t) w :
  _user_cache (self w) !! user_id = Some u -> get_user user_id w = (Ok u, w).
Proof.
  intros Hc. unfold get_user. ClientProps.run. rewrite Hc. simpl.
  by rewrite Hc.
Qed.

Lemma get_user_miss (user_id : str) w :
  _user_cache (self w) !! user_id = None ->
  let r := users_info user_id (backend w) in
  let stored u :=
    {| self := set_user_cache (insert user_id u) (self w); backend := r.2;
       log := log w ++ [Call_users_info user_id] |} in
  get_user user_id w =
  match r.1 with
  | inr data =>
      let u := {| User.id := user_id;
                  User.name := default (py "unknown") (Raw.u_name data);
                  User.real_name :=
                    default (default (py "Unknown") (Raw.u_name data))
                            (Raw.u_real_name data);
                  User.is_bot := default false (Raw.u_is_bot data) |} in
      (Ok u, stored u)
  | inl (SlackApiError _) =>
      (Ok (placeholder_user user_id), stored (placeholder_user user_id))
  | inl e =>
      (Raise e, {| self := self w; backend := r.2;
                   log := log w ++ [Call_users_info user_id] |})
  end.
Proof.
  intros Hc. cbv zeta. unfold get_user. ClientProps.run. rewrite Hc. simpl.
  destruct (users_info user_id (backend w)) as [[e|data] b']; simpl.
  - destruct e; simpl; try done. by rewrite lookup_insert_eq.
  - by rewrite lookup_insert_eq.
Qed.

(** X1. Once [get_user] has answered for an id, asking again gives the same
    user and leaves the client, the backend and the log as they are: the
    identity cache is never refreshed. *)
Theorem get_user_asks_the_backend_once (user_id : str) (u : User.t) w w1 :
  get_user user_id w = (Ok u, w1) ->
  get_user user_id w1 = (Ok u, w1)
  /\ _user_cache (self w1) !! user_id = Some u.
Proof.
  intros Hget.
  assert (Hc : _user_cache (self w1) !! user_id = Some u).
  { destruct (_user_cache (self w) !! user_id) as [u0|] eqn:E.
    - rewrite (get_user_cached user_id u0 w E) in Hget.
      by injection Hget as <- <-.
    - rewrite (get_user_miss user_id w E) in Hget. cbv zeta in Hget.
      destruct (users_info user_id (backend w)).1 as [[]|data];
        try discriminate;
        injection Hget as <- <-; simpl; by rewrite ?lookup_insert_eq. }
  split; [by apply get_user_cached | done].
Qed.

(** X2. A profile that the Web API refuses with a [SlackApiError] does not
    fail the lookup: the user comes back as the placeholder named
    "Unknown User" and is cached as such, so that later lookups keep
    answering with the placeholder without asking the backend again. Any
    other exception passes through and nothing is cached. *)
Theorem get_user_degrades_to_placeholder (user_id : str) w :
  _user_cache (self w) !! user_id = None ->
  let r := get_user user_id w in
  (forall error, (users_info user_id (backend w)).1 = inl (SlackApiError error) ->
     r.1 = Ok (placeholder_user user_id)
     /\ get_user user_id r.2 = (Ok (placeholder_user user_id), r.2))
  /\ (forall e, (users_info user_id (backend w)).1 = inl e ->
      (forall error, e <> SlackApiError error) ->
      r.1 = Raise e /\ self r.2 = self w).
Proof.
  intros Hc. cbv zeta. rewrite (get_user_miss user_id w Hc). cbv zeta.
  split.
  - intros error ->. simpl. split; [done|].
    apply get_user_cached. simpl. by rewrite lookup_insert_eq.
  - intros e -> Hne. destruct e; try done. by destruct (Hne error).
Qed.

(** [get_user] leaves the caller's own id alone. *)
Lemma get_user_keeps_my_user_id (user_id : str) w :
  _my_user_id (self (get_user user_id w).2) = _my_user_id (self w).
Proof.
  destruct (_user_cache (self w) !! user_id) as [u0|] eqn:E.
  - by rewrite (get_user_cached user_id u0 w E).
  - rewrite (get_user_miss user_id w E). cbv zeta.
    by destruct (users_info user_id (backend w)).1 as [[]|data].
Qed.

(** When [my_user_id] answers, the id is stored; a stored id is answered
    with no call and is never replaced. *)
Lemma my_user_id_is_known_after w :
  match my_user_id w with
  | (Ok me, w1) =>
      _my_user_id (self w1) = Some me
      /\ (forall me0, _my_user_id (self w) = Some me0 ->
                      _my_user_id (self w1) = Some me0)
  | _ => True
  end
  /\ (forall me, _my_user_id (self w) = Some me -> my_user_id w = (Ok me, w)).
Proof.
  unfold my_user_id. ClientProps.run.
  destruct (_my_user_id (self w)) as [me0|] eqn:E; simpl.
  - rewrite E. split; [by split | by intros me [= <-]].
  - destruct (auth_test (backend w)).1 as [e|me1]; simpl; by repeat split.
Qed.

(** X3. The caller's own id is asked of the backend until it answers, and
    never again: after an answer, [my_user_id] returns it with no call;
    after a failure, nothing has been stored. *)
Theorem my_user_id_is_asked_until_known w :
  let r := my_user_id w in
  (forall me, r.1 = Ok me ->
     _my_user_id (self r.2) = Some me /\ my_user_id r.2 = (Ok me, r.2))
  /\ (forall e, r.1 = Raise e -> self r.2 = self w)
  /\ (forall me, _my_user_id (self w) = Some me -> r = (Ok me, w)).
Proof.
  cbv zeta. unfold my_user_id. ClientProps.run.
  destruct (_my_user_id (self w)) as [me0|] eqn:E; simpl.
  - split; [|split]; [| done | by intros me [= <-]].
    intros me [= <-]. by rewrite E.
  - destruct (auth_test (backend w)).1 as [e|me1]; simpl;
      (split; [|split]); try done.
    by intros me [= <-].
Qed.

End Identity.

(** ** The directory and its cache *)
Section DirectoryCache.
Context {B : Type} `{Env B}.
Implicit Types (w : world B).

Lemma fetch_pages_self (fuel : nat) (types : str) (cursor : option str)
    (acc : list Conversation.t) w :
  self (fetch_pages fuel types cursor acc w).2 = self w.
Proof.
  revert cursor acc w. induction fuel as [|fuel IH]; intros cursor acc w;
    [done|].
  simpl. ClientProps.run.
  destruct (conversations_list types cursor (time_sleep (backend w)))
    as [[e|response] b'] eqn:El; simpl; [done|].
  match goal with |- context [for_append conversation_of ?l ?a ?w0] =>
    pose proof (ClientProps.for_append_conversation_of_pure l a w0) as Hp;
    destruct (for_append conversation_of l a w0) as [[convs'| |] w'] eqn:Ef
  end; simpl in Hp; subst w'; simpl; try done.
  destruct (nonempty (Raw.next_cursor response)); [|done].
  by rewrite IH.
Qed.

(** X4. A call for some of the kinds only never writes the cache: whatever
    it fetches and however it ends, the client is left exactly as it was,
    so a partial listing cannot be served later as if it were the whole
    directory. *)
Theorem filtered_listing_leaves_the_cache (fuel : nat) (types : str)
    (use_cache : bool) w :
  types <> all_types ->
  self (get_conversations fuel types use_cache w).2 = self w.
Proof.
  intros Hne. apply str_eqb_neq in Hne.
  unfold get_conversations, bind at 1 2, get_self.
  assert (Hfetch : forall w', self w' = self w ->
    self (bind (fetch_pages fuel types None [])
            (fun conversations =>
               bind (if str_eqb types all_types
                     then bind (modify_self
                                  (set_conversations_cache conversations))
                            (fun _ => bind now (fun t2 =>
                               modify_self (set_conversations_cache_time t2)))
                     else ret tt)
                 (fun _ => ret conversations)) w').2 = self w).
  { intros w' Hw'. rewrite Hne, <- Hw', <- (fetch_pages_self fuel types None [] w').
    unfold bind, ret.
    by destruct (fetch_pages fuel types None [] w') as [[a| |] w'']. }
  destruct use_cache; [|by apply Hfetch].
  destruct (_conversations_cache (self w)) as [[|c0 cs]|];
    [by apply Hfetch | | by apply Hfetch].
  unfold bind at 1, now, ret at 1.
  destruct (_ <? cache_ttl); [done | by apply Hfetch].
Qed.

(** The kind of a conversation built from a payload is one of the four. *)
Lemma conversation_of_kind (conv : Raw.conv) (c : Conversation.t) w w1 :
  conversation_of conv w = (Ok c, w1) -> known_kind (Conversation.type c).
Proof.
  unfold conversation_of, _get_conversation_name. ClientProps.run.
  assert (Hk : known_kind (_get_conversation_type conv)).
  { unfold _get_conversation_type, known_kind.
    destruct (truthy_get (Raw.c_is_im conv)); [by left|].
    destruct (truthy_get (Raw.c_is_mpim conv)); [by right; left|].
    destruct (truthy_get (Raw.c_is_private conv)); [by right; right; left|].
    by right; right; right. }
  destruct (str_eqb _ (py "dm")).
  - destruct (Raw.c_user conv) as [[|c0 u]|]; simpl;
      destruct (Raw.c_id conv); simpl; try done; by intros [= <- _].
  - destruct (str_eqb _ (py "mpim")); simpl;
      destruct (Raw.c_id conv); simpl; try done; by intros [= <- _].
Qed.

Lemma for_append_conversation_of_kinds (convs : list Raw.conv)
    (acc out : list Conversation.t) w w1 :
  for_append conversation_of convs acc w = (Ok out, w1) ->
  Forall (fun c => known_kind (Conversation.type c)) acc ->
  Forall (fun c => known_kind (Conversation.type c)) out.
Proof.
  revert acc w. induction convs as [|conv convs IH]; intros acc w; simpl.
  - by intros [= <- _].
  - unfold bind.
    destruct (conversation_of conv w) as [[c| |] w'] eqn:Ec; try done.
    intros Hrest Hacc. apply (IH _ _ Hrest).
    apply Forall_app. split; [done|]. constructor; [|done].
    by apply (conversation_of_kind conv c w w').
Qed.

Lemma fetch_pages_kinds (fuel : nat) (types : str) (cursor : option str)
    (acc convs : list Conversation.t) w w1 :
  fetch_pages fuel types cursor acc w = (Ok convs, w1) ->
  Forall (fun c => known_kind (Conversation.type c)) acc ->
  Forall (fun c => known_kind (Conversation.type c)) convs.
Proof.
  revert cursor acc w. induction fuel as [|fuel IH]; intros cursor acc w;
    [done|].
  simpl. ClientProps.run.
  destruct (conversations_list types cursor (time_sleep (backend w)))
    as [[e|response] b'] eqn:El; simpl; [done|].
  match goal with |- context [for_append conversation_of ?l ?a ?w0] =>
    destruct (for_append conversation_of l a w0) as [[convs'| |] w'] eqn:Ef
  end; simpl; try done.
  intros Hrest Hacc.
  pose proof (for_append_conversation_of_kinds _ _ _ _ _ Ef Hacc) as Hk.
  destruct (nonempty (Raw.next_cursor response)).
  - by apply (IH _ _ _ Hrest).
  - by injection Hrest as <- _.
Qed.

(** The filter for all the kinds keeps every conversation of a known kind. *)
Lemma filter_cached_all_kinds (l : list Conversation.t) :
  Forall (fun c => known_kind (Conversation.type c)) l ->
  filter_cached all_types l = l.
Proof.
  unfold filter_cached. induction 1 as [|c l Hc Hl IH]; [done|].
  simpl. rewrite IH.
  destruct Hc as [-> | [-> | [-> | ->]]]; by vm_compute.
Qed.

(** X5. On a client whose cache is empty, a listing of all the kinds that
    returns some conversations is repeated as it was by the next listing of
    all the kinds made within [cache_ttl] seconds: the same conversations,
    in the same order, with no call on the backend. *)
Theorem full_listing_is_repeated_from_cache (fuel fuel' : nat) w w1
    (convs : list Conversation.t) :
  _conversations_cache (self w) = None ->
  get_conversations fuel all_types true w = (Ok convs, w1) ->
  convs <> [] ->
  (time_time (backend w1)).1 - _conversations_cache_time (self w1) < cache_ttl ->
  get_conversations fuel' all_types true w1 =
  (Ok convs, {| self := self w1; backend := (time_time (backend w1)).2;
                log := log w1 |}).
Proof.
  intros Hnone Hfirst Hne Hage.
  assert (Hc : _conversations_cache (self w1) = Some convs
               /\ Forall (fun c => known_kind (Conversation.type c)) convs).
  { revert Hfirst. unfold get_conversations. ClientProps.run.
    rewrite Hnone. simpl.
    destruct (fetch_pages fuel all_types None [] w) as [[l| |] w'] eqn:Hf;
      try done.
    intros [= <- <-]. simpl. split; [done|].
    by apply (fetch_pages_kinds _ _ _ _ _ _ _ Hf). }
  destruct Hc as [Hc Hk].
  rewrite (ClientProps.get_conversations_from_cache fuel' all_types w1 convs
             Hc Hne Hage).
  by rewrite filter_cached_all_kinds.
Qed.

(** X6. What a listing served from the cache keeps, for the kind filters
    the code uses: [im] keeps the direct messages, and
    [public_channel,private_channel] the channels and the private channels;
    a kind's own name ([dm]) is accepted in place of its backend name. *)
Theorem cached_listing_filters_by_kind (cache : list Conversation.t) :
  filter_cached (py "im") cache
    = List.filter (fun c => str_eqb (Conversation.type c) (py "dm")) cache
  /\ filter_cached (py "public_channel,private_channel") cache
     = List.filter (fun c => str_eqb (Conversation.type c) (py "channel")
                             || str_eqb (Conversation.type c) (py "group"))
                   cache
  /\ filter_cached (py "dm") cache = filter_cached (py "im") cache.
Proof.
  assert (Hin : forall types (ks : list str) (x : str),
    map (fun t0 => default t0 (type_map !! t0)) (split_on "," types) = ks ->
    bool_decide (x ∈ allowed_types types) = existsb (str_eqb x) ks).
  { intros types ks x <-. unfold allowed_types.
    apply eq_true_iff_eq. rewrite bool_decide_eq_true, elem_of_list_to_set.
    rewrite existsb_exists, list_elem_of_In. split.
    - intros Hx. exists x. split; [done | by apply str_eqb_eq].
    - intros (y & Hy & Hxy). apply str_eqb_eq in Hxy. by subst. }
  unfold filter_cached. split; [|split].
  - apply List.filter_ext. intros c.
    rewrite (Hin (py "im") [py "dm"]) by by vm_compute.
    cbn [existsb]. by rewrite orb_false_r.
  - apply List.filter_ext. intros c.
    rewrite (Hin (py "public_channel,private_channel")
                 [py "channel"; py "group"]) by by vm_compute.
    cbn [existsb]. by rewrite orb_false_r.
  - apply List.filter_ext. intros c.
    rewrite (Hin (py "dm") [py "dm"]) by by vm_compute.
    by rewrite (Hin (py "im") [py "dm"]) by by vm_compute.
Qed.

End DirectoryCache.

(** ** Names and references *)
Section Names.
Context {B : Type} `{Env B}.
Implicit Types (w : world B).

(** X7. The name of a direct message is resolved late to what it would have
    been resolved to at once: for a conversation that the directory built
    from a direct-message payload, [resolve_dm_name] does what
    [_get_conversation_name] does with [resolve_users=True] — the same
    lookup of the same user, the same name, [@Unknown] with no lookup when
    the payload names no user. *)
Theorem dm_name_resolves_late_as_at_once (conv : Raw.conv)
    (c : Conversation.t) w0 w1 w :
  _get_conversation_type conv = py "dm" ->
  conversation_of conv w0 = (Ok c, w1) ->
  resolve_dm_name c w = _get_conversation_name conv (py "dm") true w.
Proof.
  intros Hdm. unfold conversation_of. rewrite Hdm.
  unfold _get_conversation_name, resolve_dm_name.
  change (str_eqb (py "dm") (py "dm")) with true. cbv iota.
  unfold bind, ret, raise.
  destruct (Raw.c_user conv) as [[|c0 u]|]; destruct (Raw.c_id conv);
    try done; by intros [= <- _].
Qed.

(** X8. A leading [#] is dropped before a name is looked up: unless the
    name itself starts with [C], [D], [G] or [#], the reference [#name] is
    resolved exactly as [name] is. *)
Theorem hash_prefix_is_dropped (fuel : nat) (name : str) w :
  startswith name (py "C") || startswith name (py "D")
    || startswith name (py "G") || startswith name (py "#") = false ->
  _resolve_channel fuel (py "#" ++ name) w = _resolve_channel fuel name w.
Proof.
  intros Hname.
  apply orb_false_elim in Hname as [Hname Hhash].
  unfold _resolve_channel. rewrite Hname, Hhash.
  change (py "#" ++ name) with ("#"%char :: name).
  by destruct name.
Qed.

End Names.

(** ** History and threads *)
Section History.
Context {B : Type} `{Env B}.
Implicit Types (w : world B).

Lemma author_keeps_my_user_id (msg : Raw.msg) w :
  _my_user_id (self (author msg w).2) = _my_user_id (self w).
Proof.
  unfold author. destruct (Raw.m_user msg) as [[|c0 u]|]; try done.
  unfold bind. pose proof (get_user_keeps_my_user_id (c0 :: u) w) as Hk.
  by destruct (get_user (c0 :: u) w) as [[usr| |] w'].
Qed.

(** One message of the history: dropped when administrative, else built
    from the payload and flagged for the caller's id, which the client
    knows from then on. *)
Lemma history_message_spec (channel_id : str) (msg : Raw.msg)
    (r : option Message.t) w w1 :
  history_message channel_id msg w = (Ok r, w1) ->
  (forall me0, _my_user_id (self w) = Some me0 ->
               _my_user_id (self w1) = Some me0)
  /\ match r with
     | None => kept msg = false
     | Some m =>
         kept msg = true /\ content m = raw_content msg
         /\ Message.channel_id m = channel_id
         /\ exists me, _my_user_id (self w1) = Some me /\ flagged_for me m
     end.
Proof.
  unfold history_message, kept.
  destruct (administrative (Raw.m_subtype msg)); [by intros [= <- <-]|].
  unfold bind at 1.
  pose proof (author_keeps_my_user_id msg w) as Ha.
  destruct (author msg w) as [[a| |] w'] eqn:Ea; try done. simpl in Ha.
  unfold bind, ret.
  pose proof (my_user_id_is_known_after w') as Hm.
  destruct (my_user_id w') as [[me| |] w''] eqn:Em; try done.
  destruct Hm as ((Hsome & Hkeep) & _).
  pose proof (ClientProps.timestamp_of_pure (default [] (Raw.m_ts msg)) w'')
    as [Ht _].
  destruct (timestamp_of _ w'') as [[stamp| |] w3]; try done.
  simpl in Ht. subst w3.
  intros [= <- <-]. split.
  - intros me0 H0. apply Hkeep. by rewrite Ha.
  - repeat split. by exists me.
Qed.

Lemma history_loop_spec (channel_id : str) (raw : list Raw.msg)
    (acc out : list Message.t) w w1 :
  for_append_some (history_message channel_id) raw acc w = (Ok out, w1) ->
  exists new,
    out = acc ++ new
    /\ map content new = map raw_content (List.filter kept raw)
    /\ Forall (fun m => Message.channel_id m = channel_id) new
    /\ (forall me0, _my_user_id (self w) = Some me0 ->
          _my_user_id (self w1) = Some me0 /\ Forall (flagged_for me0) new)
    /\ (new <> [] ->
        exists me, _my_user_id (self w1) = Some me /\ Forall (flagged_for me) new).
Proof.
  revert acc w. induction raw as [|msg raw IH]; intros acc w; simpl.
  - intros [= <- <-]. exists []. rewrite app_nil_r. by repeat split.
  - unfold bind at 1.
    destruct (history_message channel_id msg w) as [[r| |] w'] eqn:Eh; try done.
    apply history_message_spec in Eh as (Hkeep & Hr).
    intros Hrest. apply IH in Hrest as (new & -> & Hc & Hch & Hid & Hne).
    destruct r as [m|].
    + destruct Hr as (Hk & Hcm & Hchm & me & Hme & Hfl). rewrite Hk.
      exists (m :: new). rewrite <- app_assoc. simpl.
      destruct (Hid me Hme) as (Hme1 & Hall).
      repeat split; try done.
      * by rewrite Hcm, Hc.
      * by constructor.
      * by apply Hid, Hkeep.
      * constructor; [|by apply Hid, Hkeep].
        pose proof (Hkeep me0 H0) as Hme0. rewrite Hme0 in Hme.
        by injection Hme as <-.
      * intros _. exists me. split; [done | by constructor].
    + rewrite Hr. exists new. repeat split; try done.
      * by apply Hid, Hkeep.
      * by apply Hid, Hkeep.
Qed.

(** X9. A history fetch that returns gives the messages of the backend's
    answer in the backend's order, without those whose subtype is
    [channel_join], [channel_leave] or [bot_message]: each has the id, the
    text, the thread id and the reply count of its payload (an absent text
    or id reads as empty, an absent count as 0) and the id of the
    conversation asked for. *)
Theorem history_keeps_order_and_drops_notices (channel_id : str) (limit : Z)
    (oldest latest : option Z) (raw : list Raw.msg) (msgs : list Message.t)
    w w1 :
  get_messages channel_id limit oldest latest w = (Ok msgs, w1) ->
  (conversations_history (history_kwargs channel_id limit oldest latest)
     (backend w)).1 = inr raw ->
  map content msgs = map raw_content (List.filter kept raw)
  /\ Forall (fun m => Message.channel_id m = channel_id) msgs.
Proof.
  unfold get_messages. ClientProps.run. intros Hget Hraw.
  rewrite Hraw in Hget. simpl in Hget.
  apply history_loop_spec in Hget as (new & -> & Hc & Hch & _). by split.
Qed.

(** X10. All the messages of one history fetch are flagged for one and the
    same caller: when the fetch returns some message, the client knows its
    own id from then on, and each message is flagged as a mention exactly
    when its text holds the mention token of that id. *)
Theorem history_flags_mentions_of_one_caller (channel_id : str) (limit : Z)
    (oldest latest : option Z) (msgs : list Message.t) w w1 :
  get_messages channel_id limit oldest latest w = (Ok msgs, w1) ->
  msgs <> [] ->
  exists me,
    _my_user_id (self w1) = Some me
    /\ my_user_id w1 = (Ok me, w1)
    /\ Forall (fun m => Message.is_mention m
                        = contains (mention_token me) (Message.text m)) msgs.
Proof.
  unfold get_messages. ClientProps.run. intros Hget Hne.
  destruct (conversations_history _ (backend w)).1 as [e|raw]; simpl in Hget.
  - destruct e; try done.
    destruct (str_eqb error _); [|done]. by injection Hget as <- _.
  - apply history_loop_spec in Hget as (new & -> & _ & _ & _ & Hid).
    destruct (Hid Hne) as (me & Hme & Hall).
    exists me. repeat split; [done | | done].
    by apply my_user_id_is_known_after.
Qed.

End History.

(** ** Threads *)
Section Threads.
Context {B : Type} `{Env B}.
Implicit Types (w : world B).

Lemma thread_loop_spec (channel_id thread_ts : str) (raw : list Raw.msg)
    (acc out : list Message.t) w w1 :
  for_append (thread_message channel_id thread_ts) raw acc w = (Ok out, w1) ->
  _my_user_id (self w1) = _my_user_id (self w)
  /\ exists new,
       out = acc ++ new
       /\ map (fun m => (Message.ts m, Message.text m)) new
          = map (fun r => (default [] (Raw.m_ts r), default [] (Raw.m_text r)))
                raw
       /\ Forall (fun m => Message.is_mention m = false
                           /\ Message.thread_ts m = Some thread_ts
                           /\ Message.reply_count m = 0
                           /\ Message.channel_id m = channel_id) new.
Proof.
  revert acc w. induction raw as [|msg raw IH]; intros acc w; simpl.
  - intros [= <- <-]. split; [done|]. exists []. by rewrite app_nil_r.
  - unfold bind at 1, thread_message at 1, bind at 1.
    pose proof (author_keeps_my_user_id msg w) as Ha.
    destruct (author msg w) as [[a| |] w'] eqn:Ea; try done. simpl in Ha.
    unfold bind at 1.
    pose proof (ClientProps.timestamp_of_pure (default [] (Raw.m_ts msg)) w')
      as [Ht _].
    destruct (timestamp_of _ w') as [[stamp| |] w3]; try done.
    simpl in Ht. subst w3.
    unfold ret at 1. intros Hrest.
    apply IH in Hrest as (Hme & new & -> & Hc & Hall).
    split; [by rewrite Hme|].
    eexists (_ :: new). rewrite <- app_assoc. simpl.
    split; [done|]. split; [by rewrite Hc|]. by constructor.
Qed.

(** X11. A thread fetch that returns gives one message for each message of
    the backend's answer, in order and with none dropped; none is flagged as
    a mention, whatever its text, each carries the thread id asked for and a
    reply count of 0, and the caller's own id is neither asked for nor
    stored. *)
Theorem thread_keeps_all_and_flags_none (channel_id thread_ts : str)
    (limit : Z) (raw : list Raw.msg) (msgs : list Message.t) w w1 :
  get_thread channel_id thread_ts limit w = (Ok msgs, w1) ->
  (conversations_replies channel_id thread_ts limit (backend w)).1 = inr raw ->
  map (fun m => (Message.ts m, Message.text m)) msgs
    = map (fun r => (default [] (Raw.m_ts r), default [] (Raw.m_text r))) raw
  /\ Forall (fun m => Message.is_mention m = false
                      /\ Message.thread_ts m = Some thread_ts
                      /\ Message.reply_count m = 0
                      /\ Message.channel_id m = channel_id) msgs
  /\ _my_user_id (self w1) = _my_user_id (self w).
Proof.
  unfold get_thread. ClientProps.run. intros Hget Hraw.
  rewrite Hraw in Hget. simpl in Hget.
  apply thread_loop_spec in Hget as (Hme & new & -> & Hc & Hall).
  by repeat split.
Qed.

End Threads.

(** ** What each operation may call *)
Section Calls.
Context {B : Type} `{Env B}.
Implicit Types (w : world B).

Lemma extends_with_refl (P : call -> bool) (l : list call) : extends_with P l l.
Proof. exists []. split; [by rewrite app_nil_r | done]. Qed.

Lemma extends_with_trans (P : call -> bool) (l0 l1 l2 : list call) :
  extends_with P l0 l1 -> extends_with P l1 l2 -> extends_with P l0 l2.
Proof.
  intros (a & -> & Ha) (b & -> & Hb). exists (a ++ b).
  split; [by rewrite app_assoc | by rewrite forallb_app, Ha, Hb].
Qed.

Lemma extends_with_snoc (P : call -> bool) (l : list call) (c : call) :
  P c = true -> extends_with P l (l ++ [c]).
Proof. intros Hc. exists [c]. split; [done | by cbn; rewrite Hc]. Qed.

Lemma extends_with_weaken (P Q : call -> bool) (l0 l1 : list call) :
  (forall c, P c = true -> Q c = true) ->
  extends_with P l0 l1 -> extends_with Q l0 l1.
Proof.
  intros HPQ (a & -> & Ha). exists a. split; [done|].
  apply forallb_forall. intros c Hc. apply HPQ.
  by apply (proj1 (forallb_forall P a) Ha).
Qed.

Lemma extends_with_posted (P : call -> bool) (l0 l1 : list call) :
  (forall c, P c = true -> is_post c = false) ->
  extends_with P l0 l1 -> posted l1 = posted l0.
Proof.
  intros HP (a & -> & Ha). unfold posted. rewrite flat_map_app.
  assert (Hno : flat_map (fun c => match c with
                                   | Call_chat_postMessage _ text _ => [text]
                                   | _ => []
                                   end) a = []).
  { induction a as [|c a IH]; [done|]. cbn in Ha.
    apply andb_true_iff in Ha as [Hc Ha]. cbn. rewrite (IH Ha).
    apply HP in Hc. by destruct c. }
  by rewrite Hno, app_nil_r.
Qed.

(** A lookup of a user may ask for a profile; nothing else. *)
Lemma get_user_calls (user_id : str) w :
  extends_with is_users_info (log w) (log (get_user user_id w).2).
Proof.
  destruct (_user_cache (self w) !! user_id) as [u0|] eqn:E.
  - rewrite (get_user_cached user_id u0 w E). apply extends_with_refl.
  - rewrite (get_user_miss user_id w E). cbv zeta.
    destruct (users_info user_id (backend w)).1 as [[]|data];
      by apply extends_with_snoc.
Qed.

Lemma my_user_id_calls w :
  extends_with is_auth_test (log w) (log (my_user_id w).2).
Proof.
  unfold my_user_id. ClientProps.run.
  destruct (_my_user_id (self w)); simpl; [apply extends_with_refl|].
  destruct (auth_test (backend w)).1; by apply extends_with_snoc.
Qed.

(** A listing pauses and asks for pages; nothing else. *)
Lemma fetch_pages_calls (fuel : nat) (types : str) (cursor : option str)
    (acc : list Conversation.t) w :
  extends_with is_listing (log w) (log (fetch_pages fuel types cursor acc w).2).
Proof.
  revert cursor acc w. induction fuel as [|fuel IH]; intros cursor acc w.
  - apply extends_with_refl.
  - simpl. ClientProps.run.
    assert (Hstep : extends_with is_listing (log w)
              ((log w ++ [Call_sleep]) ++ [Call_conversations_list types cursor])).
    { eapply extends_with_trans; by apply extends_with_snoc. }
    destruct (conversations_list types cursor (time_sleep (backend w)))
      as [[e|response] b'] eqn:El; simpl; [done|].
    match goal with |- context [for_append conversation_of ?l ?a ?w0] =>
      pose proof (ClientProps.for_append_conversation_of_pure l a w0) as Hp;
      destruct (for_append conversation_of l a w0) as [[convs'| |] w'] eqn:Ef
    end; simpl in Hp; subst w'; simpl; try done.
    destruct (nonempty (Raw.next_cursor response)); [|done].
    eapply extends_with_trans; [exact Hstep | apply IH].
Qed.

Lemma get_conversations_calls (fuel : nat) (types : str) (use_cache : bool) w :
  extends_with is_listing (log w)
    (log (get_conversations fuel types use_cache w).2).
Proof.
  assert (Hfetch : forall w', log w' = log w ->
    extends_with is_listing (log w)
      (log (bind (fetch_pages fuel types None [])
              (fun conversations =>
                 bind (if str_eqb types all_types
                       then bind (modify_self
                                    (set_conversations_cache conversations))
                              (fun _ => bind now (fun t2 =>
                                 modify_self (set_conversations_cache_time t2)))
                       else ret tt)
                   (fun _ => ret conversations)) w').2)).
  { intros w' Hw'. rewrite <- Hw'.
    pose proof (fetch_pages_calls fuel types None [] w') as Hl. unfold bind.
    destruct (fetch_pages fuel types None [] w') as [[a| |] w'']; try done.
    destruct (str_eqb types all_types); by ClientProps.run. }
  unfold get_conversations. unfold bind at 1 2. unfold get_self.
  destruct use_cache; [|by apply Hfetch].
  destruct (_conversations_cache (self w)) as [[|c0 cs]|];
    [by apply Hfetch | | by apply Hfetch].
  unfold bind at 1, now, ret at 1.
  destruct (_ <? cache_ttl); [apply extends_with_refl | by apply Hfetch].
Qed.

Lemma resolve_channel_calls (fuel : nat) (channel : str) w :
  extends_with is_listing (log w) (log (_resolve_channel fuel channel w).2).
Proof.
  unfold _resolve_channel.
  destruct (_ || _); [apply extends_with_refl|].
  cbv zeta.
  destruct (startswith _ (py "@")).
  - unfold bind.
    pose proof (get_conversations_calls fuel (py "im") true w) as Hl.
    destruct (get_conversations fuel (py "im") true w) as [[convs| |] w'];
      try done.
    by destruct (first_match _ _ _).
  - unfold bind.
    pose proof (get_conversations_calls fuel
                  (py "public_channel,private_channel") true w) as Hl.
    destruct (get_conversations fuel (py "public_channel,private_channel")
                true w) as [[convs| |] w']; try done.
    by destruct (first_match _ _ _).
Qed.

Lemma history_message_calls (channel_id : str) (msg : Raw.msg) w :
  extends_with reads (log w) (log (history_message channel_id msg w).2).
Proof.
  unfold history_message.
  destruct (administrative _); [apply extends_with_refl|].
  unfold bind at 1, author.
  assert (Ha : extends_with reads (log w) (log (author msg w).2)).
  { unfold author. destruct (Raw.m_user msg) as [[|c0 u]|];
      try apply extends_with_refl.
    unfold bind.
    pose proof (get_user_calls (c0 :: u) w) as Hu.
    apply (extends_with_weaken _ reads) in Hu; [|by intros []].
    by destruct (get_user (c0 :: u) w) as [[usr| |] w']. }
  fold (author msg w).
  destruct (author msg w) as [[a| |] w'] eqn:Ea; try done. simpl in Ha.
  unfold bind, ret.
  pose proof (my_user_id_calls w') as Hm.
  apply (extends_with_weaken _ reads) in Hm; [|by intros []].
  assert (Hboth : extends_with reads (log w) (log (my_user_id w').2))
    by (by eapply extends_with_trans).
  destruct (my_user_id w') as [[me| |] w'']; try done.
  pose proof (ClientProps.timestamp_of_pure (default [] (Raw.m_ts msg)) w'')
    as [Ht _].
  destruct (timestamp_of _ w'') as [[stamp| |] w3]; simpl in Ht; by subst w3.
Qed.

Lemma history_loop_calls (channel_id : str) (raw : list Raw.msg)
    (acc : list Message.t) w :
  extends_with reads (log w)
    (log (for_append_some (history_message channel_id) raw acc w).2).
Proof.
  revert acc w. induction raw as [|msg raw IH]; intros acc w; simpl.
  - apply extends_with_refl.
  - unfold bind at 1.
    pose proof (history_message_calls channel_id msg w) as Hm.
    destruct (history_message channel_id msg w) as [[r| |] w']; try done.
    eapply extends_with_trans; [exact Hm | apply IH].
Qed.

Lemma get_messages_calls (channel_id : str) (limit : Z)
    (oldest latest : option Z) w :
  extends_with reads (log w)
    (log (get_messages channel_id limit oldest latest w).2).
Proof.
  unfold get_messages. ClientProps.run.
  assert (Hstep : extends_with reads (log w)
    (log w ++ [Call_conversations_history
                 (history_kwargs channel_id limit oldest latest)])).
  { by apply extends_with_snoc. }
  destruct (conversations_history _ (backend w)).1 as [e|raw]; simpl.
  - destruct e; try done. by destruct (str_eqb error _).
  - eapply extends_with_trans; [exact Hstep|].
    match goal with |- context [for_append_some _ raw [] ?w0] =>
      apply (history_loop_calls channel_id raw [] w0) end.
Qed.

Lemma maybe_add_reply_context_calls (channel_id reply_to_ts text : str) w :
  extends_with reads (log w)
    (log (_maybe_add_reply_context channel_id reply_to_ts text w).2).
Proof.
  unfold _maybe_add_reply_context, bind at 1.
  pose proof (get_messages_calls channel_id 3 None None w) as Hg.
  destruct (get_messages channel_id 3 None None w) as [[recent| |] w'];
    try done.
  destruct recent as [|latest rest]; [done|].
  destruct (str_eqb _ reply_to_ts); [done|].
  destruct (find _ _) as [msg|].
  - unfold bind, ret. by destruct (Message.text msg).
  - unfold bind at 1, fetch_original. ClientProps.run.
    eapply extends_with_trans; [exact Hg|].
    destruct (conversations_history _ (backend w')).1 as [e|response]; simpl.
    + by apply extends_with_snoc.
    + destruct response as [|msg_data more]; simpl;
        [by apply extends_with_snoc|].
      destruct (Raw.m_ts msg_data); simpl; [|by apply extends_with_snoc].
      destruct (Raw.m_text msg_data) as [[|c t]|]; by apply extends_with_snoc.
Qed.

End Calls.

(** ** Sending *)
Section Posting.
Context {B : Type} `{Env B}.
Implicit Types (w : world B).

Lemma posted_snoc (l : list call) (c : call) :
  posted (l ++ [c]) =
  posted l ++ match c with Call_chat_postMessage _ text _ => [text] | _ => [] end.
Proof. unfold posted. rewrite flat_map_app. cbn. by rewrite app_nil_r. Qed.

Lemma resolve_channel_posts_nothing (fuel : nat) (channel : str) w :
  posted (log (_resolve_channel fuel channel w).2) = posted (log w).
Proof.
  apply (extends_with_posted is_listing); [by intros []|].
  apply resolve_channel_calls.
Qed.

Lemma my_user_id_posts_nothing w :
  posted (log (my_user_id w).2) = posted (log w).
Proof.
  apply (extends_with_posted is_auth_test); [by intros []|].
  apply my_user_id_calls.
Qed.

Lemma maybe_add_reply_context_posts_nothing (channel_id reply_to_ts text : str) w :
  posted (log (_maybe_add_reply_context channel_id reply_to_ts text w).2)
  = posted (log w).
Proof.
  apply (extends_with_posted reads).
  - intros c Hc. unfold reads in Hc. by destruct (is_post c).
  - apply maybe_add_reply_context_calls.
Qed.

(** [send_message], step by step. *)
Lemma send_message_steps (fuel : nat) (channel text : str)
    (thread_ts context_for_ts : option str) w :
  send_message fuel channel text thread_ts context_for_ts w =
  match _resolve_channel fuel channel w with
  | (Ok cid, w0) =>
      match (match context_for_ts with
             | Some (c0 :: r) => _maybe_add_reply_context cid (c0 :: r) text
             | _ => ret text
             end) w0 with
      | (Ok t, w1) => post_and_sign cid t thread_ts w1
      | (Raise e, w1) => (Raise e, w1)
      | (Diverge, w1) => (Diverge, w1)
      end
  | (Raise e, w0) => (Raise e, w0)
  | (Diverge, w0) => (Diverge, w0)
  end.
Proof. reflexivity. Qed.

Lemma post_and_sign_posts (channel_id text : str) (thread_ts : option str) w0 :
  posted (log (post_and_sign channel_id text thread_ts w0).2)
  = posted (log w0) ++ [text].
Proof.
  unfold post_and_sign. cbv zeta. unfold bind at 1, api.
  set (w1 := {| self := self w0; backend := _; log := _ |}).
  assert (Hw1 : posted (log w1) = posted (log w0) ++ [text])
    by apply posted_snoc.
  destruct (chat_postMessage _ _ _ (backend w0)).1 as [e|ts]; [done|].
  unfold bind, ret. pose proof (my_user_id_posts_nothing w1) as Hm.
  destruct (my_user_id w1) as [[me| |] w2]; simpl in *; congruence.
Qed.

(** X12. A send issues at most one post request, whatever its arguments
    and however it ends, and every other call it makes only reads. When the
    reference cannot be resolved the send fails with the error of the
    resolution and no post request is issued. *)
Theorem send_posts_at_most_once (fuel : nat) (channel text : str)
    (thread_ts context_for_ts : option str) w :
  let r := send_message fuel channel text thread_ts context_for_ts w in
  (posted (log r.2) = posted (log w)
   \/ exists out, posted (log r.2) = posted (log w) ++ [out])
  /\ (forall e, (_resolve_channel fuel channel w).1 = Raise e ->
      r.1 = Raise e /\ posted (log r.2) = posted (log w)).
Proof.
  cbv zeta. rewrite send_message_steps.
  pose proof (resolve_channel_posts_nothing fuel channel w) as Hr.
  destruct (_resolve_channel fuel channel w) as [[cid|e0|] w0]; simpl in Hr.
  2:{ split; [by left|]. by intros e [= <-]. }
  2:{ split; [by left | done]. }
  split; [|done].
  destruct context_for_ts as [[|c0 reply_to]|].
  - right. exists text. unfold ret. by rewrite post_and_sign_posts, Hr.
  - pose proof (maybe_add_reply_context_posts_nothing cid (c0 :: reply_to)
                  text w0) as Hc.
    destruct (_maybe_add_reply_context cid (c0 :: reply_to) text w0)
      as [[t| |] w1]; simpl in Hc.
    + right. exists t. rewrite post_and_sign_posts. congruence.
    + left. simpl. congruence.
    + left. simpl. congruence.
  - right. exists text. unfold ret. by rewrite post_and_sign_posts, Hr.
Qed.

(** X13. A reply with a quoted id needs the recent history: when the fetch
    of the recent messages fails with anything but [channel_not_found], the
    send fails with that error and no post request is issued. *)
Theorem send_with_context_fails_with_the_history (fuel : nat)
    (channel text reply_to cid : str) (thread_ts : option str) (e : exn)
    w w0 :
  _resolve_channel fuel channel w = (Ok cid, w0) ->
  reply_to <> [] ->
  (conversations_history (history_kwargs cid 3 None None) (backend w0)).1
    = inl e ->
  e <> SlackApiError (py "channel_not_found") ->
  let r := send_message fuel channel text thread_ts (Some reply_to) w in
  r.1 = Raise e /\ posted (log r.2) = posted (log w).
Proof.
  intros Hres Hne Hhist He. cbv zeta.
  pose proof (resolve_channel_posts_nothing fuel channel w) as Hr.
  rewrite Hres in Hr. simpl in Hr.
  rewrite send_message_steps, Hres.
  destruct reply_to as [|c0 reply_to]; [done|].
  pose proof (maybe_add_reply_context_posts_nothing cid (c0 :: reply_to)
                text w0) as Hc.
  assert (Hraise : (_maybe_add_reply_context cid (c0 :: reply_to) text w0).1
                   = Raise e).
  { unfold _maybe_add_reply_context, bind at 1, get_messages.
    ClientProps.run. rewrite Hhist. simpl.
    destruct e as [error| | | | |]; try done.
    destruct (str_eqb error _) eqn:E; [|done].
    apply str_eqb_eq in E. by subst. }
  destruct (_maybe_add_reply_context cid (c0 :: reply_to) text w0)
    as [[t| |] w1]; simpl in *; try done.
  injection Hraise as ->. split; [done | congruence].
Qed.

(** X14. A send can fail after the message is posted: when the client does
    not yet know the caller's id and [auth_test] fails once the post has
    succeeded, the send raises, although the post request has been issued
    and accepted. *)
Theorem send_can_fail_after_posting (fuel : nat) (channel text cid ts : str)
    (thread_ts : option str) (e : exn) w w0 :
  _resolve_channel fuel channel w = (Ok cid, w0) ->
  _my_user_id (self w0) = None ->
  let sent_thread := if nonempty thread_ts then thread_ts else None in
  let p := chat_postMessage cid text sent_thread (backend w0) in
  p.1 = inr ts ->
  (auth_test p.2).1 = inl e ->
  let r := send_message fuel channel text thread_ts None w in
  r.1 = Raise e /\ posted (log r.2) = posted (log w) ++ [text].
Proof.
  intros Hres Hme sent_thread p Hp Hauth. cbv zeta.
  pose proof (resolve_channel_posts_nothing fuel channel w) as Hr.
  rewrite Hres in Hr. simpl in Hr.
  rewrite send_message_steps, Hres. unfold ret.
  split.
  - unfold post_and_sign, my_user_id. ClientProps.run.
    fold sent_thread. fold p. rewrite Hp. simpl. rewrite Hme. simpl.
    by rewrite Hauth.
  - by rewrite post_and_sign_posts, Hr.
Qed.

End Posting.

(** ** Replies, reactions and search *)
Section Rest.
Context {B : Type} `{Env B} `{EnvMore B}.
Implicit Types (w : world B).

(** X15. A reply in a thread is posted with the text as given: once the
    reference is resolved, the one call that follows is the post request,
    for the thread when its id is not empty and for the conversation itself
    when it is; the history is not read, so no quoted context is ever
    added. *)
Theorem reply_to_thread_posts_the_text_as_given (fuel : nat)
    (channel thread_ts text cid : str) w w0 :
  _resolve_channel fuel channel w = (Ok cid, w0) ->
  let r := reply_to_thread fuel channel thread_ts text w in
  let sent_thread := match thread_ts with [] => None | _ :: _ => Some thread_ts end in
  exists rest,
    log r.2 = log w0 ++ Call_chat_postMessage cid text sent_thread :: rest
    /\ forallb is_auth_test rest = true.
Proof.
  intros Hres. cbv zeta.
  unfold reply_to_thread. rewrite send_message_steps, Hres.
  unfold ret, post_and_sign. cbv zeta. unfold bind at 1, api.
  set (sent := if nonempty (Some thread_ts) then Some thread_ts else None).
  assert (Hsent : sent = match thread_ts with [] => None | _ :: _ => Some thread_ts end)
    by by destruct thread_ts.
  rewrite <- Hsent.
  set (w1 := {| self := self w0; backend := _; log := _ |}).
  destruct (chat_postMessage cid text sent (backend w0)).1 as [e|ts].
  - exists []. simpl. by split.
  - unfold bind, ret.
    destruct (my_user_id_calls w1) as (rest & Hlog & Hrest).
    exists rest. split; [|done].
    destruct (my_user_id w1) as [[me| |] w2]; simpl in *;
      by rewrite Hlog, <- app_assoc.
Qed.

Lemma strip_colons (name : str) :
  strip_chars (py ":" ++ name ++ py ":") (py ":") = strip_chars name (py ":").
Proof.
  unfold strip_chars, strip_by, rstrip_by.
  change (py ":" ++ name ++ py ":") with (":"%char :: name ++ [":"%char]).
  cbn [lstrip_by]. change (in_chars (py ":") ":") with true. cbv iota.
  assert (Hl : forall s, rev (lstrip_by (in_chars (py ":")) (rev
                 (lstrip_by (in_chars (py ":")) (s ++ [":"%char]))))
               = rev (lstrip_by (in_chars (py ":")) (rev
                 (lstrip_by (in_chars (py ":")) s)))).
  { induction s as [|c s IH]; [done|]. cbn [app lstrip_by].
    destruct (in_chars (py ":") c); [done|].
    change (c :: s ++ [":"%char]) with ((c :: s) ++ [":"%char]).
    rewrite rev_app_distr. cbn [rev app lstrip_by].
    by change (in_chars (py ":") ":") with true. }
  apply Hl.
Qed.

(** X16. A reaction answers whether the backend took it: [true] when the
    call succeeds, [false] when the Web API refuses it with a
    [SlackApiError]; a reference that cannot be resolved, or any other
    exception of the call, is raised, not answered with [false]. The emoji
    is sent without the colons around it, so [:name:] and [name] make the
    same call. *)
Theorem add_reaction_answers_the_backend (fuel : nat)
    (channel timestamp emoji : str) w :
  let r := add_reaction fuel channel timestamp emoji w in
  (forall e w0, _resolve_channel fuel channel w = (Raise e, w0) ->
     r = (Raise e, w0))
  /\ (forall cid w0, _resolve_channel fuel channel w = (Ok cid, w0) ->
      let a := reactions_add cid timestamp (strip_chars emoji (py ":"))
                 (backend w0) in
      r.1 = match a.1 with
            | inr _ => Ok true
            | inl (SlackApiError _) => Ok false
            | inl e => Raise e
            end)
  /\ add_reaction fuel channel timestamp (py ":" ++ emoji ++ py ":") w = r.
Proof.
  cbv zeta. split; [|split].
  - intros e w0 Hres. unfold add_reaction, bind at 1. by rewrite Hres.
  - intros cid w0 Hres. unfold add_reaction, bind at 1. rewrite Hres.
    unfold api_unlogged. ClientProps.run.
    destruct (reactions_add _ _ _ (backend w0)).1 as [e|[]]; [|done].
    by destruct e.
  - unfold add_reaction. by rewrite strip_colons.
Qed.

(** One match as a message: built when the instant of its id can be
    computed, and the exception of that computation otherwise; nothing
    changes either way. *)
Lemma message_of_match_spec (m : RawSearch.result) w :
  let ts := default [] (RawSearch.s_ts m) in
  (dated ts /\ exists msg,
     message_of_match m w = (Ok msg, w)
     /\ Message.user_name msg = RawSearch.s_username m
     /\ Message.text msg = default [] (RawSearch.s_text m)
     /\ startswith (Message.channel_name msg) (py "#") = true
     /\ Message.is_mention msg = false)
  \/ (ts <> [] /\ exists e,
        fromtimestamp ts = inl e /\ message_of_match m w = (Raise e, w)).
Proof.
  cbv zeta. unfold message_of_match, bind, timestamp_of.
  destruct (default [] (RawSearch.s_ts m)) as [|c ts] eqn:Ets.
  - left. split; [by left|]. eexists. split; [reflexivity|].
    repeat split. apply startswith_spec. by eexists.
  - destruct (fromtimestamp (c :: ts)) as [e|seconds] eqn:Ef.
    + right. split; [done|]. by exists e.
    + left. split; [right; by exists seconds|]. eexists.
      split; [reflexivity|]. repeat split. apply startswith_spec. by eexists.
Qed.

(** The loop of [search_messages] changes nothing; it returns one message
    for each match when the instant of every id can be computed, and raises
    at the first id for which it cannot. *)
Lemma search_loop_spec (matches : list RawSearch.result)
    (acc : list Message.t) (o : outcome (list Message.t)) w w1 :
  for_append message_of_match matches acc w = (o, w1) ->
  w1 = w
  /\ (Forall (fun m => dated (default [] (RawSearch.s_ts m))) matches ->
      exists new,
        o = Ok (acc ++ new)
        /\ map Message.user_name new = map RawSearch.s_username matches
        /\ map Message.text new
           = map (fun m => default [] (RawSearch.s_text m)) matches
        /\ Forall (fun m => startswith (Message.channel_name m) (py "#") = true
                            /\ Message.is_mention m = false) new)
  /\ (forall pre m post e,
        matches = pre ++ m :: post ->
        Forall (fun m => dated (default [] (RawSearch.s_ts m))) pre ->
        default [] (RawSearch.s_ts m) <> [] ->
        fromtimestamp (default [] (RawSearch.s_ts m)) = inl e ->
        o = Raise e).
Proof.
  revert acc w. induction matches as [|m matches IH]; intros acc w.
  - intros [= <- <-]. split; [done|]. split.
    + intros _. exists []. by rewrite app_nil_r.
    + intros [|? ?] ? ? ? Heq; discriminate Heq.
  - cbn [for_append]. unfold bind at 1.
    destruct (message_of_match_spec m w)
      as [(Hd & msg & -> & Hu & Ht & Hc & Hm) | (Hne & e0 & He0 & ->)].
    + intros Hrest. apply IH in Hrest as (-> & Hok & Hbad).
      split; [done|]. split.
      * intros Hall. apply Forall_cons in Hall as [_ Hall].
        destruct (Hok Hall) as (new & -> & Hu' & Ht' & Hf).
        exists (msg :: new). rewrite <- app_assoc.
        split; [reflexivity|]. cbn [map]. rewrite Hu, Ht, Hu', Ht'.
        split; [done|]. split; [done|]. by constructor.
      * intros [|m0 pre] m1 post e Heq Hpre Hne He.
        -- injection Heq as <- <-.
           destruct Hd as [Hd|[z Hd]]; [done|]. rewrite He in Hd.
           discriminate Hd.
        -- injection Heq as <- ->. apply Forall_cons in Hpre as [_ Hpre].
           by apply (Hbad pre m1 post e).
    + intros [= <- <-]. split; [done|]. split.
      * intros Hall. apply Forall_cons in Hall as [Hd _].
        destruct Hd as [Hd|[z Hd]]; [done|]. rewrite He0 in Hd.
        discriminate Hd.
      * intros [|m0 pre] m1 post e Heq Hpre Hne' He.
        -- injection Heq as <- <-. rewrite He0 in He. by injection He as <-.
        -- injection Heq as <- ->. apply Forall_cons in Hpre as [Hd _].
           destruct Hd as [Hd|[z Hd]]; [done|]. rewrite He0 in Hd.
           discriminate Hd.
Qed.

(** X17. A search changes neither the client nor the log of calls, and
    looks nobody up. When the call raises a [SlackApiError] it returns no
    message; any other exception of the call is raised. When the call
    answers, the search returns one message for each match, in the backend's
    order, with the author's name and the text as the match gives them, the
    channel name prefixed with [#] and no mention flag, provided that the
    instant of every id that is not empty can be computed; at the first id
    for which it cannot, the search raises the exception of that
    computation. *)
Theorem search_takes_matches_as_they_are (query sort : str) (count : Z) w :
  let a := search_messages_api query count sort (backend w) in
  let r := search_messages query count sort w in
  self r.2 = self w /\ log r.2 = log w
  /\ (forall error, a.1 = inl (SlackApiError error) -> r.1 = Ok [])
  /\ (forall e, a.1 = inl e -> (forall error, e <> SlackApiError error) ->
      r.1 = Raise e)
  /\ (forall matches, a.1 = inr matches ->
      (Forall (fun m => dated (default [] (RawSearch.s_ts m))) matches ->
       exists msgs,
         r.1 = Ok msgs
         /\ map Message.user_name msgs = map RawSearch.s_username matches
         /\ map Message.text msgs
            = map (fun m => default [] (RawSearch.s_text m)) matches
         /\ Forall (fun m => startswith (Message.channel_name m) (py "#") = true
                             /\ Message.is_mention m = false) msgs)
      /\ (forall pre m post e,
            matches = pre ++ m :: post ->
            Forall (fun m => dated (default [] (RawSearch.s_ts m))) pre ->
            default [] (RawSearch.s_ts m) <> [] ->
            fromtimestamp (default [] (RawSearch.s_ts m)) = inl e ->
            r.1 = Raise e)).
Proof.
  cbv zeta. unfold search_messages, api_unlogged. ClientProps.run.
  destruct (search_messages_api query count sort (backend w)).1
    as [e|matches] eqn:Ea; simpl.
  - split; [by destruct e|]. split; [by destruct e|].
    split; [|split].
    + by intros error [= ->].
    + intros e0 [= <-] Hne. destruct e; try done. by destruct (Hne error).
    + intros matches Hq. discriminate Hq.
  - destruct (for_append message_of_match matches []
      {| self := self w;
         backend := (search_messages_api query count sort (backend w)).2;
         log := log w |}) as [o w1] eqn:El.
    apply search_loop_spec in El as (-> & Hok & Hbad). simpl.
    split; [done|]. split; [done|].
    split; [intros error Hq; discriminate Hq|].
    split; [intros e Hq; discriminate Hq|].
    intros ? [= <-]. split; [|exact Hbad].
    intros Hall. destruct (Hok Hall) as (new & Hr & Hrest).
    exists new. by split.
Qed.

End Rest.

(** ** The properties at work on the scripted workspace *)

Lemma get_user_asks_the_backend_once_witness :
  exists u w1,
    get_user (py "U1") (Fixture.fresh Fixture.office) = (Ok u, w1)
    /\ User.real_name u = py "Jen Rexford"
    /\ get_user (py "U1") w1 = (Ok u, w1).
Proof.
  destruct (get_user (py "U1") (Fixture.fresh Fixture.office)) as [o w1] eqn:E.
  assert (Ho : exists u, o = Ok u /\ User.real_name u = py "Jen Rexford").
  { pose proof E as E'. vm_compute in E'. injection E' as <- _.
    eexists. split; reflexivity. }
  destruct Ho as (u & -> & Hname).
  exists u, w1. split; [reflexivity|]. split; [exact Hname|].
  exact (proj1 (get_user_asks_the_backend_once _ _ _ _ E)).
Defined.

Lemma get_user_degrades_to_placeholder_witness :
  (get_user (py "U9") (Fixture.fresh Fixture.office)).1
  = Ok (placeholder_user (py "U9")).
Proof.
  apply (proj1 (get_user_degrades_to_placeholder (py "U9")
                  (Fixture.fresh Fixture.office) eq_refl)
               (py "user_not_found")).
  reflexivity.
Defined.

Lemma my_user_id_is_asked_until_known_witness :
  self (my_user_id (Fixture.fresh_signed_out Fixture.office)).2
  = self (Fixture.fresh_signed_out Fixture.office).
Proof.
  apply (proj1 (proj2 (my_user_id_is_asked_until_known
                         (Fixture.fresh_signed_out Fixture.office)))
               (SlackApiError (py "not_authed"))).
  reflexivity.
Defined.

Lemma filtered_listing_leaves_the_cache_witness :
  self (get_conversations 5 (py "im") true (Fixture.fresh Fixture.office)).2
  = self (Fixture.fresh Fixture.office).
Proof.
  apply filtered_listing_leaves_the_cache. intros Heq. vm_compute in Heq.
  discriminate Heq.
Defined.

Lemma full_listing_is_repeated_from_cache_witness :
  let first :=
    get_conversations 5 all_types true (Fixture.fresh Fixture.office) in
  exists convs,
    first.1 = Ok convs /\ length convs = 3%nat
    /\ (get_conversations 0 all_types true first.2).1 = Ok convs.
Proof.
  cbv zeta.
  destruct (get_conversations 5 all_types true (Fixture.fresh Fixture.office))
    as [r w1] eqn:E.
  assert (Hr : exists convs, r = Ok convs /\ convs <> []
            /\ length convs = 3%nat
            /\ (time_time (backend w1)).1
                 - _conversations_cache_time (self w1) < cache_ttl).
  { pose proof E as E'. vm_compute in E'. injection E' as <- <-.
    eexists. split; [reflexivity|].
    split; [discriminate|]. split; reflexivity. }
  destruct Hr as (convs & -> & Hne & Hlen & Hage).
  exists convs. split; [reflexivity|]. split; [exact Hlen|].
  cbn [fst snd].
  by rewrite (full_listing_is_repeated_from_cache 5 0
                (Fixture.fresh Fixture.office) w1 convs eq_refl E Hne Hage).
Defined.

Lemma dm_name_resolves_late_as_at_once_witness :
  let conv := Fixture.raw_conv "D1" "" (Some "U1") true false in
  exists c w1,
    conversation_of conv (Fixture.fresh Fixture.office) = (Ok c, w1)
    /\ resolve_dm_name c w1 = _get_conversation_name conv (py "dm") true w1.
Proof.
  cbv zeta.
  destruct (conversation_of (Fixture.raw_conv "D1" "" (Some "U1") true false)
              (Fixture.fresh Fixture.office)) as [o w1] eqn:E.
  assert (Ho : exists c, o = Ok c).
  { pose proof E as E'. vm_compute in E'. injection E' as <- _. by eexists. }
  destruct Ho as (c & ->).
  exists c, w1. split; [reflexivity|].
  exact (dm_name_resolves_late_as_at_once
           (Fixture.raw_conv "D1" "" (Some "U1") true false) c
           (Fixture.fresh Fixture.office) w1 w1 eq_refl E).
Defined.

Lemma hash_prefix_is_dropped_witness :
  _resolve_channel 5 (py "#" ++ py "general") (Fixture.fresh Fixture.office)
  = _resolve_channel 5 (py "general") (Fixture.fresh Fixture.office).
Proof.
  exact (hash_prefix_is_dropped 5 (py "general")
           (Fixture.fresh Fixture.office) eq_refl).
Defined.

Lemma history_keeps_order_and_drops_notices_witness :
  exists msgs w1,
    get_messages (py "C1") 100 None None (Fixture.fresh Fixture.busy)
    = (Ok msgs, w1)
    /\ map content msgs
       = map raw_content (List.filter kept (Fixture.history Fixture.busy))
    /\ length msgs = 3%nat.
Proof.
  destruct (get_messages (py "C1") 100 None None (Fixture.fresh Fixture.busy))
    as [o w1] eqn:E.
  assert (Ho : exists msgs, o = Ok msgs /\ length msgs = 3%nat).
  { pose proof E as E'. vm_compute in E'. injection E' as <- _.
    eexists. split; reflexivity. }
  destruct Ho as (msgs & -> & Hlen).
  exists msgs, w1. split; [reflexivity|]. split; [|exact Hlen].
  exact (proj1 (history_keeps_order_and_drops_notices (py "C1") 100 None None
                  (Fixture.history Fixture.busy) msgs _ w1 E eq_refl)).
Defined.

Lemma history_flags_mentions_of_one_caller_witness :
  exists msgs w1,
    get_messages (py "C1") 100 None None (Fixture.fresh Fixture.busy)
    = (Ok msgs, w1)
    /\ map Message.is_mention msgs = [true; false; true]
    /\ Forall (fun m => Message.is_mention m
                        = contains (mention_token (py "U0")) (Message.text m))
              msgs.
Proof.
  destruct (get_messages (py "C1") 100 None None (Fixture.fresh Fixture.busy))
    as [o w1] eqn:E.
  assert (Ho : exists msgs, o = Ok msgs /\ msgs <> []
            /\ map Message.is_mention msgs = [true; false; true]
            /\ _my_user_id (self w1) = Some (py "U0")).
  { pose proof E as E'. vm_compute in E'. injection E' as <- <-.
    eexists. split; [reflexivity|]. split; [discriminate|].
    split; reflexivity. }
  destruct Ho as (msgs & -> & Hne & Hflags & Hme).
  exists msgs, w1. split; [reflexivity|]. split; [exact Hflags|].
  destruct (history_flags_mentions_of_one_caller _ _ _ _ _ _ _ E Hne)
    as (me & Hme' & _ & Hall).
  rewrite Hme in Hme'. by injection Hme' as <-.
Defined.

Lemma thread_keeps_all_and_flags_none_witness :
  exists msgs w1,
    get_thread (py "C1") (py "1700000005.000100") 100
      (Fixture.fresh Fixture.busy) = (Ok msgs, w1)
    /\ length msgs = 4%nat
    /\ Forall (fun m => Message.is_mention m = false) msgs.
Proof.
  destruct (get_thread (py "C1") (py "1700000005.000100") 100
              (Fixture.fresh Fixture.busy)) as [o w1] eqn:E.
  assert (Ho : exists msgs, o = Ok msgs /\ length msgs = 4%nat).
  { pose proof E as E'. vm_compute in E'. injection E' as <- _.
    eexists. split; reflexivity. }
  destruct Ho as (msgs & -> & Hlen).
  exists msgs, w1. split; [reflexivity|]. split; [exact Hlen|].
  destruct (thread_keeps_all_and_flags_none (py "C1") (py "1700000005.000100")
              100 (Fixture.history Fixture.busy) msgs _ w1 E eq_refl)
    as (_ & Hall & _).
  eapply Forall_impl; [exact Hall|]. by intros m (Hm & _).
Defined.

Lemma send_with_context_fails_with_the_history_witness :
  let w := Fixture.fresh (Fixture.with_history_error
             (SlackApiError (py "ratelimited")) Fixture.office) in
  let r := send_message 5 (py "C1") (py "on it") None
             (Some (py "1700000001.000100")) w in
  r.1 = Raise (SlackApiError (py "ratelimited"))
  /\ posted (log r.2) = posted (log w).
Proof.
  cbv zeta.
  apply (send_with_context_fails_with_the_history 5 (py "C1") (py "on it")
           (py "1700000001.000100") (py "C1") None
           (SlackApiError (py "ratelimited")) _
           (Fixture.fresh (Fixture.with_history_error
              (SlackApiError (py "ratelimited")) Fixture.office)));
    [reflexivity | discriminate | reflexivity | discriminate].
Defined.

Lemma send_can_fail_after_posting_witness :
  let w := Fixture.fresh_signed_out Fixture.office in
  let r := send_message 5 (py "C1") (py "hello") None None w in
  r.1 = Raise (SlackApiError (py "not_authed"))
  /\ posted (log r.2) = posted (log w) ++ [py "hello"].
Proof.
  cbv zeta.
  apply (send_can_fail_after_posting 5 (py "C1") (py "hello") (py "C1")
           (py "1700000009.000100") None (SlackApiError (py "not_authed")) _
           (Fixture.fresh_signed_out Fixture.office));
    reflexivity.
Defined.

Lemma reply_to_thread_posts_the_text_as_given_witness :
  let w := Fixture.fresh Fixture.office in
  exists rest,
    log (reply_to_thread 5 (py "C1") (py "1700000001.000100") (py "on it") w).2
    = log w ++ Call_chat_postMessage (py "C1") (py "on it")
                 (Some (py "1700000001.000100")) :: rest
    /\ forallb is_auth_test rest = true.
Proof.
  exact (reply_to_thread_posts_the_text_as_given 5 (py "C1")
           (py "1700000001.000100") (py "on it") (py "C1")
           (Fixture.fresh Fixture.office) (Fixture.fresh Fixture.office)
           eq_refl).
Defined.

Lemma add_reaction_answers_the_backend_witness :
  (add_reaction 5 (py "C1") (py "1700000001.000100") (py ":eyes:")
     (Fixture.fresh Fixture.office)).1 = Ok true
  /\ (add_reaction 5 (py "C1") (py "1600000000.000000") (py ":eyes:")
        (Fixture.fresh Fixture.office)).1 = Ok false.
Proof.
  split.
  - by rewrite (proj1 (proj2 (add_reaction_answers_the_backend 5 (py "C1")
        (py "1700000001.000100") (py ":eyes:") (Fixture.fresh Fixture.office)))
        (py "C1") (Fixture.fresh Fixture.office) eq_refl).
  - by rewrite (proj1 (proj2 (add_reaction_answers_the_backend 5 (py "C1")
        (py "1600000000.000000") (py ":eyes:") (Fixture.fresh Fixture.office)))
        (py "C1") (Fixture.fresh Fixture.office) eq_refl).
Defined.

Lemma search_takes_matches_as_they_are_witness :
  (search_messages (py "fox") 20 (py "timestamp")
     (Fixture.fresh (Fixture.with_history_error
        (SlackApiError (py "ratelimited")) Fixture.office))).1 = Ok []
  /\ (search_messages (py "welcome") 20 (py "timestamp")
        (Fixture.fresh Fixture.garbled)).1
     = Raise (ValueError (py "could not convert string to float: 'abc'")).
Proof.
  split.
  - apply (proj1 (proj2 (proj2 (search_takes_matches_as_they_are (py "fox")
             (py "timestamp") 20
             (Fixture.fresh (Fixture.with_history_error
                (SlackApiError (py "ratelimited")) Fixture.office)))))
             (py "ratelimited")).
    reflexivity.
  - pose proof (proj2 (proj2 (proj2 (proj2 (search_takes_matches_as_they_are
             (py "welcome") (py "timestamp") 20
             (Fixture.fresh Fixture.garbled)))))
             (take (Z.to_nat 20) (map Fixture.found
                                      (Fixture.history Fixture.garbled)))
             eq_refl) as [_ Hbad].
    apply (Hbad [Fixture.found (Fixture.raw_msg "1700000003.000100"
                                  "see you there" None)]
                (Fixture.found (Fixture.raw_msg "abc" "welcome" None)) []).
    + reflexivity.
    + constructor; [|constructor]. right. eexists. by vm_compute.
    + discriminate.
    + reflexivity.
Defined.

End ClientExtras.

(* ================================================================== *)
(** * The directory: what is fetched, and what is cached *)
(* ================================================================== *)
Module DirectoryProps.
Import PyStr SlackClient PyStrFacts Observe ClientExtras.

Section Kinds.
Context {B : Type} `{Env B}.
Implicit Types (w : world B).

(** The pages of a fetch are asked for by the kinds of the fetch. *)
Lemma fetch_pages_asks (fuel : nat) (types : str) (cursor : option str)
    (acc : list Conversation.t) w :
  extends_with (asks_for types) (log w)
    (log (fetch_pages fuel types cursor acc w).2).
Proof.
  revert cursor acc w. induction fuel as [|fuel IH]; intros cursor acc w.
  - apply extends_with_refl.
  - simpl. ClientProps.run.
    assert (Hstep : extends_with (asks_for types) (log w)
              ((log w ++ [Call_sleep]) ++ [Call_conversations_list types cursor])).
    { eapply extends_with_trans; apply extends_with_snoc; [done|].
      apply str_eqb_refl. }
    destruct (conversations_list types cursor (time_sleep (backend w)))
      as [[e|response] b'] eqn:El; simpl; [done|].
    match goal with |- context [for_append conversation_of ?l ?a ?w0] =>
      pose proof (ClientProps.for_append_conversation_of_pure l a w0) as Hp;
      destruct (for_append conversation_of l a w0) as [[convs'| |] w'] eqn:Ef
    end; simpl in Hp; subst w'; simpl; try done.
    destruct (nonempty (Raw.next_cursor response)); [|done].
    eapply extends_with_trans; [exact Hstep | apply IH].
Qed.

(** A listing asks the backend for the kinds it was asked for, and for
    nothing else. *)
Lemma get_conversations_asks (fuel : nat) (types : str) (use_cache : bool) w :
  extends_with (asks_for types) (log w)
    (log (get_conversations fuel types use_cache w).2).
Proof.
  assert (Hfetch : forall w', log w' = log w ->
    extends_with (asks_for types) (log w)
      (log (bind (fetch_pages fuel types None [])
              (fun conversations =>
                 bind (if str_eqb types all_types
                       then bind (modify_self
                                    (set_conversations_cache conversations))
                              (fun _ => bind now (fun t2 =>
                                 modify_self (set_conversations_cache_time t2)))
                       else ret tt)
                   (fun _ => ret conversations)) w').2)).
  { intros w' Hw'. rewrite <- Hw'.
    pose proof (fetch_pages_asks fuel types None [] w') as Hl. unfold bind.
    destruct (fetch_pages fuel types None [] w') as [[a| |] w'']; try done.
    destruct (str_eqb types all_types); by ClientProps.run. }
  unfold get_conversations. unfold bind at 1 2. unfold get_self.
  destruct use_cache; [|by apply Hfetch].
  destruct (_conversations_cache (self w)) as [[|c0 cs]|];
    [by apply Hfetch | | by apply Hfetch].
  unfold bind at 1, now, ret at 1.
  destruct (_ <? cache_ttl); [apply extends_with_refl | by apply Hfetch].
Qed.

(** Asked for some of the kinds only, a listing leaves the client as it
    was. *)
Lemma get_conversations_keeps_client (fuel : nat) (types : str)
    (use_cache : bool) w :
  types <> all_types ->
  self (get_conversations fuel types use_cache w).2 = self w.
Proof.
  intros Hne. apply str_eqb_neq in Hne.
  unfold get_conversations, bind at 1 2, get_self.
  assert (Hfetch : forall w', self w' = self w ->
    self (bind (fetch_pages fuel types None [])
            (fun conversations =>
               bind (if str_eqb types all_types
                     then bind (modify_self
                                  (set_conversations_cache conversations))
                            (fun _ => bind now (fun t2 =>
                               modify_self (set_conversations_cache_time t2)))
                     else ret tt)
                 (fun _ => ret conversations)) w').2 = self w).
  { intros w' Hw'. rewrite Hne, <- Hw', <- (fetch_pages_self fuel types None [] w').
    unfold bind, ret.
    by destruct (fetch_pages fuel types None [] w') as [[a| |] w'']. }
  destruct use_cache; [|by apply Hfetch].
  destruct (_conversations_cache (self w)) as [[|c0 cs]|];
    [by apply Hfetch | | by apply Hfetch].
  unfold bind at 1, now, ret at 1.
  destruct (_ <? cache_ttl); [done | by apply Hfetch].
Qed.

(** C1, as the code has it. Whatever the kinds asked for and the state of
    the cache, a listing asks the backend for those kinds only, and a
    listing asked for some of the kinds only leaves the client, and so the
    cache, as it was. When a listing of all the kinds returns a non-empty
    directory, a later listing of any kinds, made while the clock reads less
    than [cache_ttl] seconds past the time stored with the cache, is
    answered by filtering the cached list and calls the backend for nothing;
    the two calls together have fetched the directory at most once; and if
    the first of them fetched, the cache is the list that it returned. *)
Theorem directory_fetches_by_kind_and_caches_all (fuel fuel' fuel0 : nat)
    (types : str) (use_cache : bool) w w1 w0 (convs : list Conversation.t) :
  extends_with (asks_for types) (log w0)
    (log (get_conversations fuel0 types use_cache w0).2)
  /\ (types <> all_types ->
      self (get_conversations fuel0 types use_cache w0).2 = self w0)
  /\ (get_conversations fuel all_types true w = (Ok convs, w1) ->
      convs <> [] ->
      (time_time (backend w1)).1 - _conversations_cache_time (self w1)
        < cache_ttl ->
      exists cache w2,
        _conversations_cache (self w1) = Some cache
        /\ (log w1 = log w \/ cache = convs)
        /\ get_conversations fuel' types true w1 =
           (Ok (filter_cached types cache), w2)
        /\ log w2 = log w1
        /\ (fetches (log w2) <= fetches (log w) + 1)%nat).
Proof.
  split; [apply get_conversations_asks|].
  split; [apply get_conversations_keeps_client|].
  apply ClientProps.full_listing_serves_later_call.
Qed.

End Kinds.

(** The first call of the examples: all the kinds, on a fresh client; the
    second asks for the direct messages. *)
Lemma directory_fetches_by_kind_and_caches_all_witness :
  let first := get_conversations 5 all_types true (Fixture.fresh Fixture.office) in
  exists cache w2,
    _conversations_cache (self first.2) = Some cache
    /\ (log first.2 = [] \/ Ok cache = first.1)
    /\ get_conversations 0 (py "im") true first.2
       = (Ok (filter_cached (py "im") cache), w2)
    /\ log w2 = log first.2
    /\ (fetches (log w2) <= 1)%nat.
Proof.
  cbv zeta.
  destruct (get_conversations 5 all_types true (Fixture.fresh Fixture.office))
    as [r w1] eqn:E.
  assert (Hr : exists convs, r = Ok convs /\ convs <> [] /\
            (time_time (backend w1)).1
              - _conversations_cache_time (self w1) < cache_ttl).
  { pose proof E as E'. vm_compute in E'. injection E' as <- <-.
    eexists. split; [reflexivity|]. split; [discriminate | reflexivity]. }
  destruct Hr as (convs & -> & Hne & Hage).
  destruct (proj2 (proj2 (directory_fetches_by_kind_and_caches_all 5 0 0
              (py "im") true (Fixture.fresh Fixture.office) w1
              (Fixture.fresh Fixture.office) convs)) E Hne Hage)
    as (cache & w2 & Hc & Hl & Hg & Hlog & Hn).
  exists cache, w2. simpl.
  repeat split; [done | | done | done | done].
  destruct Hl as [Hl | ->]; [by left | by right].
Defined.

End DirectoryProps.

(* ================================================================== *)
(** * Replies that quote a message *)
(* ================================================================== *)
Module ReplyProps.
Import PyStr SlackClient PyStrFacts Observe ClientExtras.



Section Sending.
Context {B : Type} `{Env B}.
Implicit Types (w : world B).



End Sending.


End ReplyProps.

(* ================================================================== *)
(** * Facts about the stable sort and the order of strings *)
(* ================================================================== *)
Module SortFacts.
Import PyStr PySort.

Section Sort.
Context {A : Type} (le : A -> A -> bool).

Lemma insert_by_perm (x : A) (l : list A) : Permutation (insert_by le x l) (x :: l).
Proof.
  induction l as [|y l IH]; [done|]. cbn.
  destruct (le x y); [done|].
  rewrite IH. apply perm_swap.
Qed.

Lemma sort_by_perm (l : list A) : Permutation (sort_by le l) l.
Proof.
  unfold sort_by. induction l as [|x l IH]; [done|]. cbn.
  by rewrite insert_by_perm, IH.
Qed.

Hypothesis le_total : forall a b, le a b = false -> le b a = true.
Hypothesis le_trans : forall a b c, le a b = true -> le b c = true -> le a c = true.

Lemma insert_by_sorted (x : A) (l : list A) :
  StronglySorted (fun a b => le a b = true) l ->
  StronglySorted (fun a b => le a b = true) (insert_by le x l).
Proof.
  induction 1 as [|y l Hl IH Hy]; cbn.
  - by repeat constructor.
  - destruct (le x y) eqn:E.
    + constructor; [by constructor|]. constructor; [done|].
      eapply Forall_impl; [exact Hy|]. intros z Hz. by eapply le_trans.
    + constructor; [done|].
      assert (Hall : Forall (fun b => le y b = true) (x :: l))
        by (constructor; [by apply le_total | done]).
      by rewrite <- (insert_by_perm x l) in Hall.
Qed.

Lemma sort_by_sorted (l : list A) :
  StronglySorted (fun a b => le a b = true) (sort_by le l).
Proof.
  unfold sort_by. induction l as [|x l IH]; [constructor|].
  cbn. by apply insert_by_sorted.
Qed.

End Sort.

(** The sort is stable: elements that the order does not tell apart stay
    in the order in which they came. *)
Lemma sort_by_stable {A} (le : A -> A -> bool) (p : A -> bool) (l : list A) :
  (forall a b, p a = true -> p b = true -> le a b = true) ->
  List.filter p (sort_by le l) = List.filter p l.
Proof.
  intros Hp.
  assert (Hins : forall x t,
    List.filter p (insert_by le x t) = List.filter p (x :: t)).
  { intros x t. induction t as [|y t IH]; [done|]. cbn [insert_by].
    destruct (le x y) eqn:E; [done|].
    cbn [List.filter] in *. rewrite IH.
    destruct (p x) eqn:Ex, (p y) eqn:Ey; try done.
    by rewrite (Hp x y Ex Ey) in E. }
  unfold sort_by. induction l as [|x l IH]; [done|].
  cbn [foldr]. rewrite Hins. cbn. by rewrite IH.
Qed.

Lemma strongly_sorted_weaken {A} (R Q : A -> A -> Prop) (l : list A) :
  (forall a b, R a b -> Q a b) -> StronglySorted R l -> StronglySorted Q l.
Proof.
  intros HRQ. induction 1 as [|x l Hl IH Hx]; constructor; [done|].
  eapply Forall_impl; [exact Hx|]. intros y. apply HRQ.
Qed.

Lemma str_leb_total (a b : str) : str_leb a b = false -> str_leb b a = true.
Proof.
  revert b. induction a as [|x a IH]; intros [|y b]; cbn; try done.
  destruct (N.ltb_spec (N_of_ascii x) (N_of_ascii y)); [done|].
  destruct (N.ltb_spec (N_of_ascii y) (N_of_ascii x)); [done|].
  apply IH.
Qed.

Lemma str_leb_trans (a b c : str) :
  str_leb a b = true -> str_leb b c = true -> str_leb a c = true.
Proof.
  revert b c. induction a as [|x a IH]; intros [|y b] [|z c]; cbn; try done.
  destruct (N.ltb_spec (N_of_ascii x) (N_of_ascii y)),
           (N.ltb_spec (N_of_ascii y) (N_of_ascii x)),
           (N.ltb_spec (N_of_ascii y) (N_of_ascii z)),
           (N.ltb_spec (N_of_ascii z) (N_of_ascii y)),
           (N.ltb_spec (N_of_ascii x) (N_of_ascii z)),
           (N.ltb_spec (N_of_ascii z) (N_of_ascii x));
    try done; try lia.
  apply IH.
Qed.

End SortFacts.

(* ================================================================== *)
(** * Further properties: unread messages, mentions, configuration *)
(* ================================================================== *)
Module MoreExtras.
Import PyStr PySort SlackClient PyStrFacts Observe SortFacts ClientExtras.

Section Unread.
Context {B : Type} `{Env B}.
Variable float_of : str -> exn + Z.
Implicit Types (w : world B).

Lemma dict_set_well_formed (k : str) (v : list Message.t)
    (d : list (str * list Message.t)) :
  well_formed_unread d -> v <> [] ->
  Forall (fun m => Message.channel_name m = k) v ->
  well_formed_unread (dict_set k v d).
Proof.
  intros [Hnd Hall] Hv Hk. unfold dict_set.
  destruct (existsb _ d) eqn:Ex.
  - split.
    + rewrite map_map.
      replace (map (fun x => (if str_eqb x.1 k then (k, v) else x).1) d)
        with (map fst d); [done|].
      apply map_ext. intros kv. destruct (str_eqb kv.1 k) eqn:E; [|done].
      by apply str_eqb_eq in E.
    + apply Forall_map. eapply Forall_impl; [exact Hall|].
      intros kv Hkv. by destruct (str_eqb kv.1 k).
  - split.
    + rewrite map_app. apply NoDup_app. split; [done|]. split.
      * intros x Hx Hin. apply list_elem_of_singleton in Hin as ->.
        assert (existsb (fun kv : str * list Message.t => str_eqb kv.1 k) d
                = true); [|congruence].
        apply existsb_exists. apply list_elem_of_In, in_map_iff in Hx
          as (kv & Hkv & Hin). exists kv. split; [done|]. by apply str_eqb_eq.
      * apply NoDup_singleton.
    + apply Forall_app. split; [done|]. by repeat constructor.
Qed.

Lemma unread_loop_well_formed (cutoff : Z) (convs : list Conversation.t)
    (acc out : list (str * list Message.t)) w w1 :
  unread_loop float_of cutoff convs acc w = (Ok out, w1) ->
  well_formed_unread acc -> well_formed_unread out.
Proof.
  revert acc w. induction convs as [|conv convs IH]; intros acc w; simpl.
  - by intros [= <- _].
  - destruct (Conversation.is_archived conv); [apply IH|].
    unfold bind at 1.
    destruct (match Conversation.last_read conv with
              | Some (c0 :: r) =>
                  match float_of (c0 :: r) with
                  | inl e => raise e
                  | inr z => ret z
                  end
              | _ => ret cutoff
              end w) as [[oldest| |] w'] eqn:Eo; try done.
    unfold bind at 1.
    destruct (get_messages (Conversation.id conv) 50 (Some oldest) None w')
      as [[messages| |] w''] eqn:Eg; try done.
    destruct messages as [|m ms]; [apply IH|].
    intros Hrest Hacc. apply (IH _ _ Hrest).
    apply dict_set_well_formed; [done | done |].
    apply Forall_map, Forall_forall. by intros x _.
Qed.

(** X18. The unread map holds no empty entry and no name twice: every
    conversation in it has at least one message, each message carries the
    name of the conversation it is filed under, and of two conversations
    with the same name the later one replaces the earlier. *)
Theorem unread_map_has_no_empty_entry (fuel : nat) (hours : Z)
    (unread : list (str * list Message.t)) w w1 :
  get_unread_messages float_of fuel hours w = (Ok unread, w1) ->
  NoDup (map fst unread)
  /\ Forall (fun kv => kv.2 <> []
                       /\ Forall (fun m => Message.channel_name m = kv.1) kv.2)
            unread.
Proof.
  unfold get_unread_messages, bind at 1, now. unfold bind at 1.
  destruct (get_conversations fuel all_types true _) as [[convs| |] w'];
    try done.
  intros Hloop. apply (unread_loop_well_formed _ _ _ _ _ _ Hloop).
  split; [constructor | constructor].
Qed.

End Unread.

Section Mentions.
Context {B : Type} `{Env B} `{EnvMore B}.
Implicit Types (w : world B).

Lemma mentions_loop_only_mentions (cutoff : Z) (convs : list Conversation.t)
    (acc out : list Message.t) w w1 :
  mentions_loop cutoff convs acc w = (Ok out, w1) ->
  Forall (fun m => Message.is_mention m = true) acc ->
  Forall (fun m => Message.is_mention m = true) out.
Proof.
  revert acc w. induction convs as [|conv convs IH]; intros acc w; simpl.
  - by intros [= <- _].
  - destruct (Conversation.is_archived conv); [apply IH|].
    unfold bind at 1.
    destruct (get_messages (Conversation.id conv) 100 (Some cutoff) None w)
      as [[messages| |] w'] eqn:Eg; try done.
    intros Hrest Hacc. apply (IH _ _ Hrest).
    apply Forall_app. split; [done|].
    apply Forall_map, Forall_forall. intros m Hm.
    apply list_elem_of_In, filter_In in Hm as [_ Hm]. done.
Qed.

(** X19. The mentions come newest first and are all mentions: every
    message returned is flagged as a mention, and the list is sorted by
    message id, greatest first. *)
Theorem mentions_are_sorted_newest_first (fuel : nat) (hours : Z)
    (mentions : list Message.t) w w1 :
  get_mentions fuel hours w = (Ok mentions, w1) ->
  Forall (fun m => Message.is_mention m = true) mentions
  /\ StronglySorted
       (fun a b => str_leb (Message.ts b) (Message.ts a) = true) mentions.
Proof.
  unfold get_mentions, bind at 1, now. unfold bind at 1.
  destruct (get_conversations fuel all_types true _) as [[convs| |] w'];
    try done.
  unfold bind at 1, ret.
  destruct (mentions_loop _ convs [] w') as [[found| |] w''] eqn:El; try done.
  intros [= <- _]. split.
  - rewrite (sort_by_perm newest_first found).
    by apply (mentions_loop_only_mentions _ _ _ _ _ _ El).
  - apply (sort_by_sorted newest_first); unfold newest_first.
    + intros a b. apply str_leb_total.
    + intros a b c Hab Hbc. by apply (str_leb_trans _ (Message.ts b)).
Qed.

End Mentions.

Section Configuration.
Implicit Types (c : config.Config).

Lemma lookup_workspace_In (k : str) (ws : list (str * config.WorkspaceConfig))
    (w : config.WorkspaceConfig) :
  config.lookup_workspace k ws = Some w -> In (k, w) ws.
Proof.
  unfold config.lookup_workspace.
  destruct (find _ ws) as [[k' w']|] eqn:E; [|done].
  intros [= <-]. apply find_some in E as [Hin Hk]. simpl in Hk.
  apply str_eqb_eq in Hk. by subst.
Qed.

(** X20. [get_workspace] answers with a configured workspace or fails by
    name: the workspace returned is the one stored under the key asked for,
    or under the default key when none is asked for, or the first one when
    there is no default either; a key that is not configured, asked for or
    default, raises a [ValueError] that names it, and an empty configuration
    without default raises [StopIteration]. *)
Theorem get_workspace_answers_a_configured_workspace c (k : option str) :
  let asked := match k with None => config.default_workspace c | Some _ => k end in
  match config.get_workspace c k with
  | inr w =>
      (exists key, asked = Some key /\ In (key, w) (config.workspaces c))
      \/ (asked = None /\ exists key rest, config.workspaces c = (key, w) :: rest)
  | inl e =>
      (exists key, asked = Some key
                   /\ e = ValueError (py "Unknown workspace: " ++ key)
                   /\ forall w, ~ In (key, w) (config.workspaces c))
      \/ (asked = None /\ e = StopIteration /\ config.workspaces c = [])
  end.
Proof.
  cbv zeta. unfold config.get_workspace.
  destruct (match k with None => config.default_workspace c | Some _ => k end)
    as [key|].
  - destruct (config.lookup_workspace key (config.workspaces c)) as [w|] eqn:E.
    + left. exists key. split; [done|]. by apply lookup_workspace_In.
    + left. exists key. repeat split. intros w Hin.
      unfold config.lookup_workspace in E.
      destruct (find _ _) eqn:Ef; [done|].
      apply (find_none _ _ Ef) in Hin. simpl in Hin.
      by rewrite str_eqb_refl in Hin.
  - destruct (config.workspaces c) as [|[key w] rest].
    + by right.
    + right. split; [done|]. by exists key, rest.
Qed.

(** X21. The workspaces are listed by priority: the list holds the
    configured workspaces, each once for each entry, sorted by priority,
    smallest first, and workspaces of equal priority keep the order in
    which the configuration holds them. *)
Theorem list_workspaces_sorts_by_priority c :
  Permutation (config.list_workspaces c) (map snd (config.workspaces c))
  /\ StronglySorted
       (fun a b => config.priority a <= config.priority b)
       (config.list_workspaces c)
  /\ (forall p,
        List.filter (fun w => config.priority w =? p) (config.list_workspaces c)
        = List.filter (fun w => config.priority w =? p)
                      (map snd (config.workspaces c))).
Proof.
  unfold config.list_workspaces. split; [apply sort_by_perm|]. split.
  - eapply strongly_sorted_weaken; last first.
    + apply (sort_by_sorted (fun a b => config.priority a <=? config.priority b)).
      * intros a b Hab. apply Z.leb_le. apply Z.leb_gt in Hab. lia.
      * intros a b d Hab Hbd. apply Z.leb_le. apply Z.leb_le in Hab, Hbd. lia.
    + intros a b Hab. by apply Z.leb_le.
  - intros p. apply sort_by_stable. intros a b Ha Hb.
    apply Z.eqb_eq in Ha, Hb. apply Z.leb_le. lia.
Qed.

End Configuration.

Section Registry.
Import mcp_server.
Context {B : Type} `{Env B}.
Variable load_config : exn + config.Config.
Implicit Types (st : state (B := B)).

Lemma ensure_client_spec (ws : config.WorkspaceConfig) st :
  let r := ensure_client ws st in
  r.1 = Ok (config.key ws)
  /\ is_Some (_clients r.2 !! config.key ws)
  /\ (forall k c, _clients st !! k = Some c -> _clients r.2 !! k = Some c)
  /\ _config r.2 = _config st /\ backend r.2 = backend st /\ log r.2 = log st.
Proof.
  cbv zeta. unfold ensure_client.
  destruct (_clients st !! config.key ws) as [c0|] eqn:E; simpl.
  - by repeat split; [rewrite E|].
  - repeat split; try done; [by rewrite lookup_insert_eq|].
    intros k c Hk. rewrite lookup_insert_ne; [done|]. intros <-. congruence.
Qed.

Lemma get_client_steps (workspace : option pyval) st :
  get_client load_config workspace st =
  match get_config load_config st with
  | (Ok c, st1) =>
      match requested_workspace c workspace with
      | inl e => (Raise e, st1)
      | inr ws => ensure_client ws st1
      end
  | (Raise e, st1) => (Raise e, st1)
  | (Diverge, st1) => (Diverge, st1)
  end.
Proof.
  unfold get_client, sbind, lift, requested_workspace.
  destruct (get_config load_config st) as [[c| |] st1]; try done.
  by destruct workspace as [[]|]; try done;
    match goal with |- context [config.get_workspace ?c ?k] =>
      destruct (config.get_workspace c k) end.
Qed.

(** X22. Asking for a client never replaces one: the clients already made,
    with their caches, are kept as they are; the key returned names a
    client; and asking again for the same workspace returns the same key and
    changes nothing. *)
Theorem get_client_makes_each_client_once (workspace : option pyval) st :
  let r := get_client load_config workspace st in
  (forall k c, _clients st !! k = Some c -> _clients r.2 !! k = Some c)
  /\ (forall key, r.1 = Ok key ->
      is_Some (_clients r.2 !! key)
      /\ get_client load_config workspace r.2 = (Ok key, r.2)).
Proof.
  cbv zeta. rewrite get_client_steps.
  assert (Hcfg : match get_config load_config st with
                 | (Ok c, st1) => _config st1 = Some c
                                  /\ _clients st1 = _clients st
                 | (_, st1) => st1 = st
                 end).
  { unfold get_config. destruct (_config st) eqn:Ec; [done|].
    by destruct load_config. }
  destruct (get_config load_config st) as [[c| |] st1]; try by subst.
  destruct Hcfg as [Hc Hcl].
  destruct (requested_workspace c workspace) as [e|ws] eqn:Ep; simpl.
  { split; [by rewrite Hcl | done]. }
  destruct (ensure_client_spec ws st1) as (Hr & Hnew & Hkeep & Hc' & _).
  split.
  - intros k c0 Hk. apply Hkeep. by rewrite Hcl.
  - intros key Hkey. rewrite Hr in Hkey. injection Hkey as <-.
    split; [done|]. rewrite get_client_steps.
    unfold get_config. rewrite Hc', Hc, Ep.
    destruct Hnew as [c0 Hc0]. unfold ensure_client at 1. rewrite Hc0.
    by rewrite <- Hr, <- surjective_pairing.
Qed.

Lemma for_workspaces_spec (wss : list config.WorkspaceConfig)
    (acc : list str) st :
  let r := for_workspaces wss acc st in
  r.1 = Ok (acc ++ map config.key wss)
  /\ Forall (fun ws => is_Some (_clients r.2 !! config.key ws)) wss
  /\ (forall k c, _clients st !! k = Some c -> _clients r.2 !! k = Some c)
  /\ _config r.2 = _config st /\ backend r.2 = backend st /\ log r.2 = log st.
Proof.
  cbv zeta. revert acc st. induction wss as [|ws wss IH]; intros acc st; simpl.
  - rewrite app_nil_r. by repeat split.
  - unfold sbind at 1 2 3 4 5 6.
    destruct (ensure_client_spec ws st) as (Hr & Hnew & Hkeep & Hc & Hb & Hl).
    destruct (ensure_client ws st) as [o st'] eqn:Ee. simpl in *. subst o.
    destruct (IH (acc ++ [config.key ws]) st')
      as (Hr' & Hall & Hkeep' & Hc' & Hb' & Hl').
    rewrite <- app_assoc in Hr'.
    split; [exact Hr'|]. split; [|split; [|repeat split; congruence]].
    + constructor; [|done]. destruct Hnew as [c Hc0]. exists c. by apply Hkeep'.
    + intros k c Hk. by apply Hkeep', Hkeep.
Qed.

(** X23. The clients of all the workspaces come in the order of
    [list_workspaces], one key for each configured workspace; each key names
    a client afterwards, the clients that existed are kept as they are, and
    no call is made on the backend. A configuration that cannot be loaded is
    the only failure. *)
Theorem get_all_clients_follows_priority st :
  let r := get_all_clients load_config st in
  (forall k c, _clients st !! k = Some c -> _clients r.2 !! k = Some c)
  /\ log r.2 = log st
  /\ match r.1 with
     | Ok keys =>
         exists c, _config r.2 = Some c
           /\ keys = map config.key (config.list_workspaces c)
           /\ Forall (fun k => is_Some (_clients r.2 !! k)) keys
     | Raise e => _config st = None /\ load_config = inl e
     | Diverge => False
     end.
Proof.
  cbv zeta.
  assert (Hsteps : get_all_clients load_config st =
    match get_config load_config st with
    | (Ok c, st1) => for_workspaces (config.list_workspaces c) [] st1
    | (Raise e, st1) => (Raise e, st1)
    | (Diverge, st1) => (Diverge, st1)
    end) by reflexivity.
  rewrite Hsteps. clear Hsteps.
  assert (Hcfg : match get_config load_config st with
                 | (Ok c, st1) => _config st1 = Some c
                                  /\ _clients st1 = _clients st
                                  /\ log st1 = log st
                 | (Raise e, st1) => st1 = st /\ _config st = None
                                     /\ load_config = inl e
                 | (Diverge, st1) => False
                 end).
  { unfold get_config. destruct (_config st) eqn:Ec; [done|].
    by destruct load_config. }
  destruct (get_config load_config st) as [[c|e|] st1]; [| |done].
  - destruct Hcfg as (Hc & Hcl & Hlog).
    destruct (for_workspaces_spec (config.list_workspaces c) [] st1)
      as (Hr & Hall & Hkeep & Hc' & Hb & Hl).
    split; [|split].
    + intros k c0 Hk. apply Hkeep. by rewrite Hcl.
    + congruence.
    + rewrite Hr. exists c. split; [congruence|]. split; [done|].
      by apply Forall_map.
  - destruct Hcfg as (-> & Hnone & Hload). by repeat split.
Qed.

End Registry.

(** ** The properties at work on the scripted workspace *)

Lemma unread_map_has_no_empty_entry_witness :
  exists unread w1,
    get_unread_messages (fun _ => inr 0) 5 24 (Fixture.fresh Fixture.busy)
    = (Ok unread, w1)
    /\ length unread = 3%nat
    /\ NoDup (map fst unread)
    /\ Forall (fun kv => kv.2 <> []) unread.
Proof.
  destruct (get_unread_messages (fun _ => inr 0) 5 24
              (Fixture.fresh Fixture.busy)) as [o w1] eqn:E.
  assert (Ho : exists unread, o = Ok unread /\ length unread = 3%nat).
  { pose proof E as E'. vm_compute in E'. injection E' as <- _.
    eexists. split; reflexivity. }
  destruct Ho as (unread & -> & Hlen).
  exists unread, w1. split; [reflexivity|]. split; [exact Hlen|].
  destruct (unread_map_has_no_empty_entry _ _ _ _ _ _ E) as (Hnd & Hall).
  split; [exact Hnd|].
  eapply Forall_impl; [exact Hall|]. by intros kv (Hkv & _).
Defined.

Lemma mentions_are_sorted_newest_first_witness :
  exists mentions w1,
    get_mentions 5 24 (Fixture.fresh Fixture.busy) = (Ok mentions, w1)
    /\ length mentions = 6%nat
    /\ Forall (fun m => Message.is_mention m = true) mentions.
Proof.
  destruct (get_mentions 5 24 (Fixture.fresh Fixture.busy)) as [o w1] eqn:E.
  assert (Ho : exists mentions, o = Ok mentions /\ length mentions = 6%nat).
  { pose proof E as E'. vm_compute in E'. injection E' as <- _.
    eexists. split; reflexivity. }
  destruct Ho as (mentions & -> & Hlen).
  exists mentions, w1. split; [reflexivity|]. split; [exact Hlen|].
  exact (proj1 (mentions_are_sorted_newest_first _ _ _ _ _ E)).
Defined.

Lemma get_client_makes_each_client_once_witness :
  let r := mcp_server.get_client (inr Fixture.configuration) None
             (Fixture.started Fixture.office) in
  is_Some (mcp_server._clients r.2 !! py "work")
  /\ mcp_server.get_client (inr Fixture.configuration) None r.2
     = (Ok (py "work"), r.2).
Proof.
  cbv zeta.
  apply (proj2 (get_client_makes_each_client_once
                  (inr Fixture.configuration) None
                  (Fixture.started Fixture.office)) (py "work")).
  by vm_compute.
Defined.

End MoreExtras.

(* ================================================================== *)
(** * Further properties of the summarizer *)
(* ================================================================== *)
Module SummarizerExtras.
Import PyStr Re summarizer PyStrFacts ReFacts SummarizerProps.

Lemma single_spaced_only_spaces (s : str) (b : bool) :
  single_spaced b s = true ->
  Forall (fun c => isspace c = true -> c = " "%char) s.
Proof.
  revert b. induction s as [|c s IH]; intros b Hs; [constructor|].
  cbn in Hs. destruct (isspace c) eqn:Ec.
  - apply andb_true_iff in Hs as [Hs Hrest].
    apply andb_true_iff in Hs as [Hc _]. apply Ascii.eqb_eq in Hc.
    constructor; [done | by apply (IH false)].
  - constructor; [by rewrite Ec | by apply (IH true)].
Qed.

Lemma truncate_text_collapsed (text : str) (max_len : Z) :
  collapsed (truncate_text text max_len) = true.
Proof.
  destruct (truncate_text_shape text max_len) as [[_ ->] | [_ [k ->]]].
  - apply rewrite_markup_collapsed.
  - apply collapsed_take_ellipsis, rewrite_markup_collapsed.
Qed.

(** X24. With room for the ellipsis ([max_len] of 3 or more) the result
    fits in [max_len] characters; a rewritten text that fits is returned
    whole, and a longer one is cut to exactly [max_len] characters: its
    first [max_len - 3] and the ellipsis. *)
Theorem truncate_text_fills_the_bound (text : str) (max_len : Z) :
  3 <= max_len ->
  len (truncate_text text max_len) <= max_len
  /\ (len (rewrite_markup text) <= max_len ->
      truncate_text text max_len = rewrite_markup text)
  /\ (max_len < len (rewrite_markup text) ->
      truncate_text text max_len
        = take (Z.to_nat (max_len - 3)) (rewrite_markup text) ++ py "..."
      /\ len (truncate_text text max_len) = max_len).
Proof.
  intros Hn. split; [by apply truncate_text_fits|].
  unfold truncate_text, slice_to, len. split.
  - intros Hle. by rewrite (proj2 (Z.leb_le _ _) Hle).
  - intros Hgt. rewrite (proj2 (Z.leb_gt _ _) Hgt).
    rewrite (proj2 (Z.leb_le 0 (max_len - 3))) by lia.
    split; [done|]. rewrite length_app, length_take.
    change (length (py "...")) with 3%nat. lia.
Qed.

(** X25. The result is single-spaced, whatever the text and the bound:
    it neither starts nor ends with whitespace, holds no two whitespace
    characters in a row, and its only whitespace character is the space,
    so that a newline or a tab of the text never reaches the result. *)
Theorem truncate_text_is_single_spaced (text : str) (max_len : Z) :
  collapsed (truncate_text text max_len) = true
  /\ Forall (fun c => isspace c = true -> c = " "%char)
            (truncate_text text max_len).
Proof.
  pose proof (truncate_text_collapsed text max_len) as Hc.
  split; [done|]. unfold collapsed in Hc.
  destruct (truncate_text text max_len) as [|c s] eqn:E; [constructor|].
  by apply (single_spaced_only_spaces _ false).
Qed.

(** X26. A text that is already plain is returned as it is: single-spaced,
    without ["<"], and no longer than the bound. *)
Theorem truncate_text_leaves_plain_text (text : str) (max_len : Z) :
  ~ In "<"%char text -> collapsed text = true -> len text <= max_len ->
  truncate_text text max_len = text.
Proof.
  intros Hlt Hc Hlen. unfold truncate_text.
  rewrite (rewrite_markup_fixed text Hlt Hc).
  by rewrite (proj2 (Z.leb_le _ _) Hlen).
Qed.

(** ** The properties at work *)

Lemma truncate_text_fills_the_bound_witness :
  truncate_text (py "the quick brown fox") 10 = py "the qui..."
  /\ len (truncate_text (py "the quick brown fox") 10) = 10.
Proof.
  split; [reflexivity|].
  apply (proj2 (proj2 (truncate_text_fills_the_bound
                         (py "the quick brown fox") 10 ltac:(lia)))).
  by vm_compute.
Defined.

Lemma truncate_text_leaves_plain_text_witness :
  truncate_text (py "see you there") 100 = py "see you there".
Proof.
  apply truncate_text_leaves_plain_text.
  - intros Hin. vm_compute in Hin. by repeat destruct Hin as [Hin|Hin].
  - reflexivity.
  - by vm_compute.
Defined.

End SummarizerExtras.

(* ================================================================== *)
(** * The summary of a workspace *)
(* ================================================================== *)
Module SummaryExtras.
Import PyStr PySort SlackClient summarizer Observe SortFacts.

Section Summary.
Context {B : Type} `{Env B}.
Implicit Types (w : world B).

(** The messages of one history fetch are flagged for the id that the
    client knows once the fetch has returned some message. *)
Lemma get_messages_flagged (channel_id : str) (limit : Z)
    (oldest latest : option Z) (msgs : list Message.t) w w1 :
  get_messages channel_id limit oldest latest w = (Ok msgs, w1) ->
  msgs <> [] ->
  exists me, _my_user_id (self w1) = Some me /\ Forall (flagged_for me) msgs.
Proof.
  unfold get_messages. ClientProps.run. intros Hget Hne.
  destruct (conversations_history _ (backend w)).1 as [e|raw]; simpl in Hget.
  - destruct e; try done.
    destruct (str_eqb error _); [|done]. by injection Hget as <- _.
  - apply ClientExtras.history_loop_spec in Hget as (new & -> & _ & _ & _ & Hid).
    exact (Hid Hne).
Qed.

Lemma action_flags_known (messages : list Message.t) (me : str) w :
  _my_user_id (self w) = Some me ->
  action_flags messages w
  = (Ok (map (fun m => is_action_item m me) messages), w).
Proof.
  intros Hme. induction messages as [|m ms IH]; [done|]. simpl.
  unfold bind at 1.
  rewrite (proj2 (ClientExtras.my_user_id_is_known_after w) me Hme).
  unfold bind at 1. by rewrite IH.
Qed.

Lemma flagged_map {A C} (g : A -> C) (f : A -> bool) (l : list A) :
  flagged (map g l) (map f l) = map g (List.filter f l).
Proof.
  induction l as [|x l IH]; [done|]. simpl.
  destruct (f x); simpl; by rewrite IH.
Qed.

Lemma is_action_item_mentions (m : Message.t) (me : str) :
  is_action_item m me = true ->
  contains (mention_token me) (Message.text m) = true.
Proof.
  unfold is_action_item.
  by destruct (contains (mention_token me) (Message.text m)).
Qed.

(** What one run of the loop over the channels adds to the summary. *)
Lemma channel_loop_cons (conv : Conversation.t) (convs : list Conversation.t)
    (s : scan) :
  channel_loop (conv :: convs) s
  = bind (get_messages (Conversation.id conv) 50 None None)
      (fun messages =>
         match messages with
         | [] => channel_loop convs s
         | first :: _ =>
             bind (action_flags messages) (fun flags =>
             let renamed :=
               map (set_channel_name (Conversation.name conv)) messages in
             let action_items := flagged renamed flags in
             channel_loop convs
               {| sc_mentions :=
                    sc_mentions s ++ List.filter Message.is_mention renamed;
                  sc_action_items := sc_action_items s ++ action_items;
                  sc_channels :=
                    sc_channels s ++
                    [ {| ChannelSummary.name := Conversation.name conv;
                         ChannelSummary.message_count :=
                           Z.of_nat (length messages);
                         ChannelSummary.unread_count := 0;
                         ChannelSummary.has_mentions :=
                           existsb Message.is_mention messages;
                         ChannelSummary.has_action_items :=
                           0 <? Z.of_nat (length action_items);
                         ChannelSummary.preview :=
                           truncate_text (Message.text first) 100;
                         ChannelSummary.top_messages := take 3 renamed |} ];
                  sc_message_count :=
                    sc_message_count s + Z.of_nat (length messages) |})
         end).
Proof. reflexivity. Qed.

(** An action item of a fetch is one of its mentions, renamed or not. *)
Lemma action_items_among_mentions (name me : str) (messages : list Message.t)
    (item : Message.t -> bool) (m : Message.t) :
  Forall (flagged_for me) messages ->
  (forall m, item m = true ->
             contains (mention_token me) (Message.text m) = true) ->
  In m (map (set_channel_name name) (List.filter item messages)) ->
  In m (List.filter Message.is_mention (map (set_channel_name name) messages)).
Proof.
  intros Hfl Hitem Hm. apply in_map_iff in Hm as (m0 & <- & Hm0).
  apply filter_In in Hm0 as [Hin0 Hf]. apply filter_In. split.
  - by apply in_map.
  - apply Hitem in Hf. rewrite Forall_forall in Hfl.
    pose proof (Hfl m0 (proj2 (list_elem_of_In _ _) Hin0)) as Hm0.
    unfold flagged_for in Hm0. unfold set_channel_name.
    cbn [Message.is_mention]. by rewrite Hm0.
Qed.

(** The channel summary that the loop makes of a fetch is tidy. *)
Lemma channel_summary_tidy (name me preview : str) (messages : list Message.t)
    (item : Message.t -> bool) :
  messages <> [] ->
  len preview <= 100 ->
  Forall (flagged_for me) messages ->
  (forall m, item m = true ->
             contains (mention_token me) (Message.text m) = true) ->
  tidy_channel
    {| ChannelSummary.name := name;
       ChannelSummary.message_count := Z.of_nat (length messages);
       ChannelSummary.unread_count := 0;
       ChannelSummary.has_mentions := existsb Message.is_mention messages;
       ChannelSummary.has_action_items :=
         0 <? Z.of_nat (length (map (set_channel_name name)
                                    (List.filter item messages)));
       ChannelSummary.preview := preview;
       ChannelSummary.top_messages :=
         take 3 (map (set_channel_name name) messages) |}.
Proof.
  intros Hne Hfit Hfl Hitem. unfold tidy_channel.
  cbn [ChannelSummary.name ChannelSummary.message_count
       ChannelSummary.unread_count ChannelSummary.has_mentions
       ChannelSummary.has_action_items ChannelSummary.preview
       ChannelSummary.top_messages].
  split; [|split; [done|split; [done|split; [|split]]]].
  - destruct messages; [done|]. cbn [length]. lia.
  - rewrite length_take, length_map. lia.
  - apply Forall_forall. intros m Hm.
    apply list_elem_of_In in Hm.
    assert (Hm' : In m (map (set_channel_name name) messages)).
    { apply list_elem_of_In.
      apply (subseteq_take 3 (map (set_channel_name name) messages)).
      by apply list_elem_of_In. }
    by apply in_map_iff in Hm' as (m0 & <- & _).
  - intros Hany. apply Z.ltb_lt in Hany.
    destruct (map (set_channel_name name) (List.filter item messages))
      as [|a l] eqn:Ea; [cbn [length] in Hany; lia|].
    assert (Ha : In a (List.filter Message.is_mention
                         (map (set_channel_name name) messages))).
    { apply (action_items_among_mentions name me messages item); try done.
      rewrite Ea. by left. }
    apply filter_In in Ha as [Ha1 Ha2].
    apply in_map_iff in Ha1 as (m0 & <- & Hm0).
    apply existsb_exists. by exists m0.
Qed.

(** What one run of the loop over the channels adds to the summary. *)
Lemma channel_loop_spec (convs : list Conversation.t) (s s' : scan) w w1 :
  channel_loop convs s w = (Ok s', w1) ->
  exists newM newA newC,
    sc_mentions s' = sc_mentions s ++ newM
    /\ sc_action_items s' = sc_action_items s ++ newA
    /\ sc_channels s' = sc_channels s ++ newC
    /\ Forall (fun m => Message.is_mention m = true) newM
    /\ (forall m, In m newA -> In m newM)
    /\ (length newC <= length convs)%nat
    /\ Forall tidy_channel newC
    /\ sc_message_count s'
       = sc_message_count s + total (map ChannelSummary.message_count newC).
Proof.
  revert s w. induction convs as [|conv convs IH]; intros s w.
  - intros [= <- _]. exists [], [], []. rewrite !app_nil_r.
    repeat split; try done; try constructor. unfold total.
    cbn [map foldr]. lia.
  - rewrite channel_loop_cons. unfold bind at 1.
    destruct (get_messages (Conversation.id conv) 50 None None w)
      as [[messages| |] w'] eqn:Eg; try done.
    destruct messages as [|first rest].
    { intros Hrest. apply IH in Hrest
        as (newM & newA & newC & HM & HA & HC & Hall & Hin & Hlen & Htidy & Hn).
      exists newM, newA, newC. cbn [length].
      repeat split; try done. lia. }
    destruct (get_messages_flagged _ _ _ _ _ _ _ Eg) as (me & Hme & Hfl);
      [done|].
    cbv beta iota zeta. unfold bind at 1.
    rewrite (action_flags_known _ me w' Hme). cbv beta iota.
    rewrite flagged_map.
    pose proof (SummarizerProps.truncate_text_fits (Message.text first) 100)
      as Hfit.
    revert Hfit. generalize (truncate_text (Message.text first) 100).
    intros preview Hfit.
    set (item := fun m => is_action_item m me).
    assert (Hitem : forall m, item m = true ->
              contains (mention_token me) (Message.text m) = true)
      by (intros m; apply is_action_item_mentions).
    clearbody item.
    assert (Hne : first :: rest <> []) by done.
    revert Hne Hfl. generalize (first :: rest). intros messages Hne Hfl.
    intros Hrest. apply IH in Hrest
      as (newM & newA & newC & HM & HA & HC & Hall & Hin & Hlen & Htidy & Hn).
    cbn [sc_mentions sc_action_items sc_channels sc_message_count]
      in HM, HA, HC, Hn.
    eexists (_ ++ newM), (_ ++ newA), (_ :: newC).
    split; [rewrite HM; symmetry; apply app_assoc|].
    split; [rewrite HA; symmetry; apply app_assoc|].
    split; [rewrite HC; exact (eq_sym (app_assoc _ [_] _))|].
    rewrite Hn.
    split; [|split; [|split; [|split]]].
    + apply Forall_app. split; [|done].
      apply Forall_forall. intros m Hm.
      by apply list_elem_of_In, filter_In in Hm as [_ Hm].
    + intros m Hm. apply in_app_iff. apply in_app_iff in Hm as [Hm|Hm].
      * left. by apply (action_items_among_mentions _ me messages item).
      * right. by apply Hin.
    + cbn [length]. lia.
    + constructor; [|done].
      apply (channel_summary_tidy _ me); try done. apply Hfit. lia.
    + unfold total in *. cbn [map foldr ChannelSummary.message_count]. lia.
Qed.

(** A summary that is returned is put together from the directory, one
    run of each loop and three sorts. *)
Lemma summarize_workspace_steps (fuel : nat) (hours max_channels : Z)
    (s : WorkspaceSummary.t) w w1 :
  summarize_workspace fuel hours max_channels w = (Ok s, w1) ->
  exists cutoff convs counted sc wa wb,
    dm_loop cutoff (take 10 (List.filter is_dm convs)) 0 [] wa
    = (Ok counted, wb)
    /\ channel_loop
         (list_slice_to (List.filter is_channel_or_group convs) max_channels)
         {| sc_mentions := []; sc_action_items := []; sc_channels := [];
            sc_message_count := 0 |} wb
       = (Ok sc, w1)
    /\ WorkspaceSummary.dm_count s = counted.1
    /\ WorkspaceSummary.dms s = take 20 (sort_by newest_first counted.2)
    /\ WorkspaceSummary.mentions s = sort_by newest_first (sc_mentions sc)
    /\ WorkspaceSummary.mention_count s
       = Z.of_nat (length (WorkspaceSummary.mentions s))
    /\ WorkspaceSummary.action_items s
       = sort_by newest_first (sc_action_items sc)
    /\ WorkspaceSummary.channels s = sort_by busiest_first (sc_channels sc)
    /\ WorkspaceSummary.channel_message_count s = sc_message_count sc.
Proof.
  unfold summarize_workspace, bind at 1, now. unfold bind at 1, get_self.
  unfold bind at 1.
  destruct (get_conversations fuel all_types true _) as [[convs| |] wa];
    try done.
  unfold bind at 1.
  destruct (dm_loop _ _ 0 [] wa) as [[counted| |] wb] eqn:Ed; try done.
  unfold bind at 1.
  destruct (channel_loop _ _ wb) as [[sc| |] wc] eqn:Ec; try done.
  unfold ret. intros [= <- <-].
  eexists _, convs, counted, sc, wa, wb. simpl. by repeat split.
Qed.

Lemma strongly_sorted_take {A} (R : A -> A -> Prop) (n : nat) (l : list A) :
  StronglySorted R l -> StronglySorted R (take n l).
Proof.
  intros Hs. revert n. induction Hs as [|x l Hs IH Hx]; intros [|n]; simpl;
    try constructor.
  - apply IH.
  - apply Forall_forall. intros y Hy. rewrite Forall_forall in Hx.
    apply Hx. by apply (subseteq_take n l).
Qed.

Lemma newest_first_sorted (l : list Message.t) :
  StronglySorted (fun a b => str_leb (Message.ts b) (Message.ts a) = true)
                 (sort_by newest_first l).
Proof.
  apply (sort_by_sorted newest_first); unfold newest_first.
  - intros a b. apply str_leb_total.
  - intros a b c Hab Hbc. by apply (str_leb_trans _ (Message.ts b)).
Qed.

Lemma total_perm (l1 l2 : list Z) : Permutation l1 l2 -> total l1 = total l2.
Proof.
  unfold total. induction 1; simpl; lia.
Qed.

(** The direct messages of a summary: the directory, the loop, the sort
    and the cut. *)
Lemma summarize_workspace_dms (fuel : nat) (hours max_channels : Z)
    (s : WorkspaceSummary.t) w w1 :
  summarize_workspace fuel hours max_channels w = (Ok s, w1) ->
  exists convs counted wa wb,
    get_conversations fuel all_types true
      {| self := self w; backend := (time_time (backend w)).2; log := log w |}
    = (Ok convs, wa)
    /\ dm_loop ((time_time (backend w)).1 - hours * 3600)
         (take 10 (List.filter is_dm convs)) 0 [] wa
       = (Ok counted, wb)
    /\ WorkspaceSummary.dm_count s = counted.1
    /\ WorkspaceSummary.dms s = take 20 (sort_by newest_first counted.2).
Proof.
  unfold summarize_workspace, bind at 1, now. unfold bind at 1, get_self.
  unfold bind at 1.
  destruct (get_conversations fuel all_types true _) as [[convs| |] wa] eqn:Eg;
    try done.
  unfold bind at 1.
  destruct (dm_loop _ _ 0 [] wa) as [[counted| |] wb] eqn:Ed; try done.
  unfold bind at 1.
  destruct (channel_loop _ _ wb) as [[sc| |] wc] eqn:Ec; try done.
  unfold ret. intros [= <- <-].
  exists convs, counted, wa, wb. simpl. by repeat split.
Qed.

(** The loop over the direct messages collects and counts what
    [get_messages] returns for each conversation in turn. *)
Lemma dm_loop_fetches (cutoff : Z) (convs : list Conversation.t) (n : Z)
    (dms : list Message.t) (r : Z * list Message.t) w w1 :
  dm_loop cutoff convs n dms w = (Ok r, w1) ->
  exists all,
    fetched_each 5 cutoff convs w all w1
    /\ r.1 = n + Z.of_nat (length all)
    /\ r.2 = dms ++ all.
Proof.
  revert n dms w. induction convs as [|conv convs IH]; intros n dms w; simpl.
  - intros [= <- <-]. exists []. simpl. rewrite app_nil_r.
    repeat split. lia.
  - unfold bind at 1.
    destruct (get_messages (Conversation.id conv) 5 (Some cutoff) None w)
      as [[fetched| |] w'] eqn:Eg; try done.
    destruct fetched as [|m ms]; cbn [map].
    + intros Hrest. apply IH in Hrest as (all & Hf & Hn & Hd).
      exists all. split; [|by split].
      exists [], w', all. by repeat split.
    + intros Hrest. apply IH in Hrest as (all & Hf & Hn & Hd).
      exists (set_channel_name (Conversation.name conv) m
              :: map (set_channel_name (Conversation.name conv)) ms ++ all).
      split; [|split].
      * exists (m :: ms), w', all. by repeat split.
      * rewrite Hn. cbn [length]. rewrite length_app, !length_map. lia.
      * rewrite Hd, <- app_assoc. reflexivity.
Qed.

(** What a sorted list keeps before a cut comes before what it leaves. *)
Lemma sorted_take_before_drop {A} (R : A -> A -> Prop) (n : nat) (l : list A) :
  StronglySorted R l ->
  Forall (fun d => Forall (fun k => R k d) (take n l)) (drop n l).
Proof.
  intros Hs. revert n. induction Hs as [|x l Hs IH Hx]; intros [|n]; simpl.
  - constructor.
  - constructor.
  - apply Forall_forall. intros d _. constructor.
  - specialize (IH n). rewrite Forall_forall in IH, Hx.
    apply Forall_forall. intros d Hd. constructor; [|by apply IH].
    apply Hx. by apply (subseteq_drop n l).
Qed.

(** X27. The summary counts every direct message read and keeps the twenty
    newest. With the directory as listed, [all] being what [get_messages]
    returns for its first ten direct messages in turn (at most five
    messages each, since the hour asked for): [dm_count] is the number of
    messages of [all]; the messages listed are messages of [all], twenty of
    them or all when there are fewer, sorted by message id, greatest first;
    and no message left out has a greater id than a message listed. *)
Theorem summary_keeps_twenty_direct_messages (fuel : nat)
    (hours max_channels : Z) (s : WorkspaceSummary.t) w w1 :
  summarize_workspace fuel hours max_channels w = (Ok s, w1) ->
  exists convs all dropped wa wb,
    get_conversations fuel all_types true
      {| self := self w; backend := (time_time (backend w)).2; log := log w |}
    = (Ok convs, wa)
    /\ fetched_each 5 ((time_time (backend w)).1 - hours * 3600)
         (take 10 (List.filter
                     (fun c => str_eqb (Conversation.type c) (py "dm")) convs))
         wa all wb
    /\ WorkspaceSummary.dm_count s = Z.of_nat (length all)
    /\ Permutation all (WorkspaceSummary.dms s ++ dropped)
    /\ Z.of_nat (length (WorkspaceSummary.dms s))
       = Z.min 20 (WorkspaceSummary.dm_count s)
    /\ StronglySorted
         (fun a b => str_leb (Message.ts b) (Message.ts a) = true)
         (WorkspaceSummary.dms s)
    /\ Forall (fun d =>
                 Forall (fun k => str_leb (Message.ts d) (Message.ts k) = true)
                        (WorkspaceSummary.dms s))
              dropped.
Proof.
  intros Hs. apply summarize_workspace_dms in Hs
    as (convs & counted & wa & wb & Hg & Hd & Hn & Hdms).
  apply dm_loop_fetches in Hd as (all & Hf & Hc & Ha).
  simpl in Ha. rewrite Z.add_0_l in Hc.
  exists convs, all, (drop 20 (sort_by newest_first all)), wa, wb.
  rewrite Hn, Hdms, Hc, Ha.
  split; [exact Hg|]. split; [exact Hf|]. split; [done|].
  split; [|split; [|split]].
  - by rewrite take_drop, (sort_by_perm newest_first all).
  - rewrite length_take, (Permutation_length (sort_by_perm _ _)). lia.
  - apply strongly_sorted_take, newest_first_sorted.
  - apply (sorted_take_before_drop
             (fun a b => str_leb (Message.ts b) (Message.ts a) = true)).
    apply newest_first_sorted.
Qed.

(** X28. The channels of a summary are the ones in which something was
    read, busiest first: each has at least one message, no unread count, a
    preview of at most 100 characters, its first three messages (or fewer,
    when it has fewer) under the channel's own name, and is marked as
    having mentions when it is marked as having action items; the message
    count of the summary is the sum of the channels' counts; and a bound
    that is not negative is kept: no more channels than [max_channels]. *)
Theorem summary_channels_are_busy_and_bounded (fuel : nat)
    (hours max_channels : Z) (s : WorkspaceSummary.t) w w1 :
  summarize_workspace fuel hours max_channels w = (Ok s, w1) ->
  Forall tidy_channel (WorkspaceSummary.channels s)
  /\ StronglySorted
       (fun a b => ChannelSummary.message_count b
                   <= ChannelSummary.message_count a)
       (WorkspaceSummary.channels s)
  /\ WorkspaceSummary.channel_message_count s
     = total (map ChannelSummary.message_count (WorkspaceSummary.channels s))
  /\ (0 <= max_channels ->
      Z.of_nat (length (WorkspaceSummary.channels s)) <= max_channels).
Proof.
  intros Hs. apply summarize_workspace_steps in Hs
    as (cutoff & convs & counted & sc & wa & wb & _ & Hc & _ & _ & _ & _ & _
        & Hch & Hn).
  apply channel_loop_spec in Hc
    as (newM & newA & newC & _ & _ & HC & _ & _ & Hlen & Htidy & Hcount).
  simpl in HC, Hcount. rewrite Hch, Hn, Hcount, HC.
  pose proof (sort_by_perm busiest_first newC) as Hp.
  split; [|split; [|split]].
  - by rewrite Hp.
  - apply (strongly_sorted_weaken (fun a b => busiest_first a b = true)).
    + intros a b. unfold busiest_first. apply Z.leb_le.
    + apply (sort_by_sorted busiest_first); unfold busiest_first.
      * intros a b Hab. apply Z.leb_le. apply Z.leb_gt in Hab. lia.
      * intros a b c Hab Hbc. apply Z.leb_le.
        apply Z.leb_le in Hab. apply Z.leb_le in Hbc. lia.
  - rewrite Z.add_0_l. apply total_perm. by rewrite Hp.
  - intros Hk. rewrite (Permutation_length Hp).
    unfold list_slice_to in Hlen. rewrite (proj2 (Z.leb_le 0 _) Hk) in Hlen.
    rewrite length_take in Hlen. lia.
Qed.

(** X29. Every action item of a summary is one of its mentions: the
    mentions are messages flagged as mentions, sorted by message id,
    greatest first, and counted by [mention_count]; the action items are
    sorted in the same way and each of them is listed among the mentions. *)
Theorem summary_action_items_are_mentions (fuel : nat)
    (hours max_channels : Z) (s : WorkspaceSummary.t) w w1 :
  summarize_workspace fuel hours max_channels w = (Ok s, w1) ->
  WorkspaceSummary.mention_count s
  = Z.of_nat (length (WorkspaceSummary.mentions s))
  /\ Forall (fun m => Message.is_mention m = true) (WorkspaceSummary.mentions s)
  /\ (forall m, In m (WorkspaceSummary.action_items s) ->
                In m (WorkspaceSummary.mentions s))
  /\ StronglySorted
       (fun a b => str_leb (Message.ts b) (Message.ts a) = true)
       (WorkspaceSummary.mentions s)
  /\ StronglySorted
       (fun a b => str_leb (Message.ts b) (Message.ts a) = true)
       (WorkspaceSummary.action_items s).
Proof.
  intros Hs. apply summarize_workspace_steps in Hs
    as (cutoff & convs & counted & sc & wa & wb & _ & Hc & _ & _ & Hm & Hmc
        & Ha & _).
  apply channel_loop_spec in Hc
    as (newM & newA & newC & HM & HA & _ & Hall & Hin & _).
  simpl in HM, HA. rewrite Hmc, Hm, Ha, HM, HA.
  split; [done|]. split; [|split; [|split]].
  - by rewrite (sort_by_perm newest_first newM).
  - intros m Hm'.
    apply (Permutation_in _ (sort_by_perm newest_first newA)) in Hm'.
    apply (Permutation_in _ (Permutation_sym (sort_by_perm newest_first newM))).
    by apply Hin.
  - apply newest_first_sorted.
  - apply newest_first_sorted.
Qed.

End Summary.

(** ** The properties at work on the scripted workspace *)

Lemma summary_keeps_twenty_direct_messages_witness :
  exists s w1 all dropped,
    summarize_workspace 5 24 10 (Fixture.fresh Fixture.crowded) = (Ok s, w1)
    /\ WorkspaceSummary.dm_count s = 30
    /\ WorkspaceSummary.dm_count s = Z.of_nat (length all)
    /\ Permutation all (WorkspaceSummary.dms s ++ dropped)
    /\ Z.of_nat (length (WorkspaceSummary.dms s)) = 20.
Proof.
  destruct (summarize_workspace 5 24 10 (Fixture.fresh Fixture.crowded))
    as [o w1] eqn:E.
  assert (Ho : exists s, o = Ok s /\ WorkspaceSummary.dm_count s = 30).
  { pose proof E as E'. vm_compute in E'. injection E' as <- _.
    eexists. split; reflexivity. }
  destruct Ho as (s & -> & Hn).
  destruct (summary_keeps_twenty_direct_messages _ _ _ _ _ _ E)
    as (convs & all & dropped & wa & wb & _ & _ & Hall & Hperm & Hlen & _).
  exists s, w1, all, dropped. split; [reflexivity|]. split; [exact Hn|].
  split; [exact Hall|]. split; [exact Hperm|].
  rewrite Hlen, Hn. reflexivity.
Defined.

Lemma summary_channels_are_busy_and_bounded_witness :
  exists s w1,
    summarize_workspace 5 24 10 (Fixture.fresh Fixture.busy) = (Ok s, w1)
    /\ length (WorkspaceSummary.channels s) = 2%nat
    /\ WorkspaceSummary.channel_message_count s = 6
    /\ Forall tidy_channel (WorkspaceSummary.channels s).
Proof.
  destruct (summarize_workspace 5 24 10 (Fixture.fresh Fixture.busy))
    as [o w1] eqn:E.
  assert (Ho : exists s, o = Ok s
            /\ length (WorkspaceSummary.channels s) = 2%nat
            /\ WorkspaceSummary.channel_message_count s = 6).
  { pose proof E as E'. vm_compute in E'. injection E' as <- _.
    eexists. split; [reflexivity|]. split; reflexivity. }
  destruct Ho as (s & -> & Hlen & Hn).
  exists s, w1. split; [reflexivity|]. split; [exact Hlen|].
  split; [exact Hn|].
  exact (proj1 (summary_channels_are_busy_and_bounded _ _ _ _ _ _ E)).
Defined.

Lemma summary_action_items_are_mentions_witness :
  exists s w1,
    summarize_workspace 5 24 10 (Fixture.fresh Fixture.busy) = (Ok s, w1)
    /\ length (WorkspaceSummary.action_items s) = 2%nat
    /\ WorkspaceSummary.mention_count s = 4
    /\ (forall m, In m (WorkspaceSummary.action_items s) ->
                  In m (WorkspaceSummary.mentions s)).
Proof.
  destruct (summarize_workspace 5 24 10 (Fixture.fresh Fixture.busy))
    as [o w1] eqn:E.
  assert (Ho : exists s, o = Ok s
            /\ length (WorkspaceSummary.action_items s) = 2%nat
            /\ WorkspaceSummary.mention_count s = 4).
  { pose proof E as E'. vm_compute in E'. injection E' as <- _.
    eexists. split; [reflexivity|]. split; reflexivity. }
  destruct Ho as (s & -> & Hlen & Hn).
  exists s, w1. split; [reflexivity|]. split; [exact Hlen|].
  split; [exact Hn|].
  exact (proj1 (proj2 (proj2
           (summary_action_items_are_mentions _ _ _ _ _ _ E)))).
Defined.

End SummaryExtras.
